(** * erc20gen: the token configuration, its validation and composition rules

    A shallow embedding of [internal/config/config.go].  Go strings are byte
    strings ([string], one [ascii] per byte); the parts of Go's standard
    library the configuration code calls ([unicode/utf8], [unicode],
    [strings], [regexp], [math/big], [fmt]) are embedded first, then the
    [TokenConfig] record and its methods, then the properties. *)

From Stdlib Require Import ZArith NArith List Bool Ascii String Lia.
Import ListNotations.

Local Open Scope string_scope.
Local Open Scope list_scope.
Local Open Scope Z_scope.

(** A Go [rune] is an [int32]; a code point is kept as an integer. *)
Definition rune := Z.

(** ** Bytes *)

Definition byte_val (a : ascii) : Z := Z.of_N (N_of_ascii a).
Definition byte_of (z : Z) : ascii := ascii_of_N (Z.to_N z).

Definition bytes (s : string) : list ascii := list_ascii_of_string s.
Definition of_bytes (l : list ascii) : string := string_of_list_ascii l.

(** ** unicode/utf8 *)
Module utf8.

Definition RuneError : rune := 65533.   (* U+FFFD *)
Definition RuneSelf : Z := 128.
Definition MaxRune : rune := 1114111.   (* U+10FFFF *)

(** Continuation bytes are 0x80..0xBF ([locb], [hicb]). *)
Definition is_cont (b : Z) : bool := (128 <=? b) && (b <=? 191).

(** The [first] table with [acceptRanges]: for a leading byte, the size of
    the sequence and the range accepted for the second byte. *)
Definition accept (b0 : Z) : option (nat * Z * Z) :=
  if (194 <=? b0) && (b0 <=? 223) then Some (2%nat, 128, 191)
  else if b0 =? 224 then Some (3%nat, 160, 191)
  else if (225 <=? b0) && (b0 <=? 236) then Some (3%nat, 128, 191)
  else if b0 =? 237 then Some (3%nat, 128, 159)
  else if (238 <=? b0) && (b0 <=? 239) then Some (3%nat, 128, 191)
  else if b0 =? 240 then Some (4%nat, 144, 191)
  else if (241 <=? b0) && (b0 <=? 243) then Some (4%nat, 128, 191)
  else if b0 =? 244 then Some (4%nat, 128, 143)
  else None.

(** [utf8.DecodeRuneInString]: the first rune of [s] and its width in bytes;
    [(RuneError, 0)] on the empty string, [(RuneError, 1)] on an invalid
    encoding.  Masks and shifts are written as [mod] and multiplication. *)
Definition DecodeRuneInString (s : string) : rune * nat :=
  match s with
  | EmptyString => (RuneError, 0%nat)
  | String a0 s1 =>
    let b0 := byte_val a0 in
    if b0 <? RuneSelf then (b0, 1%nat)
    else
      match accept b0 with
      | None => (RuneError, 1%nat)
      | Some (sz, lo, hi) =>
        match s1 with
        | EmptyString => (RuneError, 1%nat)
        | String a1 s2 =>
          let b1 := byte_val a1 in
          if (b1 <? lo) || (hi <? b1) then (RuneError, 1%nat)
          else if (sz <=? 2)%nat then ((b0 mod 32) * 64 + b1 mod 64, 2%nat)
          else
            match s2 with
            | EmptyString => (RuneError, 1%nat)
            | String a2 s3 =>
              let b2 := byte_val a2 in
              if negb (is_cont b2) then (RuneError, 1%nat)
              else if (sz <=? 3)%nat
                then ((b0 mod 16) * 4096 + (b1 mod 64) * 64 + b2 mod 64, 3%nat)
              else
                match s3 with
                | EmptyString => (RuneError, 1%nat)
                | String a3 _ =>
                  let b3 := byte_val a3 in
                  if negb (is_cont b3) then (RuneError, 1%nat)
                  else ((b0 mod 8) * 262144 + (b1 mod 64) * 4096
                        + (b2 mod 64) * 64 + b3 mod 64, 4%nat)
                end
            end
        end
      end
  end.

(** [utf8.RuneStart]: the byte is not a continuation byte. *)
Definition RuneStart (b : Z) : bool := negb (is_cont b).

(** The last [k] bytes of a string given by its reversed bytes. *)
Definition last_bytes (k : nat) (rev_s : list ascii) : string :=
  of_bytes (rev (firstn k rev_s)).

(** [utf8.DecodeLastRuneInString], on the reversed bytes of the string: the
    last rune and its width.  The search for the start of the rune looks at
    most [UTFMax - 1] bytes back from the last one. *)
Definition DecodeLastRune (rev_s : list ascii) : rune * nat :=
  match rev_s with
  | [] => (RuneError, 0%nat)
  | a :: before =>
    let b := byte_val a in
    if b <? RuneSelf then (b, 1%nat)
    else
      let try (k : nat) : rune * nat :=
        let (r, size) := DecodeRuneInString (last_bytes k rev_s) in
        if (size =? k)%nat then (r, size) else (RuneError, 1%nat) in
      match before with
      | [] => (RuneError, 1%nat)
      | a1 :: before1 =>
        if RuneStart (byte_val a1) then try 2%nat
        else
          match before1 with
          | [] => (RuneError, 1%nat)
          | a2 :: before2 =>
            if RuneStart (byte_val a2) then try 3%nat
            else
              match before2 with
              | [] => (RuneError, 1%nat)
              | a3 :: _ =>
                if RuneStart (byte_val a3) then try 4%nat
                else (RuneError, 1%nat)
              end
          end
      end
  end.

(** [utf8.AppendRune]: the UTF-8 encoding of a rune; surrogates and values
    out of range (negative ones too, read as [uint32]) are encoded as
    [RuneError]. *)
Definition enc3 (r : rune) : string :=
  String (byte_of (224 + r / 4096))
 (String (byte_of (128 + (r / 64) mod 64))
 (String (byte_of (128 + r mod 64)) EmptyString)).

Definition EncodeRune (r : rune) : string :=
  if (0 <=? r) && (r <=? 127) then String (byte_of r) EmptyString
  else if (0 <=? r) && (r <=? 2047) then
    String (byte_of (192 + r / 64))
   (String (byte_of (128 + r mod 64)) EmptyString)
  else if (r <? 0) || (MaxRune <? r) || ((55296 <=? r) && (r <=? 57343))
    then enc3 RuneError
  else if r <=? 65535 then enc3 r
  else
    String (byte_of (240 + r / 262144))
   (String (byte_of (128 + (r / 4096) mod 64))
   (String (byte_of (128 + (r / 64) mod 64))
   (String (byte_of (128 + r mod 64)) EmptyString))).

(** The runes of a string, as [for _, r := range s] visits them: each
    invalid byte yields one [RuneError].  [skip] counts the bytes that still
    belong to the rune decoded last. *)
Fixpoint runes_from (skip : nat) (s : string) : list rune :=
  match s with
  | EmptyString => []
  | String _ s' =>
    match skip with
    | S k => runes_from k s'
    | O => let (r, w) := DecodeRuneInString s in r :: runes_from (pred w) s'
    end
  end.

Definition runes (s : string) : list rune := runes_from 0 s.

(** [utf8.RuneCountInString]. *)
Definition RuneCountInString (s : string) : nat := List.length (runes s).

End utf8.

(** ** Tables of the Go runtime that are not part of the repository

    The Unicode property tables beyond Latin-1 and the quoting of [%q] are
    data of the Go distribution; the development is parametric in them. *)
Class GoTables := {
  (** [unicode.Letter], for runes above U+00FF *)
  unicode_Letter : rune -> bool;
  (** [unicode.Digit], for runes above U+00FF *)
  unicode_Digit : rune -> bool;
  (** [unicode.To(UpperCase, r)], for runes above U+007F *)
  unicode_UpperCase : rune -> rune;
  (** [strconv.Quote], the rendering of the verb [%q] on a string *)
  strconv_Quote : string -> string
}.

(** ** unicode *)
Module unicode.

Definition MaxASCII : rune := 127.
Definition MaxLatin1 : rune := 255.

Definition in_range (lo hi r : rune) : bool := (lo <=? r) && (r <=? hi).

(** The letters of Latin-1 (the [pLmask] bits of [properties]). *)
Definition latin1_letter (r : rune) : bool :=
  in_range 65 90 r || in_range 97 122 r || (r =? 170) || (r =? 181)
  || (r =? 186) || in_range 192 214 r || in_range 216 246 r
  || in_range 248 255 r.

Definition IsLetter `{GoTables} (r : rune) : bool :=
  if in_range 0 MaxLatin1 r then latin1_letter r else unicode_Letter r.

Definition IsDigit `{GoTables} (r : rune) : bool :=
  if r <=? MaxLatin1 then in_range 48 57 r else unicode_Digit r.

(** The [White_Space] table above Latin-1. *)
Definition White_Space (r : rune) : bool :=
  (r =? 5760) || in_range 8192 8202 r || in_range 8232 8233 r
  || (r =? 8239) || (r =? 8287) || (r =? 12288).

Definition IsSpace (r : rune) : bool :=
  if in_range 0 MaxLatin1 r
  then in_range 9 13 r || (r =? 32) || (r =? 133) || (r =? 160)
  else White_Space r.

Definition ToUpper `{GoTables} (r : rune) : rune :=
  if r <=? MaxASCII then (if in_range 97 122 r then r - 32 else r)
  else unicode_UpperCase r.

End unicode.

(** ** strings *)
Module strings.

(** [strings.Join]. *)
Definition Join (elems : list string) (sep : string) : string :=
  String.concat sep elems.

(** [strings.Map]: every rune of [s] is replaced by its image, encoded in
    UTF-8; a negative image drops the rune. *)
Definition Map (mapping : rune -> rune) (s : string) : string :=
  String.concat ""
    (map (fun c => let r := mapping c in
                   if r <? 0 then "" else utf8.EncodeRune r)
         (utf8.runes s)).

Definition is_ascii (s : string) : bool :=
  forallb (fun a => byte_val a <? utf8.RuneSelf) (bytes s).

Fixpoint map_bytes (f : Z -> Z) (s : string) : string :=
  match s with
  | EmptyString => EmptyString
  | String a s' => String (byte_of (f (byte_val a))) (map_bytes f s')
  end.

(** [strings.ToUpper]: bytewise on an ASCII string, by runes otherwise. *)
Definition ToUpper `{GoTables} (s : string) : string :=
  if is_ascii s
  then map_bytes (fun c => if unicode.in_range 97 122 c then c - 32 else c) s
  else Map unicode.ToUpper s.

(** [strings.TrimLeftFunc]: [s] from its first rune that does not satisfy
    [f] on. *)
Fixpoint TrimLeft_from (f : rune -> bool) (skip : nat) (s : string) : string :=
  match s with
  | EmptyString => EmptyString
  | String _ s' =>
    match skip with
    | S k => TrimLeft_from f k s'
    | O => let (r, w) := utf8.DecodeRuneInString s in
           if f r then TrimLeft_from f (pred w) s' else s
    end
  end.

Definition TrimLeftFunc (s : string) (f : rune -> bool) : string :=
  TrimLeft_from f 0 s.

(** [strings.TrimRightFunc], on the reversed bytes: runes are decoded from
    the end while they satisfy [f]; [suffix] holds the bytes already passed.
    At the last rune that does not satisfy [f], at index [i], the result is
    [s[0:i+wid]] with [wid] the width of the rune decoded forwards at [i]
    (1 for an ASCII byte). *)
Fixpoint TrimRight_from (f : rune -> bool) (skip : nat)
    (rev_s suffix : list ascii) : string :=
  match rev_s with
  | [] => EmptyString
  | a :: rest =>
    match skip with
    | S k => TrimRight_from f k rest (a :: suffix)
    | O =>
      let (r, size) := utf8.DecodeLastRune rev_s in
      if f r then TrimRight_from f (pred size) rest (a :: suffix)
      else
        let tail := rev (firstn size rev_s) ++ suffix in
        let wid :=
          match tail with
          | c :: _ => if utf8.RuneSelf <=? byte_val c
                      then snd (utf8.DecodeRuneInString (of_bytes tail))
                      else 1%nat
          | [] => 1%nat
          end in
        of_bytes (rev (skipn size rev_s) ++ firstn wid tail)
    end
  end.

Definition TrimRightFunc (s : string) (f : rune -> bool) : string :=
  TrimRight_from f 0 (rev (bytes s)) [].

Definition TrimFunc (s : string) (f : rune -> bool) : string :=
  TrimRightFunc (TrimLeftFunc s f) f.

(** The [asciiSpace] table. *)
Definition asciiSpace (c : Z) : bool := unicode.in_range 9 13 c || (c =? 32).

(** The second loop of [strings.TrimSpace], on the reversed bytes of
    [s[start:]]. *)
Fixpoint TrimSpace_stop (rev_s : list ascii) : string :=
  match rev_s with
  | [] => EmptyString
  | a :: rest =>
    let c := byte_val a in
    if utf8.RuneSelf <=? c then TrimRightFunc (of_bytes (rev rev_s)) unicode.IsSpace
    else if asciiSpace c then TrimSpace_stop rest
    else of_bytes (rev rev_s)
  end.

(** [strings.TrimSpace]: the ASCII fast path, and the fall back to
    [TrimFunc] at the first byte that is not ASCII. *)
Fixpoint TrimSpace (s : string) : string :=
  match s with
  | EmptyString => EmptyString
  | String a s' =>
    let c := byte_val a in
    if utf8.RuneSelf <=? c then TrimFunc s unicode.IsSpace
    else if asciiSpace c then TrimSpace s'
    else TrimSpace_stop (rev (bytes s))
  end.

End strings.

(** ** regexp

    The three expressions of the package have the shape [^[class]{min,max}$]
    ([+] is [{1,}]); [$] without flags matches at the end of the text only.
    Matching is on runes. *)
Module regexp.

Record Regexp := {
  class : rune -> bool;
  min_rep : nat;
  max_rep : option nat
}.

Definition MatchString (re : Regexp) (s : string) : bool :=
  let rs := utf8.runes s in
  (min_rep re <=? List.length rs)%nat
  && match max_rep re with
     | Some n => (List.length rs <=? n)%nat
     | None => true
     end
  && forallb (class re) rs.

End regexp.

(** ** math/big *)
Module big.

Definition digit_val (a : ascii) : option Z :=
  let b := byte_val a in
  if unicode.in_range 48 57 b then Some (b - 48) else None.

Fixpoint scan_digits (acc : Z) (s : string) : option Z :=
  match s with
  | EmptyString => Some acc
  | String a s' =>
    match digit_val a with
    | Some d => scan_digits (acc * 10 + d) s'
    | None => None
    end
  end.

(** [new(big.Int).SetString(s, 10)]: an optional sign, then one or more
    decimal digits, and nothing else; [None] is the [nil] result. *)
Definition SetString10 (s : string) : option Z :=
  match s with
  | EmptyString => None
  | String a s' =>
    if (byte_val a =? 45) || (byte_val a =? 43) then
      match s' with
      | EmptyString => None
      | _ => if byte_val a =? 45 then option_map Z.opp (scan_digits 0 s')
             else scan_digits 0 s'
      end
    else scan_digits 0 s
  end.

End big.

(** ** The configuration (package [config]) *)

(** [AccessControlType] is a string type; any string can be stored in it. *)
Definition AccessControlType := string.

Definition AccessOwnable : AccessControlType := "ownable".
Definition AccessRoles : AccessControlType := "roles".
Definition AccessNone : AccessControlType := "none".

Record TokenConfig := {
  Name : string;
  Symbol : string;
  Decimals : N;                    (* uint8 *)
  InitialSupply : string;
  MaxSupply : string;
  Mintable : bool;
  Burnable : bool;
  Pausable : bool;
  Permit : bool;
  Snapshot : bool;
  Votes : bool;
  AccessControl : AccessControlType;
  License : string;
  SolidityVersion : string;
  WithDeploy : bool;
  WithTest : bool
}.

(** Assignments to the fields that [Validate] writes. *)
Definition set_AccessControl (c : TokenConfig) (v : AccessControlType) :=
  {| Name := Name c; Symbol := Symbol c; Decimals := Decimals c;
     InitialSupply := InitialSupply c; MaxSupply := MaxSupply c;
     Mintable := Mintable c; Burnable := Burnable c; Pausable := Pausable c;
     Permit := Permit c; Snapshot := Snapshot c; Votes := Votes c;
     AccessControl := v; License := License c;
     SolidityVersion := SolidityVersion c;
     WithDeploy := WithDeploy c; WithTest := WithTest c |}.

Definition set_Snapshot (c : TokenConfig) (v : bool) :=
  {| Name := Name c; Symbol := Symbol c; Decimals := Decimals c;
     InitialSupply := InitialSupply c; MaxSupply := MaxSupply c;
     Mintable := Mintable c; Burnable := Burnable c; Pausable := Pausable c;
     Permit := Permit c; Snapshot := v; Votes := Votes c;
     AccessControl := AccessControl c; License := License c;
     SolidityVersion := SolidityVersion c;
     WithDeploy := WithDeploy c; WithTest := WithTest c |}.

Definition set_License (c : TokenConfig) (v : string) :=
  {| Name := Name c; Symbol := Symbol c; Decimals := Decimals c;
     InitialSupply := InitialSupply c; MaxSupply := MaxSupply c;
     Mintable := Mintable c; Burnable := Burnable c; Pausable := Pausable c;
     Permit := Permit c; Snapshot := Snapshot c; Votes := Votes c;
     AccessControl := AccessControl c; License := v;
     SolidityVersion := SolidityVersion c;
     WithDeploy := WithDeploy c; WithTest := WithTest c |}.

Definition set_SolidityVersion (c : TokenConfig) (v : string) :=
  {| Name := Name c; Symbol := Symbol c; Decimals := Decimals c;
     InitialSupply := InitialSupply c; MaxSupply := MaxSupply c;
     Mintable := Mintable c; Burnable := Burnable c; Pausable := Pausable c;
     Permit := Permit c; Snapshot := Snapshot c; Votes := Votes c;
     AccessControl := AccessControl c; License := License c;
     SolidityVersion := v;
     WithDeploy := WithDeploy c; WithTest := WithTest c |}.

(** [validSymbolRe = ^[A-Z0-9]{1,11}$] *)
Definition validSymbolRe : regexp.Regexp :=
  {| regexp.class := fun r => unicode.in_range 65 90 r || unicode.in_range 48 57 r;
     regexp.min_rep := 1; regexp.max_rep := Some 11%nat |}.

(** [validNameRe = ^[A-Za-z0-9 _\-]{1,64}$] *)
Definition validNameRe : regexp.Regexp :=
  {| regexp.class := fun r =>
       unicode.in_range 65 90 r || unicode.in_range 97 122 r
       || unicode.in_range 48 57 r || (r =? 32) || (r =? 95) || (r =? 45);
     regexp.min_rep := 1; regexp.max_rep := Some 64%nat |}.

(** [validDecimalNum = ^\d+$]; [\d] is [[0-9]]. *)
Definition validDecimalNum : regexp.Regexp :=
  {| regexp.class := unicode.in_range 48 57;
     regexp.min_rep := 1; regexp.max_rep := None |}.

(** An [error] is its message; [None] is [nil]. *)
Definition error := option string.

Section Config.
Context `{GoTables}.

Definition validateSupplyString (s : string) : error :=
  let s := strings.TrimSpace s in
  if negb (regexp.MatchString validDecimalNum s) then
    Some (strconv_Quote s ++ " is not a valid positive integer")%string
  else
    match big.SetString10 s with
    | None => Some (strconv_Quote s ++ " cannot be parsed as an integer")%string
    | Some n =>
      if n <? 0 then Some "must be a non-negative integer" else None
    end.

Definition msg_name_required := "token name is required".
Definition msg_name_invalid :=
  "token name must be 1-64 alphanumeric characters (spaces, hyphens, underscores allowed)".
Definition msg_symbol_required := "token symbol is required".
Definition msg_symbol_invalid :=
  "token symbol must be 1-11 uppercase letters/digits (e.g. MTK, USDC)".
Definition msg_decimals := "decimals must be between 0 and 18".
Definition msg_exceeds := "initial supply cannot exceed max supply".

(** The bytes between [%q] and [must be] in the access-control message, as
    they stand in the source file. *)
Definition access_dash : string :=
  of_bytes (map byte_of [195; 162; 226; 130; 172; 226; 128; 157]).

Definition msg_access (a : AccessControlType) : string :=
  ("invalid access control type " ++ strconv_Quote a ++ " " ++ access_dash
   ++ " must be: ownable, roles, or none")%string.

(** The blocks of [Validate], in the order of the source; each takes the
    slice [errs] built so far and returns it after its [append]s. *)

(* Name *)
Definition check_Name (c : TokenConfig) (errs : list string) : list string :=
  if String.eqb (strings.TrimSpace (Name c)) "" then
    errs ++ [msg_name_required]
  else if negb (regexp.MatchString validNameRe (Name c)) then
    errs ++ [msg_name_invalid]
  else errs.

(* Symbol *)
Definition check_Symbol (c : TokenConfig) (errs : list string) : list string :=
  if String.eqb (strings.TrimSpace (Symbol c)) "" then
    errs ++ [msg_symbol_required]
  else if negb (regexp.MatchString validSymbolRe (strings.ToUpper (Symbol c))) then
    errs ++ [msg_symbol_invalid]
  else errs.

(* Decimals *)
Definition check_Decimals (c : TokenConfig) (errs : list string) : list string :=
  if (18 <? Decimals c)%N then errs ++ [msg_decimals] else errs.

(* Initial supply *)
Definition check_InitialSupply (c : TokenConfig) (errs : list string) : list string :=
  if negb (String.eqb (InitialSupply c) "") then
    match validateSupplyString (InitialSupply c) with
    | Some err => errs ++ [("initial supply: " ++ err)%string]
    | None => errs
    end
  else errs.

(* Max supply *)
Definition check_MaxSupply (c : TokenConfig) (errs : list string) : list string :=
  if negb (String.eqb (MaxSupply c) "") then
    let errs :=
      match validateSupplyString (MaxSupply c) with
      | Some err => errs ++ [("max supply: " ++ err)%string]
      | None => errs
      end in
    (* Ensure max >= initial *)
    if negb (String.eqb (InitialSupply c) "") then
      match big.SetString10 (InitialSupply c), big.SetString10 (MaxSupply c) with
      | Some initial, Some max =>
        if max <? initial then errs ++ [msg_exceeds] else errs
      | _, _ => errs
      end
    else errs
  else errs.

(* Access control *)
Definition check_AccessControl (c : TokenConfig) (errs : list string)
    : TokenConfig * list string :=
  if String.eqb (AccessControl c) AccessOwnable
     || String.eqb (AccessControl c) AccessRoles
     || String.eqb (AccessControl c) AccessNone then (c, errs)
  else if String.eqb (AccessControl c) "" then
    (set_AccessControl c AccessOwnable, errs)
  else (c, errs ++ [msg_access (AccessControl c)]).

(* Votes requires Snapshot *)
Definition couple_Snapshot (c : TokenConfig) : TokenConfig :=
  if Votes c && negb (Snapshot c) then set_Snapshot c true else c.

(* License *)
Definition default_License (c : TokenConfig) : TokenConfig :=
  if String.eqb (License c) "" then set_License c "MIT" else c.

(* Solidity version *)
Definition default_SolidityVersion (c : TokenConfig) : TokenConfig :=
  if String.eqb (SolidityVersion c) "" then set_SolidityVersion c "^0.8.24"
  else c.

(** The body of [Validate] up to its last statement: the receiver after the
    assignments, and the slice [errs]. *)
Definition Validate_body (c : TokenConfig) : TokenConfig * list string :=
  let errs : list string := [] in
  let errs := check_Name c errs in
  let errs := check_Symbol c errs in
  let errs := check_Decimals c errs in
  let errs := check_InitialSupply c errs in
  let errs := check_MaxSupply c errs in
  let '(c, errs) := check_AccessControl c errs in
  let c := couple_Snapshot c in
  let c := default_License c in
  let c := default_SolidityVersion c in
  (c, errs).

(** [Validate]: the configuration after the call and the error returned. *)
Definition Validate (c : TokenConfig) : TokenConfig * error :=
  let '(c, errs) := Validate_body c in
  if (0 <? List.length errs)%nat
  then (c, Some (strings.Join errs (String "010" "  - ")))
  else (c, None).

(** [SafeName]: the token name made safe for a file name. *)
Definition SafeName (c : TokenConfig) : string :=
  strings.Map (fun r =>
    if unicode.IsLetter r || unicode.IsDigit r then r else 95) (Name c).

Definition ContractFileName (c : TokenConfig) : string :=
  (SafeName c ++ ".sol")%string.

Definition HasAccessControl (c : TokenConfig) : bool :=
  negb (String.eqb (AccessControl c) AccessNone).

Definition NeedsOwnable (c : TokenConfig) : bool :=
  String.eqb (AccessControl c) AccessOwnable.

Definition NeedsRoles (c : TokenConfig) : bool :=
  String.eqb (AccessControl c) AccessRoles.

(** [append(list, x)] under a condition. *)
Definition append_if (b : bool) (l : list string) (x : string) : list string :=
  if b then l ++ [x] else l.

Definition ImportPaths (c : TokenConfig) : list string :=
  let imports : list string := [] in
  let imports := imports ++ ["@openzeppelin/contracts/token/ERC20/ERC20.sol"] in
  let imports := append_if (Burnable c) imports
    "@openzeppelin/contracts/token/ERC20/extensions/ERC20Burnable.sol" in
  let imports :=
    if Pausable c then
      (imports ++ ["@openzeppelin/contracts/token/ERC20/extensions/ERC20Pausable.sol"])
      ++ ["@openzeppelin/contracts/utils/Pausable.sol"]
    else imports in
  let imports := append_if (Permit c) imports
    "@openzeppelin/contracts/token/ERC20/extensions/ERC20Permit.sol" in
  let imports := append_if (Snapshot c) imports
    "@openzeppelin/contracts/token/ERC20/extensions/ERC20Snapshot.sol" in
  let imports := append_if (Votes c) imports
    "@openzeppelin/contracts/token/ERC20/extensions/ERC20Votes.sol" in
  let imports := append_if (negb (String.eqb (MaxSupply c) "")) imports
    "@openzeppelin/contracts/token/ERC20/extensions/ERC20Capped.sol" in
  let imports := append_if (NeedsOwnable c) imports
    "@openzeppelin/contracts/access/Ownable.sol" in
  let imports := append_if (NeedsRoles c) imports
    "@openzeppelin/contracts/access/AccessControl.sol" in
  imports.

Definition InheritanceList (c : TokenConfig) : list string :=
  let list : list string := [] in
  let list := append_if (negb (String.eqb (MaxSupply c) "")) list "ERC20Capped" in
  let list := append_if (Burnable c) list "ERC20Burnable" in
  let list := append_if (Pausable c) list "ERC20Pausable" in
  let list := append_if (Permit c) list "ERC20Permit" in
  let list := append_if (Snapshot c) list "ERC20Snapshot" in
  let list := append_if (Votes c) list "ERC20Votes" in
  let list := append_if (NeedsOwnable c) list "Ownable" in
  let list := append_if (NeedsRoles c) list "AccessControl" in
  list.

End Config.

(** Assignments to the other fields, as the callers of the package write
    them. *)
Definition set_Name (c : TokenConfig) (v : string) :=
  Build_TokenConfig v (Symbol c) (Decimals c) (InitialSupply c) (MaxSupply c)
    (Mintable c) (Burnable c) (Pausable c) (Permit c) (Snapshot c) (Votes c)
    (AccessControl c) (License c) (SolidityVersion c) (WithDeploy c) (WithTest c).

Definition set_Symbol (c : TokenConfig) (v : string) :=
  Build_TokenConfig (Name c) v (Decimals c) (InitialSupply c) (MaxSupply c)
    (Mintable c) (Burnable c) (Pausable c) (Permit c) (Snapshot c) (Votes c)
    (AccessControl c) (License c) (SolidityVersion c) (WithDeploy c) (WithTest c).

Definition set_Decimals (c : TokenConfig) (v : N) :=
  Build_TokenConfig (Name c) (Symbol c) v (InitialSupply c) (MaxSupply c)
    (Mintable c) (Burnable c) (Pausable c) (Permit c) (Snapshot c) (Votes c)
    (AccessControl c) (License c) (SolidityVersion c) (WithDeploy c) (WithTest c).

Definition set_InitialSupply (c : TokenConfig) (v : string) :=
  Build_TokenConfig (Name c) (Symbol c) (Decimals c) v (MaxSupply c)
    (Mintable c) (Burnable c) (Pausable c) (Permit c) (Snapshot c) (Votes c)
    (AccessControl c) (License c) (SolidityVersion c) (WithDeploy c) (WithTest c).

Definition set_MaxSupply (c : TokenConfig) (v : string) :=
  Build_TokenConfig (Name c) (Symbol c) (Decimals c) (InitialSupply c) v
    (Mintable c) (Burnable c) (Pausable c) (Permit c) (Snapshot c) (Votes c)
    (AccessControl c) (License c) (SolidityVersion c) (WithDeploy c) (WithTest c).

Definition set_Mintable (c : TokenConfig) (v : bool) :=
  Build_TokenConfig (Name c) (Symbol c) (Decimals c) (InitialSupply c)
    (MaxSupply c) v (Burnable c) (Pausable c) (Permit c) (Snapshot c) (Votes c)
    (AccessControl c) (License c) (SolidityVersion c) (WithDeploy c) (WithTest c).

Definition set_Burnable (c : TokenConfig) (v : bool) :=
  Build_TokenConfig (Name c) (Symbol c) (Decimals c) (InitialSupply c)
    (MaxSupply c) (Mintable c) v (Pausable c) (Permit c) (Snapshot c) (Votes c)
    (AccessControl c) (License c) (SolidityVersion c) (WithDeploy c) (WithTest c).

Definition set_Pausable (c : TokenConfig) (v : bool) :=
  Build_TokenConfig (Name c) (Symbol c) (Decimals c) (InitialSupply c)
    (MaxSupply c) (Mintable c) (Burnable c) v (Permit c) (Snapshot c) (Votes c)
    (AccessControl c) (License c) (SolidityVersion c) (WithDeploy c) (WithTest c).

Definition set_Permit (c : TokenConfig) (v : bool) :=
  Build_TokenConfig (Name c) (Symbol c) (Decimals c) (InitialSupply c)
    (MaxSupply c) (Mintable c) (Burnable c) (Pausable c) v (Snapshot c) (Votes c)
    (AccessControl c) (License c) (SolidityVersion c) (WithDeploy c) (WithTest c).

Definition set_Votes (c : TokenConfig) (v : bool) :=
  Build_TokenConfig (Name c) (Symbol c) (Decimals c) (InitialSupply c)
    (MaxSupply c) (Mintable c) (Burnable c) (Pausable c) (Permit c) (Snapshot c) v
    (AccessControl c) (License c) (SolidityVersion c) (WithDeploy c) (WithTest c).

Definition set_WithDeploy (c : TokenConfig) (v : bool) :=
  Build_TokenConfig (Name c) (Symbol c) (Decimals c) (InitialSupply c)
    (MaxSupply c) (Mintable c) (Burnable c) (Pausable c) (Permit c) (Snapshot c)
    (Votes c) (AccessControl c) (License c) (SolidityVersion c) v (WithTest c).

Definition set_WithTest (c : TokenConfig) (v : bool) :=
  Build_TokenConfig (Name c) (Symbol c) (Decimals c) (InitialSupply c)
    (MaxSupply c) (Mintable c) (Burnable c) (Pausable c) (Permit c) (Snapshot c)
    (Votes c) (AccessControl c) (License c) (SolidityVersion c) (WithDeploy c) v.

(** [&config.TokenConfig{}]: every field at its zero value. *)
Definition zeroConfig : TokenConfig :=
  Build_TokenConfig "" "" 0 "" "" false false false false false false "" "" ""
    false false.

(** The em dash U+2014 of the labels and messages, in UTF-8. *)
Definition emdash : string := of_bytes (map byte_of [226; 128; 148]).

(** ** Package [generator]: the template function [quote] *)
Module generator.

(** The template function [quote]: its argument between two double
    quotes (byte 34). *)
Definition quote (s : string) : string :=
  (String "034" s ++ String "034" "")%string.

End generator.

(** ** Package [cmd] ([cmd/generate.go]) *)
Module cmd.

(** The flags of the [generate] command after parsing, one field per flag
    that [buildConfigFromFlags] reads. *)
Record GenerateFlags := {
  flag_name : string;
  flag_symbol : string;
  flag_decimals : N;               (* uint8 *)
  flag_initial_supply : string;
  flag_max_supply : string;
  flag_mintable : bool;
  flag_burnable : bool;
  flag_pausable : bool;
  flag_permit : bool;
  flag_snapshot : bool;
  flag_votes : bool;
  flag_access : string;
  flag_license : string;
  flag_solidity_version : string;
  flag_with_deploy : bool;
  flag_with_test : bool
}.

(** The defaults that [init] declares. *)
Definition defaultFlags : GenerateFlags :=
  {| flag_name := ""; flag_symbol := ""; flag_decimals := 18;
     flag_initial_supply := ""; flag_max_supply := "";
     flag_mintable := false; flag_burnable := false; flag_pausable := false;
     flag_permit := false; flag_snapshot := false; flag_votes := false;
     flag_access := "ownable"; flag_license := "MIT";
     flag_solidity_version := "^0.8.24";
     flag_with_deploy := false; flag_with_test := false |}.

(** [buildConfigFromFlags]; its error is always [nil]. *)
Definition buildConfigFromFlags (f : GenerateFlags) : TokenConfig * error :=
  ({| Name := flag_name f;
      Symbol := flag_symbol f;
      Decimals := flag_decimals f;
      InitialSupply := flag_initial_supply f;
      MaxSupply := flag_max_supply f;
      Mintable := flag_mintable f;
      Burnable := flag_burnable f;
      Pausable := flag_pausable f;
      Permit := flag_permit f;
      Snapshot := flag_snapshot f;
      Votes := flag_votes f;
      AccessControl := flag_access f;
      License := flag_license f;
      SolidityVersion := flag_solidity_version f;
      WithDeploy := flag_with_deploy f;
      WithTest := flag_with_test f |}, None).

Section Checklist.
Context `{GoTables}.

(** The slice [checks] that [printSecurityChecklist] builds. *)
Definition securityChecks (cfg : TokenConfig) : list string :=
  let checks : list string :=
    [("[ ] Review OpenZeppelin version in package.json " ++ emdash
       ++ " use latest stable")%string;
     "[ ] Audit mint() access control before mainnet deployment";
     ("[ ] Run Slither static analysis: slither contracts/"
       ++ ContractFileName cfg)%string;
     "[ ] Run Echidna fuzzer on token invariants";
     "[ ] Verify initial supply is correct (decimals applied in contract)";
     "[ ] Consider front-running risks if using Pausable";
     "[ ] Test all edge cases: zero transfers, max uint256 approvals"] in
  let checks := append_if (Permit cfg) checks
    "[ ] Validate EIP-712 domain separator is network-specific" in
  let checks := append_if (Snapshot cfg) checks
    ("[ ] Snapshot IDs should not be guessable " ++ emdash
      ++ " avoid sequential abuse")%string in
  let checks := append_if (Votes cfg) checks
    "[ ] Governance voting delay and quorum must be reviewed carefully" in
  checks.

(** [fmt.Println(" ", c)]: the operands separated by a space, then a line
    feed. *)
Definition Println2 (a b : string) : string :=
  (a ++ " " ++ b ++ String "010" "")%string.

(** [printSecurityChecklist]: what it writes to the standard output, after
    what is there already. *)
Definition printSecurityChecklist (cfg : TokenConfig) (stdout : string) : string :=
  fold_left (fun out c => (out ++ Println2 " " c)%string)
    (securityChecks cfg) stdout.

End Checklist.

End cmd.

(** ** Package [prompts] ([internal/prompts/prompts.go])

    The survey library asks; what it hands back for each question is the
    input of the embedding. *)
Module prompts.

(** The result of one [survey.Ask] or [survey.AskOne]: the answer written
    to the response, or the error returned. *)
Inductive asked (A : Type) : Type :=
| Answered (a : A)
| Failed (err : string).
Arguments Answered {A} a.
Arguments Failed {A} err.

Record CoreAnswers := {
  ans_Name : string;
  ans_Symbol : string;
  ans_DecimalsStr : string;
  ans_InitialSupply : string
}.

Record OutputAnswers := {
  ans_WithDeploy : bool;
  ans_WithTest : bool;
  ans_License : string
}.

(** One run of the six questions, in the order they are asked. *)
Record Survey := {
  ask_core : asked CoreAnswers;
  ask_hasCap : asked bool;
  ask_cap : asked string;
  ask_features : asked (list string);
  ask_access : asked string;
  ask_output : asked OutputAnswers
}.

(** How [CollectTokenConfig] ends: [(cfg, nil)], [(nil, err)], or a run-time
    panic. *)
Inductive outcome : Type :=
| Returned (cfg : TokenConfig)
| ReturnedError (err : string)
| Panicked.

(** [f[:8]]: the first eight bytes; out of range on a shorter string. *)
Definition slice8 (f : string) : option string :=
  if (String.length f <? 8)%nat then None else Some (substring 0 8 f).

(** The [switch] on the decimals answer. *)
Definition decimals_of (decimalsStr : string) : N :=
  if String.eqb decimalsStr "6" then 6%N
  else if String.eqb decimalsStr "8" then 8%N
  else if String.eqb decimalsStr "0" then 0%N
  else 18%N.

(** The loop over the selected features; [None] is the panic of the
    slice expression. *)
Fixpoint select_features (features : list string) (cfg : TokenConfig)
    : option TokenConfig :=
  match features with
  | [] => Some cfg
  | f :: rest =>
    match slice8 f with
    | None => None
    | Some p =>
      let cfg :=
        if String.eqb p "Mintable" then set_Mintable cfg true
        else if String.eqb p "Burnable" then set_Burnable cfg true
        else if String.eqb p "Pausable" then set_Pausable cfg true
        else if String.eqb p "Permit  " then set_Permit cfg true
        else if String.eqb p "Snapshot" then set_Snapshot cfg true
        else if String.eqb p "Votes   " then set_Votes cfg true
        else cfg in
      select_features rest cfg
    end
  end.

Definition CollectTokenConfig (s : Survey) : outcome :=
  let cfg := zeroConfig in
  (* Core identity *)
  match ask_core s with
  | Failed err => ReturnedError err
  | Answered answers =>
    let cfg := set_Name cfg (ans_Name answers) in
    let cfg := set_Symbol cfg (ans_Symbol answers) in
    let cfg := set_InitialSupply cfg (ans_InitialSupply answers) in
    let cfg := set_Decimals cfg (decimals_of (ans_DecimalsStr answers)) in
    (* Supply cap *)
    match ask_hasCap s with
    | Failed err => ReturnedError err
    | Answered hasCap =>
      match (if hasCap
             then match ask_cap s with
                  | Failed err => Failed err
                  | Answered cap => Answered (set_MaxSupply cfg cap)
                  end
             else Answered cfg) with
      | Failed err => ReturnedError err
      | Answered cfg =>
        (* Feature flags *)
        match ask_features s with
        | Failed err => ReturnedError err
        | Answered features =>
          match select_features features cfg with
          | None => Panicked
          | Some cfg =>
            (* Access control *)
            match ask_access s with
            | Failed err => ReturnedError err
            | Answered accessStr =>
              let cfg := set_AccessControl cfg accessStr in
              (* Output options *)
              match ask_output s with
              | Failed err => ReturnedError err
              | Answered outputAnswers =>
                let cfg := set_WithDeploy cfg (ans_WithDeploy outputAnswers) in
                let cfg := set_WithTest cfg (ans_WithTest outputAnswers) in
                let cfg := set_License cfg (ans_License outputAnswers) in
                let cfg := set_SolidityVersion cfg "^0.8.24" in
                Returned cfg
              end
            end
          end
        end
      end
    end
  end.

(** The options of the feature question. *)
Definition feature_label (name detail : string) : string :=
  (name ++ " " ++ emdash ++ " " ++ detail)%string.

Definition opt_Mintable := feature_label "Mintable    " "owner can mint new tokens".
Definition opt_Burnable := feature_label "Burnable    " "holders can burn their tokens".
Definition opt_Pausable := feature_label "Pausable    " "owner can pause all transfers".
Definition opt_Permit := feature_label "Permit      " "EIP-2612 gasless approvals".
Definition opt_Snapshot := feature_label "Snapshot    " "balance snapshots for governance".
Definition opt_Votes := feature_label "Votes       " "on-chain voting power".

Definition feature_options : list string :=
  [opt_Mintable; opt_Burnable; opt_Pausable; opt_Permit; opt_Snapshot; opt_Votes].

(** The options of the access-control and of the license questions. *)
Definition access_options : list string := ["ownable"; "roles"; "none"].
Definition license_options : list string :=
  ["MIT"; "GPL-3.0"; "UNLICENSED"; "Apache-2.0"].

End prompts.

(** * Vocabulary of the properties *)

(** ** Composed lists *)

(** One conditional entry of a composed list. *)
Definition pick {A} (b : bool) (l : list A) : list A := if b then l else [].

(** The inheritance entries in their fixed order, each with the condition
    under which it is present. *)
Definition inheritance_order (c : TokenConfig) : list (string * bool) :=
  [("ERC20Capped", negb (String.eqb (MaxSupply c) ""));
   ("ERC20Burnable", Burnable c);
   ("ERC20Pausable", Pausable c);
   ("ERC20Permit", Permit c);
   ("ERC20Snapshot", Snapshot c);
   ("ERC20Votes", Votes c);
   ("Ownable", String.eqb (AccessControl c) "ownable");
   ("AccessControl", String.eqb (AccessControl c) "roles")].

Definition is_access_entry (e : string) : bool :=
  String.eqb e "Ownable" || String.eqb e "AccessControl".

(** The entries that come from the feature flags and the maximum supply,
    and the entries that come from the access-control model. *)
Definition feature_entries (c : TokenConfig) : list string :=
  map fst (filter snd (firstn 6 (inheritance_order c))).

Definition access_entries (c : TokenConfig) : list string :=
  if String.eqb (AccessControl c) "ownable" then ["Ownable"]
  else if String.eqb (AccessControl c) "roles" then ["AccessControl"]
  else [].

(** The import entries in their fixed order: the base standard, then each
    group of paths with the condition under which it is present. *)
Definition import_base : string := "@openzeppelin/contracts/token/ERC20/ERC20.sol".
Definition import_ownable : string := "@openzeppelin/contracts/access/Ownable.sol".
Definition import_roles : string := "@openzeppelin/contracts/access/AccessControl.sol".
Definition import_capped : string :=
  "@openzeppelin/contracts/token/ERC20/extensions/ERC20Capped.sol".

Definition import_order (c : TokenConfig) : list (list string * bool) :=
  [([import_base], true);
   (["@openzeppelin/contracts/token/ERC20/extensions/ERC20Burnable.sol"], Burnable c);
   (["@openzeppelin/contracts/token/ERC20/extensions/ERC20Pausable.sol";
     "@openzeppelin/contracts/utils/Pausable.sol"], Pausable c);
   (["@openzeppelin/contracts/token/ERC20/extensions/ERC20Permit.sol"], Permit c);
   (["@openzeppelin/contracts/token/ERC20/extensions/ERC20Snapshot.sol"], Snapshot c);
   (["@openzeppelin/contracts/token/ERC20/extensions/ERC20Votes.sol"], Votes c);
   ([import_capped], negb (String.eqb (MaxSupply c) ""));
   ([import_ownable], String.eqb (AccessControl c) "ownable");
   ([import_roles], String.eqb (AccessControl c) "roles")].

Definition is_access_import (e : string) : bool :=
  String.eqb e import_ownable || String.eqb e import_roles.

(** The import paths that come before the access-control imports. *)
Definition feature_imports (c : TokenConfig) : list string :=
  flat_map fst (filter snd (firstn 7 (import_order c))).

Definition access_imports (c : TokenConfig) : list string :=
  if String.eqb (AccessControl c) "ownable" then [import_ownable]
  else if String.eqb (AccessControl c) "roles" then [import_roles]
  else [].

(** ** Runes, bytes and decimal strings *)

(** A Unicode scalar value: in range and not a surrogate. *)
Definition ValidRune (r : rune) : Prop :=
  0 <= r <= utf8.MaxRune /\ ~ (55296 <= r <= 57343).

(** An ASCII byte that is not white space. *)
Definition plain_byte (a : ascii) : bool :=
  (byte_val a <? utf8.RuneSelf) && negb (strings.asciiSpace (byte_val a)).

(** A string of ASCII white space. *)
Definition all_space (s : string) : bool :=
  forallb (fun a => strings.asciiSpace (byte_val a)) (bytes s).

Definition is_digit_byte (a : ascii) : bool :=
  unicode.in_range 48 57 (byte_val a).

Fixpoint all_digits (s : string) : bool :=
  match s with
  | EmptyString => true
  | String a s' => is_digit_byte a && all_digits s'
  end.

(** A non-negative decimal integer string: one or more of the digits 0-9. *)
Definition is_decimal (s : string) : bool :=
  negb (String.eqb s "") && all_digits s.

(** The number a decimal string denotes, by the weight of each position. *)
Fixpoint decimal_value (s : string) : Z :=
  match s with
  | EmptyString => 0
  | String a s' =>
    (byte_val a - 48) * 10 ^ Z.of_nat (String.length s') + decimal_value s'
  end.

Definition is_symbol_byte (a : ascii) : bool :=
  regexp.class validSymbolRe (byte_val a).

(** [sub] occurs in [s]. *)
Definition Contains (s sub : string) : Prop :=
  exists pre post, s = (pre ++ sub ++ post)%string.

(** ** The rules of the specification

    What the specification demands of each field, in its words: the name
    is 1 to 64 characters among the letters, the digits, the space, the
    hyphen and the underscore; the symbol is 1 to 11 uppercase letters and
    digits; the decimals are at most 18; a supply is absent or a
    non-negative integer written as a decimal string; when both supplies
    are present the initial supply is at most the maximum supply, compared
    as integers; the access-control model is ownable, roles or none, and
    may be left empty. *)

Definition spec_name_char (a : ascii) : bool :=
  let b := byte_val a in
  ((65 <=? b) && (b <=? 90)) || ((97 <=? b) && (b <=? 122))
  || ((48 <=? b) && (b <=? 57)) || (b =? 32) || (b =? 45) || (b =? 95).

Definition spec_symbol_char (a : ascii) : bool :=
  let b := byte_val a in
  ((65 <=? b) && (b <=? 90)) || ((48 <=? b) && (b <=? 57)).

Definition spec_name (c : TokenConfig) : bool :=
  (1 <=? String.length (Name c))%nat && (String.length (Name c) <=? 64)%nat
  && forallb spec_name_char (bytes (Name c)).

Definition spec_symbol (c : TokenConfig) : bool :=
  (1 <=? String.length (Symbol c))%nat && (String.length (Symbol c) <=? 11)%nat
  && forallb spec_symbol_char (bytes (Symbol c)).

Definition spec_decimals (c : TokenConfig) : bool := (Decimals c <=? 18)%N.

Definition spec_supply (s : string) : bool := String.eqb s "" || is_decimal s.

Definition spec_supply_order (c : TokenConfig) : bool :=
  if is_decimal (InitialSupply c) && is_decimal (MaxSupply c)
  then decimal_value (InitialSupply c) <=? decimal_value (MaxSupply c)
  else true.

Definition spec_access (c : TokenConfig) : bool :=
  existsb (String.eqb (AccessControl c)) ["ownable"; "roles"; "none"; ""].

(** The rules by field, in field-declaration order. *)
Definition spec_rules : list (string * (TokenConfig -> bool)) :=
  [("name", spec_name);
   ("symbol", spec_symbol);
   ("decimals", spec_decimals);
   ("initialSupply", fun c => spec_supply (InitialSupply c));
   ("maxSupply", fun c => spec_supply (MaxSupply c) && spec_supply_order c);
   ("accessControl", spec_access)].

(** The fields whose rule the configuration violates. *)
Definition spec_violated (c : TokenConfig) : list string :=
  map fst (filter (fun r => negb (snd r c)) spec_rules).

(** The string has a lowercase ASCII letter. *)
Definition has_lowercase (s : string) : bool :=
  existsb (fun a => (97 <=? byte_val a) && (byte_val a <=? 122)) (bytes s).

(** ** The checks of [Validate], one by one, and the normal forms

    What each block of [Validate] reports, read off the source
    independently of the slice it threads through its blocks; the
    configuration with its defaults; the character a name character
    becomes. *)
Section Vocabulary.
Context `{GoTables}.

Definition rule := TokenConfig -> option string.

Definition rule_name : rule := fun c =>
  if String.eqb (strings.TrimSpace (Name c)) "" then Some msg_name_required
  else if regexp.MatchString validNameRe (Name c) then None
  else Some msg_name_invalid.

Definition rule_symbol : rule := fun c =>
  if String.eqb (strings.TrimSpace (Symbol c)) "" then Some msg_symbol_required
  else if regexp.MatchString validSymbolRe (strings.ToUpper (Symbol c)) then None
  else Some msg_symbol_invalid.

Definition rule_decimals : rule := fun c =>
  if (Decimals c <=? 18)%N then None else Some msg_decimals.

Definition rule_initialSupply : rule := fun c =>
  if String.eqb (InitialSupply c) "" then None
  else option_map (String.append "initial supply: ")
         (validateSupplyString (InitialSupply c)).

Definition rule_maxSupply : rule := fun c =>
  if String.eqb (MaxSupply c) "" then None
  else option_map (String.append "max supply: ")
         (validateSupplyString (MaxSupply c)).

Definition rule_exceeds : rule := fun c =>
  if String.eqb (MaxSupply c) "" || String.eqb (InitialSupply c) "" then None
  else
    match big.SetString10 (InitialSupply c), big.SetString10 (MaxSupply c) with
    | Some initial, Some max => if initial <=? max then None else Some msg_exceeds
    | _, _ => None
    end.

Definition rule_accessControl : rule := fun c =>
  if existsb (String.eqb (AccessControl c))
       [AccessOwnable; AccessRoles; AccessNone; EmptyString]
  then None else Some (msg_access (AccessControl c)).

(** The checks in the order of the source; the two checks on the maximum
    supply stand together. *)
Definition rules : list rule :=
  [rule_name; rule_symbol; rule_decimals; rule_initialSupply;
   rule_maxSupply; rule_exceeds; rule_accessControl].

Definition olist {A} (o : option A) : list A :=
  match o with Some a => [a] | None => [] end.

Definition is_some {A} (o : option A) : bool :=
  match o with Some _ => true | None => false end.

(** The messages of the checks that report, in the order of the checks. *)
Definition violations (c : TokenConfig) : list string :=
  flat_map (fun r : rule => olist (r c)) rules.

(** The configuration with the defaults applied. *)
Definition normalized (c : TokenConfig) : TokenConfig :=
  {| Name := Name c; Symbol := Symbol c; Decimals := Decimals c;
     InitialSupply := InitialSupply c; MaxSupply := MaxSupply c;
     Mintable := Mintable c; Burnable := Burnable c; Pausable := Pausable c;
     Permit := Permit c;
     Snapshot := Snapshot c || Votes c;
     Votes := Votes c;
     AccessControl :=
       if String.eqb (AccessControl c) "" then AccessOwnable else AccessControl c;
     License := if String.eqb (License c) "" then "MIT" else License c;
     SolidityVersion :=
       if String.eqb (SolidityVersion c) "" then "^0.8.24" else SolidityVersion c;
     WithDeploy := WithDeploy c; WithTest := WithTest c |}.

(** A letter or a digit. *)
Definition alphanumeric (r : rune) : bool :=
  unicode.IsLetter r || unicode.IsDigit r.

(** An alphanumeric character stays, any other becomes an underscore. *)
Definition safe_rune (r : rune) : rune := if alphanumeric r then r else 95.

End Vocabulary.

(** ** Configurations to evaluate the definitions on *)

(** Tables that know no rune above Latin-1, with a quoting that is right
    for printable ASCII without quotes and backslashes; used to evaluate the
    definitions on concrete configurations. *)
Definition latin1_tables : GoTables :=
  {| unicode_Letter := fun _ => false;
     unicode_Digit := fun _ => false;
     unicode_UpperCase := fun r => r;
     strconv_Quote := fun s => (String "034" s ++ String "034" "")%string |}.

(** The configuration of the test suite ([baseConfig]). *)
Definition baseConfig : TokenConfig :=
  {| Name := "TestToken"; Symbol := "TST"; Decimals := 18;
     InitialSupply := "1000000"; MaxSupply := "";
     Mintable := false; Burnable := false; Pausable := false;
     Permit := false; Snapshot := false; Votes := false;
     AccessControl := AccessOwnable; License := "MIT";
     SolidityVersion := "^0.8.24"; WithDeploy := false; WithTest := false |}.

(** A configuration with several invalid fields and every default missing. *)
Definition invalidConfig : TokenConfig :=
  {| Name := ""; Symbol := "toolongsymbol"; Decimals := 19;
     InitialSupply := "12x"; MaxSupply := "-5";
     Mintable := false; Burnable := false; Pausable := false;
     Permit := false; Snapshot := false; Votes := true;
     AccessControl := ""; License := "";
     SolidityVersion := ""; WithDeploy := false; WithTest := false |}.

(** Votes on, snapshot off, and no default filled in. *)
Definition votesConfig : TokenConfig :=
  {| Name := "TestToken"; Symbol := "TST"; Decimals := 18;
     InitialSupply := "1000000"; MaxSupply := "";
     Mintable := false; Burnable := false; Pausable := false;
     Permit := false; Snapshot := false; Votes := true;
     AccessControl := ""; License := "";
     SolidityVersion := ""; WithDeploy := false; WithTest := false |}.

(** The case [lowercase] of the test [InvalidSymbol]: the base
    configuration with the symbol [mtk]. *)
Definition lowercaseSymbolConfig : TokenConfig :=
  {| Name := "TestToken"; Symbol := "mtk"; Decimals := 18;
     InitialSupply := "1000000"; MaxSupply := "";
     Mintable := false; Burnable := false; Pausable := false;
     Permit := false; Snapshot := false; Votes := false;
     AccessControl := AccessOwnable; License := "MIT";
     SolidityVersion := "^0.8.24"; WithDeploy := false; WithTest := false |}.

(** An initial supply of 9 written with a space on each side, over a
    maximum supply of 1. *)
Definition paddedSupplyConfig : TokenConfig :=
  {| Name := "TestToken"; Symbol := "TST"; Decimals := 18;
     InitialSupply := " 9 "; MaxSupply := "1";
     Mintable := false; Burnable := false; Pausable := false;
     Permit := false; Snapshot := false; Votes := false;
     AccessControl := AccessOwnable; License := "MIT";
     SolidityVersion := "^0.8.24"; WithDeploy := false; WithTest := false |}.

(** An initial supply of 2^64 over a maximum supply of 5. *)
Definition hugeSupplyConfig : TokenConfig :=
  {| Name := "TestToken"; Symbol := "TST"; Decimals := 18;
     InitialSupply := "18446744073709551616"; MaxSupply := "5";
     Mintable := false; Burnable := false; Pausable := false;
     Permit := false; Snapshot := false; Votes := false;
     AccessControl := AccessOwnable; License := "MIT";
     SolidityVersion := "^0.8.24"; WithDeploy := false; WithTest := false |}.

(** A configuration known by its name only, as in the test
    [ContractFileName]. *)
Definition namedConfig (name : string) : TokenConfig :=
  {| Name := name; Symbol := ""; Decimals := 0;
     InitialSupply := ""; MaxSupply := "";
     Mintable := false; Burnable := false; Pausable := false;
     Permit := false; Snapshot := false; Votes := false;
     AccessControl := ""; License := "";
     SolidityVersion := ""; WithDeploy := false; WithTest := false |}.

(** The name [A] followed by the pound sign U+00A3, which UTF-8 encodes on
    the two bytes C2 A3.  The pound sign lies in Latin-1, where [IsLetter]
    and [IsDigit] consult no table. *)
Definition poundName : string := String "A" (String "194" (String "163" "")).

(** ** Vocabulary of the further properties *)

(** An ASCII letter or digit. *)
Definition is_alnum_byte (a : ascii) : bool :=
  unicode.in_range 48 57 (byte_val a) || unicode.in_range 65 90 (byte_val a)
  || unicode.in_range 97 122 (byte_val a).

(** A byte of the class of [validNameRe]. *)
Definition is_name_byte (a : ascii) : bool :=
  regexp.class validNameRe (byte_val a).

(** The number of bytes of [s] equal to [b]. *)
Definition count_byte (b : Z) (s : string) : nat :=
  List.length (filter (fun a => byte_val a =? b) (bytes s)).

(** Two configurations with the same fields among those [Validate] checks. *)
Definition same_checked_fields (c1 c2 : TokenConfig) : Prop :=
  Name c1 = Name c2 /\ Symbol c1 = Symbol c2 /\ Decimals c1 = Decimals c2
  /\ InitialSupply c1 = InitialSupply c2 /\ MaxSupply c1 = MaxSupply c2
  /\ AccessControl c1 = AccessControl c2.

(** The import path of an inheritance entry. *)
Definition import_of (entry : string) : string :=
  if is_access_entry entry
  then ("@openzeppelin/contracts/access/" ++ entry ++ ".sol")%string
  else ("@openzeppelin/contracts/token/ERC20/extensions/" ++ entry ++ ".sol")%string.

Definition import_pausable_util : string :=
  "@openzeppelin/contracts/utils/Pausable.sol".

(** A boolean as a count. *)
Definition b2n (b : bool) : nat := if b then 1%nat else 0%nat.

(** The value flags other than name and symbol are at their defaults. *)
Definition flags_at_defaults (f : cmd.GenerateFlags) : Prop :=
  cmd.flag_decimals f = 18%N
  /\ cmd.flag_initial_supply f = ""
  /\ cmd.flag_max_supply f = ""
  /\ cmd.flag_access f = "ownable"
  /\ cmd.flag_license f = "MIT"
  /\ cmd.flag_solidity_version f = "^0.8.24".

(** The flags [--name MyToken --symbol MTK --votes], all else default. *)
Definition exampleFlags : cmd.GenerateFlags :=
  {| cmd.flag_name := "MyToken"; cmd.flag_symbol := "MTK";
     cmd.flag_decimals := 18;
     cmd.flag_initial_supply := ""; cmd.flag_max_supply := "";
     cmd.flag_mintable := false; cmd.flag_burnable := false;
     cmd.flag_pausable := false; cmd.flag_permit := false;
     cmd.flag_snapshot := false; cmd.flag_votes := true;
     cmd.flag_access := "ownable"; cmd.flag_license := "MIT";
     cmd.flag_solidity_version := "^0.8.24";
     cmd.flag_with_deploy := false; cmd.flag_with_test := false |}.

(** The option [opt] is among the selected features. *)
Definition selected (opt : string) (features : list string) : bool :=
  existsb (String.eqb opt) features.

(** The error of a question that failed. *)
Definition failure {A} (a : prompts.asked A) : option string :=
  match a with
  | prompts.Failed err => Some err
  | prompts.Answered _ => None
  end.

(** The configurations agree outside the six feature flags. *)
Definition same_but_features (c1 c2 : TokenConfig) : Prop :=
  Name c1 = Name c2 /\ Symbol c1 = Symbol c2 /\ Decimals c1 = Decimals c2
  /\ InitialSupply c1 = InitialSupply c2 /\ MaxSupply c1 = MaxSupply c2
  /\ AccessControl c1 = AccessControl c2 /\ License c1 = License c2
  /\ SolidityVersion c1 = SolidityVersion c2
  /\ WithDeploy c1 = WithDeploy c2 /\ WithTest c1 = WithTest c2.

(** One turn of the loop over the features, on the slice [p]. *)
Definition feature_step (p : string) (cfg : TokenConfig) : TokenConfig :=
  if String.eqb p "Mintable" then set_Mintable cfg true
  else if String.eqb p "Burnable" then set_Burnable cfg true
  else if String.eqb p "Pausable" then set_Pausable cfg true
  else if String.eqb p "Permit  " then set_Permit cfg true
  else if String.eqb p "Snapshot" then set_Snapshot cfg true
  else if String.eqb p "Votes   " then set_Votes cfg true
  else cfg.

(** The run [s] with another result for the cap question. *)
Definition with_cap (s : prompts.Survey) (cap : prompts.asked string)
    : prompts.Survey :=
  {| prompts.ask_core := prompts.ask_core s;
     prompts.ask_hasCap := prompts.ask_hasCap s;
     prompts.ask_cap := cap;
     prompts.ask_features := prompts.ask_features s;
     prompts.ask_access := prompts.ask_access s;
     prompts.ask_output := prompts.ask_output s |}.

(** What a rune is written as: itself, or [RuneError] when it is not a
    scalar value. *)
Definition written (r : rune) : rune :=
  if (r <=? utf8.MaxRune) && negb ((55296 <=? r) && (r <=? 57343))
  then r else utf8.RuneError.

(** A run of the questions: a token with votes and roles, no cap. *)
Definition exampleSurvey : prompts.Survey :=
  {| prompts.ask_core :=
       prompts.Answered
         {| prompts.ans_Name := "MyToken"; prompts.ans_Symbol := "MTK";
            prompts.ans_DecimalsStr := "6";
            prompts.ans_InitialSupply := "1000000" |};
     prompts.ask_hasCap := prompts.Answered false;
     prompts.ask_cap := prompts.Failed "not asked";
     prompts.ask_features :=
       prompts.Answered [prompts.opt_Mintable; prompts.opt_Votes];
     prompts.ask_access := prompts.Answered "roles";
     prompts.ask_output :=
       prompts.Answered
         {| prompts.ans_WithDeploy := true; prompts.ans_WithTest := true;
            prompts.ans_License := "MIT" |} |}.

(** The configuration that [exampleSurvey] gives. *)
Definition exampleAnswer : TokenConfig :=
  {| Name := "MyToken"; Symbol := "MTK"; Decimals := 6;
     InitialSupply := "1000000"; MaxSupply := "";
     Mintable := true; Burnable := false; Pausable := false;
     Permit := false; Snapshot := false; Votes := true;
     AccessControl := AccessRoles; License := "MIT";
     SolidityVersion := "^0.8.24"; WithDeploy := true; WithTest := true |}.

(** * Facts about the library functions *)

(** ** Bytes and ASCII strings *)

Lemma byte_val_range a : 0 <= byte_val a < 256.
Proof.
  unfold byte_val. pose proof (N_ascii_bounded a). lia.
Qed.

Lemma byte_val_of z : 0 <= z < 256 -> byte_val (byte_of z) = z.
Proof.
  intros Hz. unfold byte_val, byte_of.
  rewrite N_ascii_embedding by lia. lia.
Qed.

Lemma byte_of_val a : byte_of (byte_val a) = a.
Proof.
  unfold byte_val, byte_of. rewrite N2Z.id. apply ascii_N_embedding.
Qed.

Lemma append_nil_r (s : string) : (s ++ "")%string = s.
Proof. induction s as [|a s IH]; simpl; [reflexivity|now rewrite IH]. Qed.

Lemma append_assoc (s t u : string) :
  ((s ++ t) ++ u)%string = (s ++ t ++ u)%string.
Proof. induction s as [|a s IH]; simpl; [reflexivity|now rewrite IH]. Qed.

Lemma bytes_append (s t : string) : bytes (s ++ t) = bytes s ++ bytes t.
Proof.
  unfold bytes. induction s as [|a s IH]; simpl; [reflexivity|now rewrite IH].
Qed.

Lemma of_bytes_bytes s : of_bytes (bytes s) = s.
Proof. apply string_of_list_ascii_of_string. Qed.

Lemma forallb_map_compose {A B} (f : B -> bool) (g : A -> B) l :
  forallb f (map g l) = forallb (fun x => f (g x)) l.
Proof. induction l as [|x l IH]; simpl; [reflexivity|now rewrite IH]. Qed.

Lemma forallb_imp {A} (p q : A -> bool) l :
  (forall x, p x = true -> q x = true) ->
  forallb p l = true -> forallb q l = true.
Proof.
  intros Hpq. rewrite !forallb_forall. intros Hp x Hx. apply Hpq, Hp, Hx.
Qed.

(** On an ASCII string the runes are the bytes. *)
Lemma runes_ascii s :
  strings.is_ascii s = true -> utf8.runes s = map byte_val (bytes s).
Proof.
  unfold utf8.runes, strings.is_ascii.
  induction s as [|a s IH]; [reflexivity|].
  cbn [bytes list_ascii_of_string forallb map]. intros Ha.
  apply andb_true_iff in Ha as [Ha Hs].
  cbn [utf8.runes_from utf8.DecodeRuneInString]. rewrite Ha.
  cbn [pred]. f_equal. apply IH, Hs.
Qed.

Lemma Join_Contains sep (l : list string) m :
  In m l -> Contains (strings.Join l sep) m.
Proof.
  unfold strings.Join. induction l as [|x l IH]; [contradiction|].
  intros [->|Hin].
  - destruct l as [|y l].
    + exists "", "". simpl. now rewrite append_nil_r.
    + exists "", (sep ++ String.concat sep (y :: l))%string. reflexivity.
  - destruct l as [|y l]; [contradiction|].
    destruct (IH Hin) as (pre & post & E).
    exists (x ++ sep ++ pre)%string, post.
    change (String.concat sep (x :: y :: l))
      with (x ++ sep ++ String.concat sep (y :: l))%string.
    rewrite E. now rewrite !append_assoc.
Qed.

(** ** UTF-8: decoding what was encoded *)

Ltac case_if :=
  match goal with
  | |- context [if ?b then _ else _] => let E := fresh "E" in destruct b eqn:E
  end.

Ltac arith :=
  unfold ValidRune, utf8.MaxRune, utf8.RuneSelf, utf8.RuneError,
    utf8.is_cont, utf8.RuneStart in *;
  Z.div_mod_to_equations; lia.

Ltac step_decode :=
  repeat (case_if; try (exfalso; arith);
          cbv beta iota zeta delta [Nat.leb]).

Lemma decode_encode r s :
  ValidRune r ->
  utf8.DecodeRuneInString (utf8.EncodeRune r ++ s)
  = (r, String.length (utf8.EncodeRune r)).
Proof.
  intros Hr. unfold utf8.EncodeRune, utf8.enc3.
  repeat (case_if; try (exfalso; arith));
    cbn [append String.length]; unfold utf8.DecodeRuneInString, utf8.accept;
    rewrite !byte_val_of by arith;
    step_decode; f_equal; arith.
Qed.

Lemma decode_valid s : ValidRune (fst (utf8.DecodeRuneInString s)).
Proof.
  destruct s as [|a0 [|a1 [|a2 [|a3 s]]]];
    unfold utf8.DecodeRuneInString, utf8.accept;
    try pose proof (byte_val_range a0); try pose proof (byte_val_range a1);
    try pose proof (byte_val_range a2); try pose proof (byte_val_range a3);
    repeat (case_if; cbv beta iota zeta delta [Nat.leb]);
    cbn [fst]; arith.
Qed.

Ltac byte_eq :=
  match goal with
  | |- ?a = byte_of ?e =>
      transitivity (byte_of (byte_val a));
      [symmetry; apply byte_of_val|f_equal; arith]
  end.

(** The decoder accepts canonical encodings only: a rune decoded from two
    bytes or more, or from an ASCII byte, encodes to the bytes it was
    decoded from.  So [strings.Map], which copies the bytes of a rune its
    mapping leaves unchanged, and the embedding, which encodes the rune
    again, agree. *)
Lemma encode_decode s r w :
  utf8.DecodeRuneInString s = (r, w) ->
  (2 <= w)%nat \/ r < utf8.RuneSelf ->
  exists rest,
    s = (utf8.EncodeRune r ++ rest)%string
    /\ String.length (utf8.EncodeRune r) = w.
Proof.
  destruct s as [|a0 [|a1 [|a2 [|a3 s]]]];
    unfold utf8.DecodeRuneInString, utf8.accept;
    try pose proof (byte_val_range a0); try pose proof (byte_val_range a1);
    try pose proof (byte_val_range a2); try pose proof (byte_val_range a3);
    repeat (case_if; cbv beta iota zeta delta [Nat.leb]);
    intros [= <- <-] Hw;
    try (exfalso; destruct Hw as [Hw|Hw]; [lia|arith]);
    unfold utf8.EncodeRune, utf8.enc3;
    repeat (case_if; try (exfalso; arith));
    cbn [append String.length];
    (eexists; split; [repeat (f_equal; try byte_eq)|reflexivity]).
Qed.

Lemma decode_not_ascii a s :
  utf8.RuneSelf <= byte_val a ->
  utf8.RuneSelf <= fst (utf8.DecodeRuneInString (String a s)).
Proof.
  intros Ha. destruct s as [|a1 [|a2 [|a3 s]]];
    unfold utf8.DecodeRuneInString, utf8.accept;
    pose proof (byte_val_range a); try pose proof (byte_val_range a1);
    try pose proof (byte_val_range a2); try pose proof (byte_val_range a3);
    repeat (case_if; cbv beta iota zeta delta [Nat.leb]);
    cbn [fst]; arith.
Qed.

Lemma runes_from_valid s : forall k, Forall ValidRune (utf8.runes_from k s).
Proof.
  induction s as [|a s IH]; intros k; [constructor|].
  destruct k as [|k]; cbn [utf8.runes_from]; [|apply IH].
  pose proof (decode_valid (String a s)) as Hv.
  destruct (utf8.DecodeRuneInString (String a s)) as [r w].
  constructor; [exact Hv|apply IH].
Qed.

Lemma runes_from_skip e s :
  utf8.runes_from (String.length e) (e ++ s) = utf8.runes_from 0 s.
Proof. induction e as [|a e IH]; [reflexivity|exact IH]. Qed.

Lemma runes_encode r s :
  ValidRune r -> utf8.runes (utf8.EncodeRune r ++ s) = r :: utf8.runes s.
Proof.
  intros Hr. pose proof (decode_encode r s Hr) as Hd. unfold utf8.runes.
  destruct (utf8.EncodeRune r) as [|a e] eqn:Ee.
  - exfalso. revert Ee. unfold utf8.EncodeRune, utf8.enc3.
    repeat case_if; discriminate.
  - cbn [append] in *. cbn [utf8.runes_from]. rewrite Hd.
    cbn [String.length pred]. f_equal. apply runes_from_skip.
Qed.

Lemma concat_nil_cons x l :
  String.concat "" (x :: l) = (x ++ String.concat "" l)%string.
Proof. destruct l; cbn; [now rewrite append_nil_r|reflexivity]. Qed.

(** The runes of a mapped string are the images of the runes. *)
Lemma runes_Map f s :
  (forall r, ValidRune r -> ValidRune (f r)) ->
  utf8.runes (strings.Map f s) = map f (utf8.runes s).
Proof.
  intros Hf. unfold strings.Map.
  pose proof (runes_from_valid s 0) as Hv. fold (utf8.runes s) in Hv.
  induction Hv as [|r l Hr Hl IH]; [reflexivity|].
  cbn [map]. rewrite concat_nil_cons.
  pose proof (Hf r Hr) as Hfr.
  replace (f r <? 0) with false by arith.
  rewrite (runes_encode _ _ Hfr). now rewrite IH.
Qed.

Lemma length_map_bytes f s :
  String.length (strings.map_bytes f s) = String.length s.
Proof. induction s as [|a s IH]; simpl; [reflexivity|now rewrite IH]. Qed.

(** On an ASCII string, a mapping that keeps ASCII works byte by byte. *)
Lemma Map_ascii f s :
  strings.is_ascii s = true ->
  (forall r, 0 <= r < 128 -> 0 <= f r < 128) ->
  strings.Map f s = strings.map_bytes f s.
Proof.
  intros Ha Hf. unfold strings.Map. rewrite (runes_ascii _ Ha).
  unfold strings.is_ascii in Ha.
  induction s as [|a s IH]; [reflexivity|].
  cbn [bytes list_ascii_of_string forallb] in Ha.
  apply andb_true_iff in Ha as [Ha Hs].
  cbn [bytes list_ascii_of_string map strings.map_bytes].
  rewrite concat_nil_cons. fold (bytes s). rewrite (IH Hs).
  pose proof (byte_val_range a).
  assert (Hr : 0 <= f (byte_val a) < 128)
    by (apply Hf; unfold utf8.RuneSelf in Ha; lia).
  replace (f (byte_val a) <? 0) with false by lia.
  unfold utf8.EncodeRune.
  replace ((0 <=? f (byte_val a)) && (f (byte_val a) <=? 127)) with true by lia.
  reflexivity.
Qed.

(** A string whose runes are all below [RuneSelf] is an ASCII string. *)
Lemma runes_ascii_inv s :
  forallb (fun r => r <? utf8.RuneSelf) (utf8.runes s) = true ->
  strings.is_ascii s = true.
Proof.
  unfold utf8.runes, strings.is_ascii.
  induction s as [|a s IH]; [reflexivity|].
  cbn [utf8.runes_from bytes list_ascii_of_string forallb].
  destruct (byte_val a <? utf8.RuneSelf) eqn:Ha.
  - cbn [utf8.DecodeRuneInString]. rewrite Ha. cbn [pred forallb andb].
    rewrite Ha. exact IH.
  - pose proof (decode_not_ascii a s ltac:(lia)) as Hd.
    destruct (utf8.DecodeRuneInString (String a s)) as [r w].
    cbn [fst] in Hd. cbn [forallb]. intros Hr.
    apply andb_true_iff in Hr as [Hr _]. lia.
Qed.

(** ** Decimal strings and [big.Int.SetString] *)

Lemma decimal_value_nonneg s : all_digits s = true -> 0 <= decimal_value s.
Proof.
  induction s as [|a s IH]; simpl; [lia|].
  intros Hd. apply andb_true_iff in Hd as [Ha Hs].
  unfold is_digit_byte, unicode.in_range in Ha.
  apply andb_true_iff in Ha as [Hlo Hhi].
  specialize (IH Hs).
  assert (0 <= 10 ^ Z.of_nat (String.length s)) by (apply Z.pow_nonneg; lia).
  nia.
Qed.

Lemma scan_digits_value s : forall acc,
  all_digits s = true ->
  big.scan_digits acc s
  = Some (acc * 10 ^ Z.of_nat (String.length s) + decimal_value s).
Proof.
  induction s as [|a s IH]; intros acc Hd.
  - simpl. f_equal. lia.
  - cbn [all_digits] in Hd. apply andb_true_iff in Hd as [Ha Hs].
    cbn [big.scan_digits]. unfold big.digit_val. unfold is_digit_byte in Ha.
    cbv zeta. rewrite Ha, (IH _ Hs). f_equal.
    cbn [decimal_value String.length].
    rewrite Nat2Z.inj_succ, Z.pow_succ_r by lia. ring.
Qed.

Lemma SetString10_decimal s :
  is_decimal s = true -> big.SetString10 s = Some (decimal_value s).
Proof.
  unfold is_decimal. intros Hd. apply andb_true_iff in Hd as [Hne Hd].
  destruct s as [|a s]; [discriminate Hne|].
  unfold big.SetString10.
  assert (Hsign : (byte_val a =? 45) || (byte_val a =? 43) = false).
  { cbn [all_digits] in Hd. apply andb_true_iff in Hd as [Ha _].
    unfold is_digit_byte, unicode.in_range in Ha.
    apply andb_true_iff in Ha as [Hlo Hhi]. lia. }
  now rewrite Hsign, (scan_digits_value _ _ Hd).
Qed.

Lemma all_digits_forallb s :
  all_digits s = forallb is_digit_byte (bytes s).
Proof. induction s as [|a s IH]; simpl; [reflexivity|now rewrite IH]. Qed.

Lemma all_digits_ascii s : all_digits s = true -> strings.is_ascii s = true.
Proof.
  rewrite all_digits_forallb. unfold strings.is_ascii.
  rewrite !forallb_forall. intros Hd a Ha. specialize (Hd a Ha).
  unfold is_digit_byte, unicode.in_range, utf8.RuneSelf in *. lia.
Qed.

Lemma MatchString_decimal s :
  is_decimal s = true -> regexp.MatchString validDecimalNum s = true.
Proof.
  unfold is_decimal. intros Hd. apply andb_true_iff in Hd as [Hne Hd].
  unfold regexp.MatchString.
  rewrite (runes_ascii _ (all_digits_ascii _ Hd)).
  cbn [validDecimalNum regexp.min_rep regexp.max_rep regexp.class].
  rewrite forallb_map_compose. fold is_digit_byte.
  rewrite <- all_digits_forallb, Hd, length_map, !andb_true_r.
  destruct s as [|a s]; [discriminate Hne|reflexivity].
Qed.

Lemma scan_digits_append d r : forall acc,
  all_digits d = true ->
  big.scan_digits acc (d ++ r)
  = big.scan_digits (acc * 10 ^ Z.of_nat (String.length d) + decimal_value d) r.
Proof.
  induction d as [|a d IH]; intros acc Hd.
  - simpl. f_equal. lia.
  - cbn [all_digits] in Hd. apply andb_true_iff in Hd as [Ha Hs].
    cbn [append big.scan_digits]. unfold big.digit_val. cbv zeta.
    unfold is_digit_byte in Ha. rewrite Ha, (IH _ Hs). f_equal.
    cbn [decimal_value String.length].
    rewrite Nat2Z.inj_succ, Z.pow_succ_r by lia. ring.
Qed.

Lemma scan_digits_space a s acc :
  strings.asciiSpace (byte_val a) = true ->
  big.scan_digits acc (String a s) = None.
Proof.
  intros Ha. cbn [big.scan_digits]. unfold big.digit_val. cbv zeta.
  replace (unicode.in_range 48 57 (byte_val a)) with false; [reflexivity|].
  unfold strings.asciiSpace, unicode.in_range in *. lia.
Qed.

(** ** [strings.TrimSpace] on ASCII strings *)

Lemma asciiSpace_ascii c :
  strings.asciiSpace c = true -> (utf8.RuneSelf <=? c) = false.
Proof.
  unfold strings.asciiSpace, unicode.in_range, utf8.RuneSelf. lia.
Qed.

Lemma digit_not_space a :
  is_digit_byte a = true ->
  (utf8.RuneSelf <=? byte_val a) = false
  /\ strings.asciiSpace (byte_val a) = false.
Proof.
  unfold is_digit_byte, strings.asciiSpace, unicode.in_range, utf8.RuneSelf.
  lia.
Qed.

Lemma TrimSpace_stop_spaces sp r :
  forallb (fun a => strings.asciiSpace (byte_val a)) sp = true ->
  strings.TrimSpace_stop (sp ++ r) = strings.TrimSpace_stop r.
Proof.
  induction sp as [|a sp IH]; [reflexivity|].
  cbn [forallb app]. intros Hs. apply andb_true_iff in Hs as [Ha Hs].
  cbn [strings.TrimSpace_stop]. cbv zeta.
  now rewrite (asciiSpace_ascii _ Ha), Ha, IH.
Qed.

Lemma plain_not_space a :
  plain_byte a = true ->
  (utf8.RuneSelf <=? byte_val a) = false
  /\ strings.asciiSpace (byte_val a) = false.
Proof.
  unfold plain_byte. intros Hp. apply andb_true_iff in Hp as [Hlt Hns].
  apply negb_true_iff in Hns. split; [lia|exact Hns].
Qed.

Lemma digit_plain a : is_digit_byte a = true -> plain_byte a = true.
Proof.
  intros Ha. destruct (digit_not_space _ Ha) as [Hascii Hns].
  unfold plain_byte. rewrite Hns. cbn [negb]. lia.
Qed.

Lemma TrimSpace_stop_plain l :
  l <> [] -> forallb plain_byte l = true ->
  strings.TrimSpace_stop (rev l) = of_bytes l.
Proof.
  intros Hne Hd. destruct (rev l) as [|a r] eqn:Er.
  - apply (f_equal (@rev ascii)) in Er. rewrite rev_involutive in Er.
    now elim Hne.
  - assert (Ha : plain_byte a = true).
    { rewrite forallb_forall in Hd. apply Hd, in_rev. rewrite Er. now left. }
    destruct (plain_not_space _ Ha) as [Hascii Hns].
    cbn [strings.TrimSpace_stop]. cbv zeta. rewrite Hascii, Hns.
    now rewrite <- Er, rev_involutive.
Qed.

(** A string of plain bytes has nothing to trim. *)
Lemma TrimSpace_plain s :
  forallb plain_byte (bytes s) = true -> strings.TrimSpace s = s.
Proof.
  intros Hp. destruct s as [|a s]; [reflexivity|].
  pose proof Hp as Hpa. cbn [bytes list_ascii_of_string forallb] in Hpa.
  apply andb_true_iff in Hpa as [Ha _].
  destruct (plain_not_space _ Ha) as [Hascii Hns].
  cbn [strings.TrimSpace]. cbv zeta. rewrite Hascii, Hns.
  rewrite TrimSpace_stop_plain; [apply of_bytes_bytes|discriminate|exact Hp].
Qed.

Lemma TrimSpace_spaces sp s :
  all_space sp = true -> strings.TrimSpace (sp ++ s) = strings.TrimSpace s.
Proof.
  unfold all_space. induction sp as [|a sp IH]; [reflexivity|].
  cbn [bytes list_ascii_of_string forallb]. intros Hs.
  apply andb_true_iff in Hs as [Ha Hs].
  cbn [append strings.TrimSpace]. cbv zeta.
  rewrite (asciiSpace_ascii _ Ha), Ha. apply IH, Hs.
Qed.

(** Trimming a decimal string padded with ASCII white space gives the
    decimal string. *)
Lemma TrimSpace_padded l d r :
  all_space l = true -> is_decimal d = true -> all_space r = true ->
  strings.TrimSpace (l ++ d ++ r) = d.
Proof.
  intros Hl Hd Hr. rewrite (TrimSpace_spaces _ _ Hl).
  unfold is_decimal in Hd. apply andb_true_iff in Hd as [Hne Hd].
  destruct d as [|a d]; [discriminate Hne|].
  pose proof Hd as Hda. cbn [all_digits] in Hda.
  apply andb_true_iff in Hda as [Ha _].
  destruct (digit_not_space _ Ha) as [Hascii Hns].
  cbn [append strings.TrimSpace]. cbv zeta. rewrite Hascii, Hns.
  change (String a (d ++ r)) with (String a d ++ r)%string.
  rewrite bytes_append, rev_app_distr, TrimSpace_stop_spaces.
  - rewrite TrimSpace_stop_plain; [apply of_bytes_bytes|discriminate|].
    apply (forallb_imp _ _ _ digit_plain). now rewrite <- all_digits_forallb.
  - unfold all_space in Hr. rewrite forallb_forall in *.
    intros x Hx. apply Hr, in_rev, Hx.
Qed.

Lemma TrimSpace_decimal d : is_decimal d = true -> strings.TrimSpace d = d.
Proof.
  intros Hd.
  pose proof (TrimSpace_padded "" d "" eq_refl Hd eq_refl) as E.
  cbn [append] in E. now rewrite append_nil_r in E.
Qed.

(** [SetString] does not trim: a padded decimal string does not parse. *)
Lemma SetString10_padded l d r :
  all_space l = true -> is_decimal d = true -> all_space r = true ->
  (l ++ r)%string <> "" ->
  big.SetString10 (l ++ d ++ r) = None.
Proof.
  intros Hl Hd Hr Hne. unfold is_decimal in Hd.
  apply andb_true_iff in Hd as [Hdne Hd].
  destruct l as [|a l].
  - destruct r as [|b r]; [now elim Hne|].
    destruct d as [|a d]; [discriminate Hdne|].
    cbn [append]. unfold big.SetString10.
    pose proof Hd as Hda. cbn [all_digits] in Hda.
    apply andb_true_iff in Hda as [Ha _].
    assert (Hsign : (byte_val a =? 45) || (byte_val a =? 43) = false).
    { unfold is_digit_byte, unicode.in_range in Ha. lia. }
    rewrite Hsign.
    change (String a (d ++ String b r)) with (String a d ++ String b r)%string.
    rewrite (scan_digits_append _ _ _ Hd). apply scan_digits_space.
    unfold all_space in Hr. cbn [bytes list_ascii_of_string forallb] in Hr.
    now apply andb_true_iff in Hr as [Hb _].
  - unfold all_space in Hl. cbn [bytes list_ascii_of_string forallb] in Hl.
    apply andb_true_iff in Hl as [Ha _].
    cbn [append]. unfold big.SetString10.
    assert (Hsign : (byte_val a =? 45) || (byte_val a =? 43) = false).
    { unfold strings.asciiSpace, unicode.in_range in Ha. lia. }
    rewrite Hsign. now apply scan_digits_space.
Qed.

(** * Properties of the configuration *)

(** ** [Validate] block by block *)
Section Blocks.
Context `{GoTables}.

Lemma check_Name_app c errs :
  check_Name c errs = errs ++ olist (rule_name c).
Proof.
  unfold check_Name, rule_name.
  destruct (String.eqb _ _); [reflexivity|].
  destruct (regexp.MatchString _ _); simpl; [now rewrite app_nil_r|reflexivity].
Qed.

Lemma check_Symbol_app c errs :
  check_Symbol c errs = errs ++ olist (rule_symbol c).
Proof.
  unfold check_Symbol, rule_symbol.
  destruct (String.eqb _ _); [reflexivity|].
  destruct (regexp.MatchString _ _); simpl; [now rewrite app_nil_r|reflexivity].
Qed.

Lemma check_Decimals_app c errs :
  check_Decimals c errs = errs ++ olist (rule_decimals c).
Proof.
  unfold check_Decimals, rule_decimals.
  rewrite N.ltb_antisym.
  destruct (Decimals c <=? 18)%N; simpl; [now rewrite app_nil_r|reflexivity].
Qed.

Lemma check_InitialSupply_app c errs :
  check_InitialSupply c errs = errs ++ olist (rule_initialSupply c).
Proof.
  unfold check_InitialSupply, rule_initialSupply.
  destruct (String.eqb _ _); simpl; [now rewrite app_nil_r|].
  destruct (validateSupplyString _); simpl; [reflexivity|now rewrite app_nil_r].
Qed.

Lemma check_MaxSupply_app c errs :
  check_MaxSupply c errs
  = errs ++ olist (rule_maxSupply c) ++ olist (rule_exceeds c).
Proof.
  unfold check_MaxSupply, rule_maxSupply, rule_exceeds.
  destruct (String.eqb (MaxSupply c) _); simpl; [now rewrite app_nil_r|].
  destruct (String.eqb (InitialSupply c) _); simpl.
  - destruct (validateSupplyString _); simpl; now rewrite ?app_nil_r.
  - destruct (big.SetString10 (InitialSupply c)) as [i|],
             (big.SetString10 (MaxSupply c)) as [m|];
      try (destruct (validateSupplyString _); simpl; now rewrite ?app_nil_r).
    rewrite Z.leb_antisym.
    destruct (m <? i), (validateSupplyString _); simpl;
      now rewrite <- ?app_assoc, ?app_nil_r.
Qed.

Lemma check_AccessControl_errs c errs :
  snd (check_AccessControl c errs) = errs ++ olist (rule_accessControl c).
Proof.
  unfold check_AccessControl, rule_accessControl, existsb.
  rewrite orb_false_r, !orb_assoc.
  destruct (String.eqb (AccessControl c) AccessOwnable
            || String.eqb (AccessControl c) AccessRoles
            || String.eqb (AccessControl c) AccessNone);
    simpl; [now rewrite app_nil_r|].
  destruct (String.eqb (AccessControl c) ""); simpl;
    [now rewrite app_nil_r|reflexivity].
Qed.

Lemma eqb_known_not_empty (a : string) :
  String.eqb a AccessOwnable || String.eqb a AccessRoles
  || String.eqb a AccessNone = true ->
  String.eqb a "" = false.
Proof.
  intros Hk. destruct (String.eqb_spec a ""); [subst; discriminate Hk|reflexivity].
Qed.

Lemma check_AccessControl_config c errs :
  fst (check_AccessControl c errs)
  = set_AccessControl c
      (if String.eqb (AccessControl c) "" then AccessOwnable else AccessControl c).
Proof.
  unfold check_AccessControl.
  destruct (String.eqb (AccessControl c) AccessOwnable
            || String.eqb (AccessControl c) AccessRoles
            || String.eqb (AccessControl c) AccessNone) eqn:Hk.
  - rewrite (eqb_known_not_empty _ Hk). now destruct c.
  - destruct (String.eqb (AccessControl c) ""); simpl;
      [reflexivity|now destruct c].
Qed.

(** The body of [Validate] computes the normalized configuration and the
    messages of the violated rules. *)
Lemma Validate_body_spec c : Validate_body c = (normalized c, violations c).
Proof.
  unfold Validate_body.
  rewrite (surjective_pairing (check_AccessControl _ _)).
  rewrite check_AccessControl_errs, check_AccessControl_config.
  rewrite check_MaxSupply_app, check_InitialSupply_app, check_Decimals_app,
    check_Symbol_app, check_Name_app.
  f_equal.
  - unfold default_SolidityVersion, default_License, couple_Snapshot, normalized.
    destruct c as [n s d i m mi bu pa pe sn vo ac li sv wd wt].
    destruct vo, sn; cbn; destruct (String.eqb li ""); cbn;
      destruct (String.eqb sv ""); reflexivity.
  - unfold violations, rules. simpl. now rewrite <- !app_assoc, app_nil_r.
Qed.

Lemma Validate_spec c :
  Validate c
  = (normalized c,
     match violations c with
     | [] => None
     | errs => Some (strings.Join errs (String "010" "  - "))
     end).
Proof.
  unfold Validate. rewrite Validate_body_spec.
  destruct (violations c); reflexivity.
Qed.

End Blocks.

(** ** Composition rules *)

Lemma append_if_pick b l x : append_if b l x = l ++ pick b [x].
Proof. destruct b; simpl; [reflexivity|now rewrite app_nil_r]. Qed.

Lemma filter_pick {A} (f : A -> bool) b (l : list A) :
  filter f (pick b l) = pick b (filter f l).
Proof. now destruct b. Qed.

Lemma pick_nil {A} b : @pick A b [] = [].
Proof. now destruct b. Qed.

Lemma select_cons {A} (x : A) b rest :
  map fst (filter snd ((x, b) :: rest))
  = pick b [x] ++ map fst (filter snd rest).
Proof. now destruct b. Qed.

Lemma select_group_cons {A} (g : list A) b rest :
  flat_map fst (filter snd ((g, b) :: rest))
  = pick b g ++ flat_map fst (filter snd rest).
Proof. now destruct b. Qed.

Lemma In_pick {A} (y : A) b l : In y (pick b l) -> In y l.
Proof. destruct b; simpl; tauto. Qed.

Lemma hd_error_In {A} (y : A) l : hd_error l = Some y -> In y l.
Proof. destruct l; simpl; [discriminate|intros [= ->]; now left]. Qed.

Lemma ownable_not_roles (a : string) :
  String.eqb a "ownable" = true -> String.eqb a "roles" = false.
Proof. intros E. apply String.eqb_eq in E. now subst. Qed.

Lemma InheritanceList_filter c :
  InheritanceList c = map fst (filter snd (inheritance_order c)).
Proof.
  unfold InheritanceList, inheritance_order, NeedsOwnable, NeedsRoles,
    AccessOwnable, AccessRoles.
  rewrite !append_if_pick, !select_cons. simpl.
  now rewrite <- !app_assoc, app_nil_r.
Qed.

Lemma access_entries_picks c :
  access_entries c
  = pick (String.eqb (AccessControl c) "ownable") ["Ownable"]
    ++ pick (String.eqb (AccessControl c) "roles") ["AccessControl"].
Proof.
  unfold access_entries.
  destruct (String.eqb (AccessControl c) "ownable") eqn:Eo;
    [now rewrite (ownable_not_roles _ Eo)|].
  destruct (String.eqb (AccessControl c) "roles"); reflexivity.
Qed.

Lemma InheritanceList_split c :
  InheritanceList c = feature_entries c ++ access_entries c.
Proof.
  rewrite InheritanceList_filter, access_entries_picks.
  unfold feature_entries, inheritance_order, firstn.
  rewrite !select_cons. simpl. now rewrite <- !app_assoc, app_nil_r.
Qed.

Lemma feature_entries_no_access c :
  filter is_access_entry (feature_entries c) = [].
Proof.
  unfold feature_entries, inheritance_order, firstn.
  rewrite !select_cons, !filter_app, !filter_pick. simpl.
  destruct (negb _), (Burnable c), (Pausable c), (Permit c), (Snapshot c),
    (Votes c); reflexivity.
Qed.

Lemma access_entries_access c :
  filter is_access_entry (access_entries c) = access_entries c.
Proof.
  unfold access_entries.
  destruct (String.eqb (AccessControl c) "ownable"),
    (String.eqb (AccessControl c) "roles"); reflexivity.
Qed.

Ltac absurd_entry H :=
  repeat (apply in_app_or in H as [H|H];
          [apply In_pick in H; simpl in H; destruct H as [H|[]];
           discriminate H|]);
  try (simpl in H; destruct H).

Lemma InheritanceList_head c :
  hd_error (InheritanceList c) = Some "ERC20Capped" <-> MaxSupply c <> "".
Proof.
  rewrite InheritanceList_filter. unfold inheritance_order.
  rewrite select_cons.
  destruct (String.eqb_spec (MaxSupply c) "") as [Em|Em]; cbn [negb pick app].
  - split; [|now intros E; elim E].
    intros E. apply hd_error_In in E. exfalso.
    rewrite !select_cons in E. absurd_entry E.
  - split; [intros _; exact Em|reflexivity].
Qed.

(** C1: [InheritanceList] is the fixed order capped, burnable, pausable,
    permit, snapshot, votes, Ownable, AccessControl restricted to the
    entries whose condition holds; the capped entry is the head exactly when
    [MaxSupply] is not empty; the access-control entries are Ownable alone
    for ownable, AccessControl alone for roles and none otherwise, they
    come after every other entry, and there is at most one. *)
Theorem InheritanceList_order (c : TokenConfig) :
  InheritanceList c = map fst (filter snd (inheritance_order c))
  /\ (hd_error (InheritanceList c) = Some "ERC20Capped" <-> MaxSupply c <> "")
  /\ filter is_access_entry (InheritanceList c)
     = (if String.eqb (AccessControl c) "ownable" then ["Ownable"]
        else if String.eqb (AccessControl c) "roles" then ["AccessControl"]
        else [])
  /\ (exists front,
        InheritanceList c = front ++ filter is_access_entry (InheritanceList c)
        /\ filter is_access_entry front = [])
  /\ (List.length (filter is_access_entry (InheritanceList c)) <= 1)%nat.
Proof.
  assert (Ha : filter is_access_entry (InheritanceList c) = access_entries c).
  { rewrite InheritanceList_split, filter_app, feature_entries_no_access.
    apply access_entries_access. }
  split; [apply InheritanceList_filter|].
  split; [apply InheritanceList_head|].
  rewrite Ha. split; [reflexivity|]. split.
  - exists (feature_entries c).
    split; [apply InheritanceList_split|apply feature_entries_no_access].
  - unfold access_entries.
    destruct (String.eqb (AccessControl c) "ownable"),
      (String.eqb (AccessControl c) "roles"); simpl; lia.
Qed.

Lemma ImportPaths_filter c :
  ImportPaths c = flat_map fst (filter snd (import_order c)).
Proof.
  unfold ImportPaths, import_order, NeedsOwnable, NeedsRoles,
    AccessOwnable, AccessRoles.
  rewrite !append_if_pick, !select_group_cons.
  destruct (Pausable c); simpl; now rewrite <- !app_assoc, ?app_nil_r.
Qed.

Lemma access_imports_picks c :
  access_imports c
  = pick (String.eqb (AccessControl c) "ownable") [import_ownable]
    ++ pick (String.eqb (AccessControl c) "roles") [import_roles].
Proof.
  unfold access_imports.
  destruct (String.eqb (AccessControl c) "ownable") eqn:Eo;
    [now rewrite (ownable_not_roles _ Eo)|].
  destruct (String.eqb (AccessControl c) "roles"); reflexivity.
Qed.

Lemma ImportPaths_split c :
  ImportPaths c = feature_imports c ++ access_imports c.
Proof.
  rewrite ImportPaths_filter, access_imports_picks.
  unfold feature_imports, import_order, firstn.
  rewrite !select_group_cons. simpl. now rewrite <- !app_assoc, app_nil_r.
Qed.

(** Evaluates the filters of the goal that stand on a closed list. *)
Ltac eval_filters f :=
  repeat match goal with
  | |- context [filter f ?l] =>
      let r := eval vm_compute in (filter f l) in
      change (filter f l) with r
  end.

Lemma feature_imports_no_access c :
  filter is_access_import (feature_imports c) = [].
Proof.
  unfold feature_imports, import_order, firstn.
  rewrite !select_group_cons. cbn [flat_map filter].
  rewrite !filter_app, !filter_pick.
  eval_filters is_access_import.
  now rewrite !pick_nil.
Qed.

Lemma ImportPaths_base_once c :
  filter (String.eqb import_base) (ImportPaths c) = [import_base].
Proof.
  rewrite ImportPaths_filter. unfold import_order.
  rewrite !select_group_cons. cbn [flat_map filter].
  rewrite !filter_app, !filter_pick.
  eval_filters (String.eqb import_base).
  now rewrite !pick_nil.
Qed.

Lemma ImportPaths_capped c :
  filter (String.eqb import_capped) (ImportPaths c)
  = pick (negb (String.eqb (MaxSupply c) "")) [import_capped].
Proof.
  rewrite ImportPaths_filter. unfold import_order.
  rewrite !select_group_cons. cbn [flat_map filter].
  rewrite !filter_app, !filter_pick.
  eval_filters (String.eqb import_capped).
  rewrite !pick_nil. simpl. now rewrite app_nil_r.
Qed.

(** C2: [ImportPaths] is the fixed order base, burnable, the two pausable
    paths, permit, snapshot, votes, capped, Ownable, AccessControl
    restricted to the groups whose condition holds (the base always, capped
    when [MaxSupply] is not empty whatever the flags); the base path is the
    head and occurs once; the access-control imports are the Ownable path
    alone for ownable, the roles path alone for roles, none otherwise, and
    they come last. *)
Theorem ImportPaths_order (c : TokenConfig) :
  ImportPaths c = flat_map fst (filter snd (import_order c))
  /\ hd_error (ImportPaths c) = Some import_base
  /\ filter (String.eqb import_base) (ImportPaths c) = [import_base]
  /\ filter (String.eqb import_capped) (ImportPaths c)
     = (if String.eqb (MaxSupply c) "" then [] else [import_capped])
  /\ filter is_access_import (ImportPaths c)
     = (if String.eqb (AccessControl c) "ownable" then [import_ownable]
        else if String.eqb (AccessControl c) "roles" then [import_roles]
        else [])
  /\ (exists front,
        ImportPaths c = front ++ filter is_access_import (ImportPaths c)
        /\ filter is_access_import front = []).
Proof.
  assert (Ha : filter is_access_import (ImportPaths c) = access_imports c).
  { rewrite ImportPaths_split, filter_app, feature_imports_no_access.
    unfold access_imports.
    destruct (String.eqb (AccessControl c) "ownable"),
      (String.eqb (AccessControl c) "roles"); reflexivity. }
  split; [apply ImportPaths_filter|].
  split; [now rewrite ImportPaths_filter|].
  split; [apply ImportPaths_base_once|].
  split; [rewrite ImportPaths_capped;
          now destruct (String.eqb (MaxSupply c) "")|].
  rewrite Ha. split; [reflexivity|].
  exists (feature_imports c).
  split; [apply ImportPaths_split|apply feature_imports_no_access].
Qed.

(** ** Validation: accumulation, defaults, frame, idempotence *)
Section ValidateProperties.
Context `{GoTables}.

Lemma In_violations c m :
  In m (violations c) <-> exists r, In r rules /\ r c = Some m.
Proof.
  unfold violations. rewrite in_flat_map. split.
  - intros (r & Hr & Hm). exists r. split; [exact Hr|].
    destruct (r c); simpl in Hm; [now destruct Hm as [->|[]]|contradiction].
  - intros (r & Hr & Hm). exists r. split; [exact Hr|]. rewrite Hm. now left.
Qed.

Lemma length_violations c :
  List.length (violations c)
  = List.length (filter (fun r : rule => is_some (r c)) rules).
Proof.
  unfold violations. induction rules as [|r rs IH]; [reflexivity|].
  simpl. rewrite length_app, IH. now destruct (r c).
Qed.

Lemma violations_nil c :
  violations c = [] <-> forall r, In r rules -> r c = None.
Proof.
  split.
  - intros E r Hr. destruct (r c) as [m|] eqn:Hm; [|reflexivity].
    assert (Hin : In m (violations c)) by (apply In_violations; eauto).
    rewrite E in Hin. contradiction.
  - intros Hall. destruct (violations c) as [|m l] eqn:E; [reflexivity|].
    assert (Hin : In m (violations c)) by (rewrite E; now left).
    apply In_violations in Hin as (r & Hr & Hm).
    rewrite (Hall r Hr) in Hm. discriminate.
Qed.

(** C6: whatever error [Validate] returns, the configuration it leaves has
    the defaults applied: an empty access-control model became ownable, an
    empty license MIT, an empty Solidity version the default pragma, and
    snapshot is on whenever votes is on. *)
Theorem Validate_applies_defaults (c : TokenConfig) :
  (AccessControl c = "" -> AccessControl (fst (Validate c)) = AccessOwnable)
  /\ (License c = "" -> License (fst (Validate c)) = "MIT")
  /\ (SolidityVersion c = ""
      -> SolidityVersion (fst (Validate c)) = "^0.8.24")
  /\ (Votes c = true -> Snapshot (fst (Validate c)) = true)
  /\ (Votes (fst (Validate c)) = true -> Snapshot (fst (Validate c)) = true).
Proof.
  rewrite Validate_spec. cbn [fst normalized AccessControl License
    SolidityVersion Votes Snapshot].
  repeat split.
  - now intros ->.
  - now intros ->.
  - now intros ->.
  - intros ->. apply orb_true_r.
  - intros ->. apply orb_true_r.
Qed.

(** C10: [Validate] writes no field other than [AccessControl],
    [Snapshot], [License] and [SolidityVersion]. *)
Theorem Validate_frame (c : TokenConfig) :
  Name (fst (Validate c)) = Name c
  /\ Symbol (fst (Validate c)) = Symbol c
  /\ Decimals (fst (Validate c)) = Decimals c
  /\ InitialSupply (fst (Validate c)) = InitialSupply c
  /\ MaxSupply (fst (Validate c)) = MaxSupply c
  /\ Mintable (fst (Validate c)) = Mintable c
  /\ Burnable (fst (Validate c)) = Burnable c
  /\ Pausable (fst (Validate c)) = Pausable c
  /\ Permit (fst (Validate c)) = Permit c
  /\ Votes (fst (Validate c)) = Votes c
  /\ WithDeploy (fst (Validate c)) = WithDeploy c
  /\ WithTest (fst (Validate c)) = WithTest c.
Proof. rewrite Validate_spec. repeat split. Qed.

(** The messages do not depend on the feature flags. *)
Lemma violations_set_Snapshot c v :
  violations (set_Snapshot c v) = violations c.
Proof. reflexivity. Qed.

Lemma rule_accessControl_normalized c :
  rule_accessControl (normalized c) = rule_accessControl c.
Proof.
  unfold rule_accessControl. cbn [normalized AccessControl].
  destruct (String.eqb_spec (AccessControl c) "") as [E|E]; [|reflexivity].
  rewrite E. reflexivity.
Qed.

Lemma violations_normalized c : violations (normalized c) = violations c.
Proof.
  unfold violations, rules. cbn [flat_map].
  now rewrite rule_accessControl_normalized.
Qed.

Lemma default_idem (s d : string) :
  String.eqb d "" = false ->
  (if String.eqb (if String.eqb s "" then d else s) "" then d
   else if String.eqb s "" then d else s)
  = if String.eqb s "" then d else s.
Proof.
  intros Hd. destruct (String.eqb s "") eqn:E; [now rewrite Hd|now rewrite E].
Qed.

Lemma normalized_idempotent c : normalized (normalized c) = normalized c.
Proof.
  unfold normalized at 1 3.
  cbn [Name Symbol Decimals InitialSupply MaxSupply Mintable Burnable
       Pausable Permit Snapshot Votes AccessControl License SolidityVersion
       WithDeploy WithTest normalized].
  rewrite !default_idem by reflexivity.
  now rewrite <- orb_assoc, orb_diag.
Qed.

(** Validating an already validated configuration changes nothing. *)
Lemma Validate_idempotent c : Validate (fst (Validate c)) = Validate c.
Proof.
  rewrite !Validate_spec. cbn [fst].
  now rewrite normalized_idempotent, violations_normalized.
Qed.

(** C7: with votes on and snapshot off, [Validate] turns snapshot on and
    collects the same messages as for the configuration that already had
    snapshot on (the coupling is no error); and after a [Validate] that
    returned no error, a second [Validate] leaves every field as it is and
    returns no error again. *)
Theorem Validate_votes_snapshot_idempotent (c : TokenConfig) :
  (Votes c = true -> Snapshot c = false ->
     Snapshot (fst (Validate c)) = true
     /\ snd (Validate_body c) = snd (Validate_body (set_Snapshot c true))
     /\ snd (Validate c) = snd (Validate (set_Snapshot c true)))
  /\ (snd (Validate c) = None ->
      Validate (fst (Validate c)) = (fst (Validate c), None)).
Proof.
  split.
  - intros Hv Hs. rewrite !Validate_spec, !Validate_body_spec.
    cbn [fst snd normalized Snapshot]. rewrite Hv, orb_true_r.
    now rewrite violations_set_Snapshot.
  - intros Hok. rewrite Validate_idempotent.
    rewrite (surjective_pairing (Validate c)) at 1. now rewrite Hok.
Qed.

End ValidateProperties.

Lemma Validate_applies_defaults_witness :
  snd (@Validate latin1_tables invalidConfig) <> None
  /\ AccessControl (fst (@Validate latin1_tables invalidConfig)) = AccessOwnable
  /\ License (fst (@Validate latin1_tables invalidConfig)) = "MIT"
  /\ SolidityVersion (fst (@Validate latin1_tables invalidConfig)) = "^0.8.24"
  /\ Snapshot (fst (@Validate latin1_tables invalidConfig)) = true.
Proof.
  destruct (@Validate_applies_defaults latin1_tables invalidConfig)
    as (Ha & Hl & Hs & Hv & _).
  split; [intros E; vm_compute in E; discriminate E|].
  split; [apply Ha; reflexivity|].
  split; [apply Hl; reflexivity|].
  split; [apply Hs; reflexivity|apply Hv; reflexivity].
Defined.

Lemma Validate_votes_snapshot_idempotent_witness :
  (Snapshot (fst (@Validate latin1_tables votesConfig)) = true
   /\ snd (@Validate_body latin1_tables votesConfig)
      = snd (@Validate_body latin1_tables (set_Snapshot votesConfig true))
   /\ snd (@Validate latin1_tables votesConfig)
      = snd (@Validate latin1_tables (set_Snapshot votesConfig true)))
  /\ @Validate latin1_tables (fst (@Validate latin1_tables votesConfig))
     = (fst (@Validate latin1_tables votesConfig), None).
Proof.
  destruct (@Validate_votes_snapshot_idempotent latin1_tables votesConfig)
    as (Hc & Hi).
  split; [apply Hc; reflexivity|apply Hi; vm_compute; reflexivity].
Defined.

(** ** The supply checks *)
Section SupplyProperties.
Context `{GoTables}.

(** The supply check accepts a decimal string, padded or not. *)
Lemma validateSupplyString_padded l d r :
  all_space l = true -> is_decimal d = true -> all_space r = true ->
  validateSupplyString (l ++ d ++ r) = None.
Proof.
  intros Hl Hd Hr. unfold validateSupplyString.
  rewrite (TrimSpace_padded _ _ _ Hl Hd Hr), (MatchString_decimal _ Hd),
    (SetString10_decimal _ Hd).
  cbn [negb]. unfold is_decimal in Hd. apply andb_true_iff in Hd as [_ Hd].
  pose proof (decimal_value_nonneg _ Hd).
  destruct (decimal_value d <? 0) eqn:E; [lia|reflexivity].
Qed.

Lemma validateSupplyString_decimal d :
  is_decimal d = true -> validateSupplyString d = None.
Proof.
  intros Hd.
  pose proof (validateSupplyString_padded "" d "" eq_refl Hd eq_refl) as E.
  cbn [append] in E. now rewrite append_nil_r in E.
Qed.

(** Only the comparison of the supplies produces the exceeds message. *)
Lemma exceeds_message_iff c :
  In msg_exceeds (violations c) <-> rule_exceeds c = Some msg_exceeds.
Proof.
  rewrite In_violations. split.
  - intros (r & Hr & Hm). unfold rules in Hr. cbn [In] in Hr.
    destruct Hr as [<-|[<-|[<-|[<-|[<-|[<-|[<-|[]]]]]]]]; try exact Hm; exfalso.
    + unfold rule_name in Hm. destruct (String.eqb _ _); [discriminate Hm|].
      destruct (regexp.MatchString _ _); discriminate Hm.
    + unfold rule_symbol in Hm. destruct (String.eqb _ _); [discriminate Hm|].
      destruct (regexp.MatchString _ _); discriminate Hm.
    + unfold rule_decimals in Hm. destruct (_ <=? _)%N; discriminate Hm.
    + unfold rule_initialSupply in Hm. destruct (String.eqb _ _); [discriminate Hm|].
      destruct (validateSupplyString _); discriminate Hm.
    + unfold rule_maxSupply in Hm. destruct (String.eqb _ _); [discriminate Hm|].
      destruct (validateSupplyString _); discriminate Hm.
    + unfold rule_accessControl in Hm. destruct (existsb _ _); discriminate Hm.
  - intros Hm. exists rule_exceeds. split; [|exact Hm].
    unfold rules. cbn [In]. tauto.
Qed.

Lemma is_decimal_not_empty s : is_decimal s = true -> String.eqb s "" = false.
Proof.
  unfold is_decimal. intros Hd. apply andb_true_iff in Hd as [Hne _].
  now apply negb_true_iff in Hne.
Qed.

(** C3: for decimal strings in [InitialSupply] and [MaxSupply], compared
    by the integers they denote, whatever their size: when the initial
    supply is greater, the exceeds message is collected and the error
    returned contains it; when it is not, the message is not produced. *)
Theorem Validate_supply_order (c : TokenConfig) :
  is_decimal (InitialSupply c) = true ->
  is_decimal (MaxSupply c) = true ->
  (decimal_value (MaxSupply c) < decimal_value (InitialSupply c) ->
     In msg_exceeds (snd (Validate_body c))
     /\ exists e, snd (Validate c) = Some e /\ Contains e msg_exceeds)
  /\ (decimal_value (InitialSupply c) <= decimal_value (MaxSupply c) ->
     ~ In msg_exceeds (snd (Validate_body c))).
Proof.
  intros Hi Hm.
  rewrite Validate_spec, Validate_body_spec. cbn [snd].
  assert (Hr : rule_exceeds c
    = if decimal_value (InitialSupply c) <=? decimal_value (MaxSupply c)
      then None else Some msg_exceeds).
  { unfold rule_exceeds.
    rewrite (is_decimal_not_empty _ Hi), (is_decimal_not_empty _ Hm).
    now rewrite (SetString10_decimal _ Hi), (SetString10_decimal _ Hm). }
  split.
  - intros Hgt.
    assert (Hin : In msg_exceeds (violations c)).
    { apply exceeds_message_iff. rewrite Hr.
      destruct (_ <=? _) eqn:E; [lia|reflexivity]. }
    split; [exact Hin|].
    destruct (violations c) as [|m l] eqn:Ev; [contradiction|].
    eexists. split; [reflexivity|]. now apply Join_Contains.
  - intros Hle Hin. apply exceeds_message_iff in Hin. rewrite Hr in Hin.
    destruct (_ <=? _) eqn:E; [discriminate Hin|lia].
Qed.

(** C9: [Validate] succeeds on an initial supply of 9, padded with spaces,
    over a maximum supply of 1; and in general, when one of the two supplies
    is a decimal string padded with ASCII white space, its own check
    passes (the check trims), the integer parse of the comparison fails on
    it (the parse does not trim), and no exceeds message is produced. *)
Theorem Validate_skips_padded_supply :
  (decimal_value (strings.TrimSpace (MaxSupply paddedSupplyConfig))
     < decimal_value (strings.TrimSpace (InitialSupply paddedSupplyConfig))
   /\ Validate paddedSupplyConfig = (paddedSupplyConfig, None))
  /\ (forall c l d r,
        all_space l = true -> is_decimal d = true -> all_space r = true ->
        (l ++ r)%string <> "" ->
        InitialSupply c = (l ++ d ++ r)%string
        \/ MaxSupply c = (l ++ d ++ r)%string ->
        validateSupplyString (l ++ d ++ r) = None
        /\ big.SetString10 (l ++ d ++ r) = None
        /\ ~ In msg_exceeds (snd (Validate_body c))).
Proof.
  split; [split; vm_compute; reflexivity|].
  intros c l d r Hl Hd Hr Hne Hc.
  split; [now apply validateSupplyString_padded|].
  pose proof (SetString10_padded _ _ _ Hl Hd Hr Hne) as Hp.
  split; [exact Hp|].
  rewrite Validate_body_spec. cbn [snd]. rewrite exceeds_message_iff.
  unfold rule_exceeds.
  destruct (String.eqb (MaxSupply c) "" || String.eqb (InitialSupply c) "");
    [discriminate|].
  destruct Hc as [-> | ->]; rewrite Hp; [discriminate|].
  destruct (big.SetString10 (InitialSupply c)); discriminate.
Qed.

End SupplyProperties.

Lemma Validate_supply_order_witness :
  In msg_exceeds (snd (@Validate_body latin1_tables hugeSupplyConfig))
  /\ exists e, snd (@Validate latin1_tables hugeSupplyConfig) = Some e
               /\ Contains e msg_exceeds.
Proof.
  apply (@Validate_supply_order latin1_tables hugeSupplyConfig);
    vm_compute; reflexivity.
Defined.

Lemma Validate_skips_padded_supply_witness :
  validateSupplyString (H := latin1_tables) " 9 " = None
  /\ big.SetString10 " 9 " = None
  /\ ~ In msg_exceeds (snd (@Validate_body latin1_tables paddedSupplyConfig)).
Proof.
  apply (proj2 (@Validate_skips_padded_supply latin1_tables)
           paddedSupplyConfig " " "9" " ");
    try reflexivity; [discriminate|now left].
Defined.

(** ** The symbol check *)

Lemma symbol_byte_plain a : is_symbol_byte a = true -> plain_byte a = true.
Proof.
  unfold is_symbol_byte, plain_byte, validSymbolRe, regexp.class,
    strings.asciiSpace, unicode.in_range, utf8.RuneSelf. lia.
Qed.

Lemma map_bytes_upper_symbol s :
  forallb is_symbol_byte (bytes s) = true ->
  strings.map_bytes
    (fun c => if unicode.in_range 97 122 c then c - 32 else c) s = s.
Proof.
  induction s as [|a s IH]; [reflexivity|].
  cbn [bytes list_ascii_of_string forallb strings.map_bytes]. intros Hs.
  apply andb_true_iff in Hs as [Ha Hs]. fold (bytes s) in Hs.
  rewrite (IH Hs).
  replace (unicode.in_range 97 122 (byte_val a)) with false.
  - now rewrite byte_of_val.
  - unfold is_symbol_byte, validSymbolRe, regexp.class, unicode.in_range in *.
    lia.
Qed.

(** A symbol that matches [validSymbolRe] is a string of 1 to 11 bytes in
    A-Z and 0-9. *)
Lemma symbol_match_bytes s :
  regexp.MatchString validSymbolRe s = true ->
  s <> "" /\ strings.is_ascii s = true
  /\ forallb is_symbol_byte (bytes s) = true.
Proof.
  unfold regexp.MatchString. intros Hm.
  apply andb_true_iff in Hm as [Hm Hc]. apply andb_true_iff in Hm as [Hmin _].
  assert (Ha : strings.is_ascii s = true).
  { apply runes_ascii_inv. revert Hc. apply forallb_imp. intros r.
    unfold validSymbolRe, regexp.class, unicode.in_range, utf8.RuneSelf. lia. }
  split; [|split; [exact Ha|]].
  - intros ->. discriminate Hmin.
  - rewrite (runes_ascii _ Ha), forallb_map_compose in Hc. exact Hc.
Qed.

Section SymbolProperties.
Context `{GoTables}.

(** A symbol that matches passes the check. *)
Lemma rule_symbol_matching c :
  regexp.MatchString validSymbolRe (Symbol c) = true -> rule_symbol c = None.
Proof.
  intros Hm. destruct (symbol_match_bytes _ Hm) as (Hne & Ha & Hb).
  unfold rule_symbol.
  rewrite (TrimSpace_plain _ (forallb_imp _ _ _ symbol_byte_plain Hb)).
  apply String.eqb_neq in Hne. rewrite Hne.
  unfold strings.ToUpper. rewrite Ha, (map_bytes_upper_symbol _ Hb).
  now rewrite Hm.
Qed.

(** C5, at the failing input: the symbol [mtk] does not match
    [^[A-Z0-9]{1,11}$], yet the symbol check, which upper-cases the symbol
    before it matches, reports nothing and [Validate] returns no error;
    a symbol that does match never gets a symbol message. *)
Theorem Validate_accepts_lowercase_symbol :
  (regexp.MatchString validSymbolRe (Symbol lowercaseSymbolConfig) = false
   /\ rule_symbol lowercaseSymbolConfig = None
   /\ check_Symbol lowercaseSymbolConfig [] = []
   /\ Validate lowercaseSymbolConfig = (lowercaseSymbolConfig, None))
  /\ (forall c, regexp.MatchString validSymbolRe (Symbol c) = true ->
                check_Symbol c [] = []).
Proof.
  split; [repeat split; vm_compute; reflexivity|].
  intros c Hm. now rewrite check_Symbol_app, (rule_symbol_matching _ Hm).
Qed.

End SymbolProperties.

(** ** File names *)
Section Naming.
Context `{GoTables}.

Lemma safe_rune_valid r : ValidRune r -> ValidRune (safe_rune r).
Proof. unfold safe_rune. destruct (alphanumeric r); [tauto|]. arith. Qed.

Lemma safe_rune_ascii r : 0 <= r < 128 -> 0 <= safe_rune r < 128.
Proof. unfold safe_rune. destruct (alphanumeric r); lia. Qed.

(** A name that matches [validNameRe] is an ASCII string. *)
Lemma name_match_ascii s :
  regexp.MatchString validNameRe s = true -> strings.is_ascii s = true.
Proof.
  unfold regexp.MatchString. intros Hm. apply andb_true_iff in Hm as [_ Hc].
  apply runes_ascii_inv. revert Hc. apply forallb_imp. intros r.
  unfold validNameRe, regexp.class, unicode.in_range, utf8.RuneSelf. lia.
Qed.

(** C8: the characters of [SafeName] are those of the name, one for one,
    with every character that is not a letter or a digit replaced by an
    underscore and the others kept, so the two have the same length in
    characters; on an ASCII name, as every name that matches [validNameRe]
    is, the replacement is byte by byte and the length in bytes is the same
    too; [ContractFileName] is [SafeName] followed by [.sol]. *)
Theorem SafeName_replaces (c : TokenConfig) :
  utf8.runes (SafeName c) = map safe_rune (utf8.runes (Name c))
  /\ utf8.RuneCountInString (SafeName c) = utf8.RuneCountInString (Name c)
  /\ (strings.is_ascii (Name c) = true ->
      SafeName c = strings.map_bytes safe_rune (Name c)
      /\ String.length (SafeName c) = String.length (Name c))
  /\ (regexp.MatchString validNameRe (Name c) = true ->
      String.length (SafeName c) = String.length (Name c))
  /\ ContractFileName c = (SafeName c ++ ".sol")%string.
Proof.
  assert (Hr : utf8.runes (SafeName c) = map safe_rune (utf8.runes (Name c)))
    by apply (runes_Map safe_rune), safe_rune_valid.
  assert (Hb : strings.is_ascii (Name c) = true ->
               SafeName c = strings.map_bytes safe_rune (Name c)).
  { intros Ha. apply (Map_ascii safe_rune _ Ha), safe_rune_ascii. }
  split; [exact Hr|].
  split; [unfold utf8.RuneCountInString; now rewrite Hr, length_map|].
  split; [|split; [|reflexivity]].
  - intros Ha. split; [exact (Hb Ha)|].
    rewrite (Hb Ha). apply length_map_bytes.
  - intros Hm. rewrite (Hb (name_match_ascii _ Hm)). apply length_map_bytes.
Qed.

End Naming.

Lemma SafeName_replaces_witness :
  @SafeName latin1_tables (namedConfig "My-Token 2")
  = strings.map_bytes (@safe_rune latin1_tables) "My-Token 2"
  /\ String.length (@SafeName latin1_tables (namedConfig "My-Token 2"))
     = String.length "My-Token 2".
Proof.
  apply (@SafeName_replaces latin1_tables (namedConfig "My-Token 2")).
  reflexivity.
Defined.

(** On a name with characters outside ASCII the same characters can take
    fewer bytes: the pound sign of [poundName] takes two and the underscore
    that replaces it takes one. *)
Lemma SafeName_pound_bytes :
  utf8.runes poundName = [65; 163]
  /\ utf8.runes (@SafeName latin1_tables (namedConfig poundName)) = [65; 95]
  /\ String.length (Name (namedConfig poundName)) = 3%nat
  /\ String.length (@SafeName latin1_tables (namedConfig poundName)) = 2%nat.
Proof. repeat split. Qed.

(** * Further properties *)

(** ** [validateSupplyString] *)

(** A string that matches [validDecimalNum] is a decimal string. *)
Lemma MatchString_decimal_inv t :
  regexp.MatchString validDecimalNum t = true -> is_decimal t = true.
Proof.
  unfold regexp.MatchString. intros Hm.
  apply andb_true_iff in Hm as [Hm Hc]. apply andb_true_iff in Hm as [Hmin _].
  assert (Ha : strings.is_ascii t = true).
  { apply runes_ascii_inv. revert Hc. apply forallb_imp. intros r.
    unfold validDecimalNum, regexp.class, unicode.in_range, utf8.RuneSelf. lia. }
  rewrite (runes_ascii _ Ha), forallb_map_compose in Hc.
  unfold is_decimal. rewrite all_digits_forallb.
  apply andb_true_iff. split; [|exact Hc].
  destruct t; [discriminate Hmin|reflexivity].
Qed.

Lemma MatchString_decimal_iff t :
  regexp.MatchString validDecimalNum t = is_decimal t.
Proof.
  destruct (is_decimal t) eqn:Hd; [now apply MatchString_decimal|].
  destruct (regexp.MatchString validDecimalNum t) eqn:Hm; [|reflexivity].
  apply MatchString_decimal_inv in Hm. congruence.
Qed.

Section SupplyString.
Context `{GoTables}.

Lemma validateSupplyString_cases s :
  validateSupplyString s
  = if is_decimal (strings.TrimSpace s) then None
    else Some (strconv_Quote (strings.TrimSpace s)
               ++ " is not a valid positive integer")%string.
Proof.
  unfold validateSupplyString. rewrite MatchString_decimal_iff.
  destruct (is_decimal (strings.TrimSpace s)) eqn:Hd; [|reflexivity].
  cbn [negb]. rewrite (SetString10_decimal _ Hd).
  unfold is_decimal in Hd. apply andb_true_iff in Hd as [_ Hd].
  pose proof (decimal_value_nonneg _ Hd).
  destruct (decimal_value (strings.TrimSpace s) <? 0) eqn:E; [lia|reflexivity].
Qed.

(** X1: [validateSupplyString] returns [nil] exactly when the trimmed
    string is one or more ASCII digits (zero and leading zeros included);
    every other string gets the not-a-valid-positive-integer error: the
    cannot-be-parsed and the must-be-non-negative errors are never
    returned. *)
Theorem validateSupplyString_outcomes (s : string) :
  (validateSupplyString s = None <-> is_decimal (strings.TrimSpace s) = true)
  /\ (validateSupplyString s = None
      \/ validateSupplyString s
         = Some (strconv_Quote (strings.TrimSpace s)
                 ++ " is not a valid positive integer")%string)
  /\ validateSupplyString s
     <> Some (strconv_Quote (strings.TrimSpace s)
              ++ " cannot be parsed as an integer")%string
  /\ validateSupplyString s <> Some "must be a non-negative integer"
  /\ validateSupplyString "0" = None
  /\ validateSupplyString "007" = None.
Proof.
  rewrite validateSupplyString_cases.
  destruct (is_decimal (strings.TrimSpace s)) eqn:Hd.
  - repeat split; try discriminate; auto.
  - split; [split; discriminate|]. split; [now right|].
    split; [|split; [|split; reflexivity]].
    + intros [= E]. revert E.
      generalize (strconv_Quote (strings.TrimSpace s)).
      intros q E. apply (f_equal String.length) in E.
      revert E. clear. induction q as [|a q IH]; simpl; [discriminate|].
      intros [= E]. now apply IH.
    + intros [= E]. apply (f_equal String.length) in E. revert E.
      generalize (strconv_Quote (strings.TrimSpace s)). clear.
      intros q E.
      assert (Hl : forall t u, String.length (t ++ u)
                               = (String.length t + String.length u)%nat).
      { clear. intros t u. induction t; simpl; [reflexivity|now f_equal]. }
      rewrite Hl in E. simpl in E. lia.
Qed.

End SupplyString.

(** ** What a successful [Validate] guarantees *)
Section ValidatedConfig.
Context `{GoTables}.

Lemma Validate_ok_rules c :
  snd (Validate c) = None <-> forall r, In r rules -> r c = None.
Proof.
  rewrite Validate_spec. cbn [snd]. rewrite <- violations_nil.
  destruct (violations c); split; intros E; reflexivity || discriminate E.
Qed.

Lemma rule_supply_ok (s : string) :
  (if String.eqb s "" then None
   else option_map (String.append "x") (validateSupplyString s)) = None ->
  s = "" \/ is_decimal (strings.TrimSpace s) = true.
Proof.
  destruct (String.eqb_spec s "") as [->|Hne]; [now left|].
  rewrite validateSupplyString_cases.
  destruct (is_decimal (strings.TrimSpace s)); [now right|discriminate].
Qed.

Lemma rule_initialSupply_ok c :
  rule_initialSupply c = None ->
  InitialSupply c = "" \/ is_decimal (strings.TrimSpace (InitialSupply c)) = true.
Proof.
  unfold rule_initialSupply. intros E. apply rule_supply_ok.
  destruct (String.eqb (InitialSupply c) ""); [reflexivity|].
  now destruct (validateSupplyString (InitialSupply c)).
Qed.

Lemma rule_maxSupply_ok c :
  rule_maxSupply c = None ->
  MaxSupply c = "" \/ is_decimal (strings.TrimSpace (MaxSupply c)) = true.
Proof.
  unfold rule_maxSupply. intros E. apply rule_supply_ok.
  destruct (String.eqb (MaxSupply c) ""); [reflexivity|].
  now destruct (validateSupplyString (MaxSupply c)).
Qed.

Lemma rule_accessControl_ok c :
  rule_accessControl c = None ->
  In (AccessControl (normalized c)) [AccessOwnable; AccessRoles; AccessNone].
Proof.
  unfold rule_accessControl. cbn [existsb normalized AccessControl In].
  destruct (String.eqb_spec (AccessControl c) AccessOwnable) as [E|_];
    [rewrite E; cbn; auto|].
  destruct (String.eqb_spec (AccessControl c) AccessRoles) as [E|_];
    [rewrite E; cbn; auto|].
  destruct (String.eqb_spec (AccessControl c) AccessNone) as [E|_];
    [rewrite E; cbn; auto|].
  destruct (String.eqb_spec (AccessControl c) "") as [E|_];
    [auto|discriminate].
Qed.

(** X2: when [Validate] returns no error, the configuration it leaves has
    an access-control model among ownable, roles and none, at most 18
    decimals, a license and a Solidity version that are not empty, snapshot
    on whenever votes is on, each supply either empty or, once trimmed, a
    decimal string, and, when both supplies are plain decimal strings, an
    initial supply that is at most the maximum supply. *)
Theorem Validate_success_invariant (c : TokenConfig) :
  snd (Validate c) = None ->
  In (AccessControl (fst (Validate c))) [AccessOwnable; AccessRoles; AccessNone]
  /\ (Decimals (fst (Validate c)) <= 18)%N
  /\ License (fst (Validate c)) <> ""
  /\ SolidityVersion (fst (Validate c)) <> ""
  /\ (Votes (fst (Validate c)) = true -> Snapshot (fst (Validate c)) = true)
  /\ (InitialSupply (fst (Validate c)) = ""
      \/ is_decimal (strings.TrimSpace (InitialSupply (fst (Validate c)))) = true)
  /\ (MaxSupply (fst (Validate c)) = ""
      \/ is_decimal (strings.TrimSpace (MaxSupply (fst (Validate c)))) = true)
  /\ (is_decimal (InitialSupply (fst (Validate c))) = true ->
      is_decimal (MaxSupply (fst (Validate c))) = true ->
      decimal_value (InitialSupply (fst (Validate c)))
      <= decimal_value (MaxSupply (fst (Validate c)))).
Proof.
  intros Hok. rewrite Validate_ok_rules in Hok.
  assert (Hr : forall r, In r rules -> r c = None) by exact Hok.
  rewrite Validate_spec.
  cbn [fst normalized Decimals License SolidityVersion Votes Snapshot
       InitialSupply MaxSupply].
  split; [apply rule_accessControl_ok, Hr; unfold rules; cbn; tauto|].
  split.
  { assert (Hd : rule_decimals c = None) by (apply Hr; unfold rules; cbn; tauto).
    unfold rule_decimals in Hd.
    destruct (Decimals c <=? 18)%N eqn:E; [now apply N.leb_le|discriminate]. }
  split; [destruct (String.eqb_spec (License c) ""); [discriminate|assumption]|].
  split; [destruct (String.eqb_spec (SolidityVersion c) "");
          [discriminate|assumption]|].
  split; [intros ->; apply orb_true_r|].
  split; [apply rule_initialSupply_ok, Hr; unfold rules; cbn; tauto|].
  split; [apply rule_maxSupply_ok, Hr; unfold rules; cbn; tauto|].
  intros Hi Hm.
  assert (He : rule_exceeds c = None) by (apply Hr; unfold rules; cbn; tauto).
  unfold rule_exceeds in He.
  rewrite (is_decimal_not_empty _ Hi), (is_decimal_not_empty _ Hm) in He.
  rewrite (SetString10_decimal _ Hi), (SetString10_decimal _ Hm) in He.
  cbn [orb] in He.
  destruct (decimal_value (InitialSupply c) <=? decimal_value (MaxSupply c))
    eqn:E; [lia|discriminate].
Qed.

(** X3: [NeedsOwnable] and [NeedsRoles] never hold together and each
    implies [HasAccessControl]; on a configuration whose access-control
    model is none of ownable, roles and none (the empty one too),
    [HasAccessControl] holds although the inheritance list has no
    access-control entry; after a [Validate] without error,
    [HasAccessControl] holds exactly when one of the two is needed, which
    is exactly when the inheritance list has an access-control entry. *)
Theorem access_predicates (c : TokenConfig) :
  NeedsOwnable c && NeedsRoles c = false
  /\ (NeedsOwnable c || NeedsRoles c = true -> HasAccessControl c = true)
  /\ (~ In (AccessControl c) [AccessOwnable; AccessRoles; AccessNone] ->
      HasAccessControl c = true
      /\ filter is_access_entry (InheritanceList c) = [])
  /\ (snd (Validate c) = None ->
      HasAccessControl (fst (Validate c))
      = NeedsOwnable (fst (Validate c)) || NeedsRoles (fst (Validate c))
      /\ HasAccessControl (fst (Validate c))
         = negb (Nat.eqb (List.length
             (filter is_access_entry (InheritanceList (fst (Validate c))))) 0)).
Proof.
  assert (Hf : forall d, filter is_access_entry (InheritanceList d)
                         = access_entries d).
  { intros d. rewrite InheritanceList_split, filter_app,
      feature_entries_no_access. apply access_entries_access. }
  unfold NeedsOwnable, NeedsRoles, HasAccessControl.
  split.
  { unfold AccessOwnable, AccessRoles.
    destruct (String.eqb (AccessControl c) "ownable") eqn:E;
      [now rewrite (ownable_not_roles _ E)|reflexivity]. }
  split.
  { intros Hn. apply orb_true_iff in Hn as [E|E];
      apply String.eqb_eq in E; now rewrite E. }
  split.
  { intros Hnot. cbn [In] in Hnot. rewrite Hf. unfold access_entries.
    destruct (String.eqb_spec (AccessControl c) AccessNone) as [E|_];
      [exfalso; apply Hnot; right; right; left; now rewrite E|].
    destruct (String.eqb_spec (AccessControl c) "ownable") as [E|_];
      [exfalso; apply Hnot; left; now rewrite E|].
    destruct (String.eqb_spec (AccessControl c) "roles") as [E|_];
      [exfalso; apply Hnot; right; left; now rewrite E|].
    split; reflexivity. }
  intros Hok. rewrite Validate_ok_rules in Hok.
  assert (Ha : In (AccessControl (normalized c))
                 [AccessOwnable; AccessRoles; AccessNone])
    by (apply rule_accessControl_ok, Hok; unfold rules; cbn; tauto).
  rewrite Validate_spec. cbn [fst]. rewrite Hf. unfold access_entries.
  cbn [In] in Ha. destruct Ha as [<-|[<-|[<-|[]]]]; split; reflexivity.
Qed.

End ValidatedConfig.

(** ** What [Validate] reads and when it writes *)
Section ValidateReads.
Context `{GoTables}.

Lemma violations_same_checked c1 c2 :
  same_checked_fields c1 c2 -> violations c1 = violations c2.
Proof.
  intros (Hn & Hs & Hd & Hi & Hm & Ha).
  unfold violations, rules. cbn [flat_map].
  unfold rule_name, rule_symbol, rule_decimals, rule_initialSupply,
    rule_maxSupply, rule_exceeds, rule_accessControl.
  now rewrite Hn, Hs, Hd, Hi, Hm, Ha.
Qed.

(** X4: the error of [Validate] depends on the name, the symbol, the
    decimals, the two supplies and the access-control model only: two
    configurations that agree on these get the same messages and the same
    error, whatever their license, Solidity version, feature flags and
    output options, none of which is ever checked. *)
Theorem Validate_reads_checked_fields_only (c1 c2 : TokenConfig) :
  same_checked_fields c1 c2 ->
  snd (Validate_body c1) = snd (Validate_body c2)
  /\ snd (Validate c1) = snd (Validate c2).
Proof.
  intros Hs. rewrite !Validate_spec, !Validate_body_spec. cbn [snd].
  now rewrite (violations_same_checked _ _ Hs).
Qed.

(** X5: validating twice is validating once, also when the first
    [Validate] returned an error: the second run changes no field,
    collects the same messages and returns the same error. *)
Theorem Validate_twice (c : TokenConfig) :
  Validate (fst (Validate c)) = Validate c
  /\ snd (Validate_body (fst (Validate c))) = snd (Validate_body c).
Proof.
  split; [apply Validate_idempotent|].
  rewrite Validate_spec, !Validate_body_spec. cbn [fst snd].
  apply violations_normalized.
Qed.

Lemma eqb_default_same (s d : string) :
  d <> "" -> ((if String.eqb s "" then d else s) = s <-> s <> "").
Proof.
  intros Hd. destruct (String.eqb_spec s "") as [->|Hne].
  - split; [intros E; now elim Hd|intros E; now elim E].
  - split; auto.
Qed.

(** X6: [Validate] leaves a configuration exactly as it was if and only if
    its access-control model, license and Solidity version are not empty
    and snapshot is on whenever votes is on. *)
Theorem Validate_changes_nothing_iff (c : TokenConfig) :
  fst (Validate c) = c
  <-> AccessControl c <> "" /\ License c <> "" /\ SolidityVersion c <> ""
      /\ (Votes c = true -> Snapshot c = true).
Proof.
  rewrite Validate_spec. cbn [fst]. split.
  - intros E.
    assert (Ea : AccessControl (normalized c) = AccessControl c) by now rewrite E.
    assert (El : License (normalized c) = License c) by now rewrite E.
    assert (Es : SolidityVersion (normalized c) = SolidityVersion c)
      by now rewrite E.
    assert (En : Snapshot (normalized c) = Snapshot c) by now rewrite E.
    cbn [normalized AccessControl License SolidityVersion Snapshot] in *.
    apply eqb_default_same in Ea; [|discriminate].
    apply eqb_default_same in El; [|discriminate].
    apply eqb_default_same in Es; [|discriminate].
    repeat split; try assumption.
    intros Hv. rewrite Hv, orb_true_r in En. now symmetry.
  - intros (Ha & Hl & Hs & Hv). unfold normalized.
    apply String.eqb_neq in Ha, Hl, Hs. rewrite Ha, Hl, Hs.
    assert (En : Snapshot c || Votes c = Snapshot c).
    { destruct (Votes c); [rewrite (Hv eq_refl); reflexivity|apply orb_false_r]. }
    rewrite En. now destruct c.
Qed.

End ValidateReads.

(** ** Imports against inheritance *)

Lemma In_pick_iff {A} (y : A) b l : In y (pick b l) <-> b = true /\ In y l.
Proof. destruct b; simpl; intuition discriminate. Qed.

Lemma InheritanceList_picks c :
  InheritanceList c
  = pick (negb (String.eqb (MaxSupply c) "")) ["ERC20Capped"]
    ++ pick (Burnable c) ["ERC20Burnable"]
    ++ pick (Pausable c) ["ERC20Pausable"]
    ++ pick (Permit c) ["ERC20Permit"]
    ++ pick (Snapshot c) ["ERC20Snapshot"]
    ++ pick (Votes c) ["ERC20Votes"]
    ++ pick (String.eqb (AccessControl c) "ownable") ["Ownable"]
    ++ pick (String.eqb (AccessControl c) "roles") ["AccessControl"].
Proof.
  rewrite InheritanceList_filter. unfold inheritance_order.
  rewrite !select_cons. cbn [filter map]. now rewrite app_nil_r.
Qed.

Lemma ImportPaths_picks c :
  ImportPaths c
  = [import_base]
    ++ pick (Burnable c)
         ["@openzeppelin/contracts/token/ERC20/extensions/ERC20Burnable.sol"]
    ++ pick (Pausable c)
         ["@openzeppelin/contracts/token/ERC20/extensions/ERC20Pausable.sol";
          import_pausable_util]
    ++ pick (Permit c)
         ["@openzeppelin/contracts/token/ERC20/extensions/ERC20Permit.sol"]
    ++ pick (Snapshot c)
         ["@openzeppelin/contracts/token/ERC20/extensions/ERC20Snapshot.sol"]
    ++ pick (Votes c)
         ["@openzeppelin/contracts/token/ERC20/extensions/ERC20Votes.sol"]
    ++ pick (negb (String.eqb (MaxSupply c) "")) [import_capped]
    ++ pick (String.eqb (AccessControl c) "ownable") [import_ownable]
    ++ pick (String.eqb (AccessControl c) "roles") [import_roles].
Proof.
  rewrite ImportPaths_filter. unfold import_order.
  rewrite !select_group_cons. cbn [filter flat_map pick].
  now rewrite app_nil_r.
Qed.

Lemma length_pick {A} b (l : list A) :
  List.length (pick b l) = (b2n b * List.length l)%nat.
Proof. destruct b; simpl; lia. Qed.

(** X7: what is imported is what is inherited: a path is among the
    imports exactly when it is the base ERC20 path, or the pause utility of
    a pausable token, or the path of an entry of the inheritance list (the
    extensions directory for the ERC20 extensions, the access directory for
    Ownable and AccessControl); and there is one import more than entries,
    two more for a pausable token. *)
Theorem ImportPaths_match_InheritanceList (c : TokenConfig) :
  (forall p, In p (ImportPaths c)
     <-> p = import_base
         \/ (Pausable c = true /\ p = import_pausable_util)
         \/ exists e, In e (InheritanceList c) /\ p = import_of e)
  /\ List.length (ImportPaths c)
     = (1 + List.length (InheritanceList c) + b2n (Pausable c))%nat.
Proof.
  rewrite ImportPaths_picks, InheritanceList_picks. split.
  - intros p. rewrite !in_app_iff, !In_pick_iff. cbn [In]. split.
    + intros Hp.
      repeat match type of Hp with
      | _ \/ _ => destruct Hp as [Hp|Hp]
      end;
      try (destruct Hp as (Hb & Hp); cbn [In] in Hp);
      repeat match type of Hp with
      | _ \/ _ => destruct Hp as [Hp|Hp]
      | False => contradiction
      end; subst p; auto.
      all: right; right.
      all: match goal with
           | Hb : ?b = true |- _ => rewrite Hb
           end.
      all: cbn [pick].
      * exists "ERC20Burnable". split; [|reflexivity].
        rewrite !in_app_iff. right. left. now left.
      * exists "ERC20Pausable". split; [|reflexivity].
        rewrite !in_app_iff. right. right. left. now left.
      * exists "ERC20Permit". split; [|reflexivity].
        rewrite !in_app_iff. do 3 right. left. now left.
      * exists "ERC20Snapshot". split; [|reflexivity].
        rewrite !in_app_iff. do 4 right. left. now left.
      * exists "ERC20Votes". split; [|reflexivity].
        rewrite !in_app_iff. do 5 right. left. now left.
      * exists "ERC20Capped". split; [|reflexivity].
        rewrite !in_app_iff. left. now left.
      * exists "Ownable". split; [|reflexivity].
        rewrite !in_app_iff. do 6 right. left. now left.
      * exists "AccessControl". split; [|reflexivity].
        rewrite !in_app_iff. do 7 right. now left.
    + intros [->|[(Hb & ->)|(e & He & ->)]].
      * left. now left.
      * right. right. left. split; [exact Hb|]. right. now left.
      * rewrite !in_app_iff, !In_pick_iff in He. cbn [In] in He.
        repeat match type of He with
        | _ \/ _ => destruct He as [He|He]
        end;
        destruct He as (Hb & [<-|[]]); cbn; rewrite Hb; tauto.
  - rewrite !length_app, !length_pick. cbn [List.length]. lia.
Qed.

Section VotesLists.
Context `{GoTables}.

(** X8: after [Validate], error or not, a configuration with votes on
    inherits ERC20Snapshot immediately before ERC20Votes and imports the
    snapshot extension immediately before the votes extension; before
    [Validate], votes on with snapshot off gives lists with the votes entry
    and without the snapshot entry. *)
Theorem Validate_votes_brings_snapshot (c : TokenConfig) :
  Votes c = true ->
  (exists front back,
     InheritanceList (fst (Validate c))
     = front ++ ["ERC20Snapshot"; "ERC20Votes"] ++ back)
  /\ (exists front back,
     ImportPaths (fst (Validate c))
     = front
       ++ ["@openzeppelin/contracts/token/ERC20/extensions/ERC20Snapshot.sol";
           "@openzeppelin/contracts/token/ERC20/extensions/ERC20Votes.sol"]
       ++ back)
  /\ (Snapshot c = false ->
      In "ERC20Votes" (InheritanceList c)
      /\ ~ In "ERC20Snapshot" (InheritanceList c)).
Proof.
  intros Hv. rewrite Validate_spec. cbn [fst].
  assert (Hs' : Snapshot (normalized c) = true)
    by (cbn [normalized Snapshot]; rewrite Hv; apply orb_true_r).
  assert (Hv' : Votes (normalized c) = true) by exact Hv.
  split; [|split].
  - rewrite InheritanceList_picks, Hs', Hv'. cbn [pick].
    exists (pick (negb (String.eqb (MaxSupply (normalized c)) "")) ["ERC20Capped"]
            ++ pick (Burnable (normalized c)) ["ERC20Burnable"]
            ++ pick (Pausable (normalized c)) ["ERC20Pausable"]
            ++ pick (Permit (normalized c)) ["ERC20Permit"]).
    exists (pick (String.eqb (AccessControl (normalized c)) "ownable") ["Ownable"]
            ++ pick (String.eqb (AccessControl (normalized c)) "roles")
                 ["AccessControl"]).
    now rewrite <- !app_assoc.
  - rewrite ImportPaths_picks, Hs', Hv'. cbn [pick].
    exists ([import_base]
            ++ pick (Burnable (normalized c))
                 ["@openzeppelin/contracts/token/ERC20/extensions/ERC20Burnable.sol"]
            ++ pick (Pausable (normalized c))
                 ["@openzeppelin/contracts/token/ERC20/extensions/ERC20Pausable.sol";
                  import_pausable_util]
            ++ pick (Permit (normalized c))
                 ["@openzeppelin/contracts/token/ERC20/extensions/ERC20Permit.sol"]).
    exists (pick (negb (String.eqb (MaxSupply (normalized c)) "")) [import_capped]
            ++ pick (String.eqb (AccessControl (normalized c)) "ownable")
                 [import_ownable]
            ++ pick (String.eqb (AccessControl (normalized c)) "roles")
                 [import_roles]).
    now rewrite <- !app_assoc.
  - intros Hs. rewrite InheritanceList_picks, Hs, Hv. cbn [pick]. split.
    + rewrite !in_app_iff. do 5 right. left. now left.
    + intros Hin. rewrite !in_app_iff in Hin.
      repeat match type of Hin with
      | _ \/ _ => destruct Hin as [Hin|Hin]
      end;
      try (apply In_pick in Hin); cbn [In] in Hin;
      repeat match type of Hin with
      | _ \/ _ => destruct Hin as [Hin|Hin]
      | False => contradiction
      end; discriminate Hin.
Qed.

End VotesLists.

(** ** More on [SafeName] *)

Lemma In_bytes_concat a l :
  In a (bytes (String.concat "" l)) ->
  exists piece, In piece l /\ In a (bytes piece).
Proof.
  induction l as [|x l IH]; [contradiction|].
  rewrite concat_nil_cons, bytes_append, in_app_iff.
  intros [Hx|Hl].
  - exists x. split; [now left|exact Hx].
  - destruct (IH Hl) as (piece & Hp & Ha). exists piece. split; [now right|exact Ha].
Qed.

(** Only the runes below [RuneSelf] are encoded with an ASCII byte. *)
Lemma encode_ascii_byte r a :
  In a (bytes (utf8.EncodeRune r)) -> byte_val a < utf8.RuneSelf ->
  0 <= r < utf8.RuneSelf /\ byte_val a = r.
Proof.
  unfold utf8.EncodeRune, utf8.enc3.
  repeat case_if; cbn [bytes list_ascii_of_string In]; intros Hin Ha;
    repeat match type of Hin with
    | _ \/ _ => destruct Hin as [Hin|Hin]
    | False => contradiction
    end; subst a; rewrite byte_val_of in * by arith; arith.
Qed.

Lemma count_byte_zero b s :
  count_byte b s = 0%nat <-> forall a, In a (bytes s) -> byte_val a <> b.
Proof.
  unfold count_byte. induction (bytes s) as [|x l IH]; cbn [filter In].
  - split; [intros _ a []|reflexivity].
  - destruct (byte_val x =? b) eqn:E.
    + split; [discriminate|]. intros Hall. exfalso.
      apply (Hall x); [now left|lia].
    + rewrite IH. split.
      * intros Hall a [<-|Ha]; [lia|now apply Hall].
      * intros Hall a Ha. apply Hall. now right.
Qed.

Lemma count_byte_append b s t :
  count_byte b (s ++ t) = (count_byte b s + count_byte b t)%nat.
Proof.
  unfold count_byte. now rewrite bytes_append, filter_app, length_app.
Qed.

Lemma map_bytes_ascii f s a :
  strings.is_ascii s = true ->
  (forall r, 0 <= r < 128 -> 0 <= f r < 128) ->
  In a (bytes (strings.map_bytes f s)) -> byte_val a < utf8.RuneSelf.
Proof.
  unfold strings.is_ascii. intros Hs Hf.
  induction s as [|x s IH]; [contradiction|].
  cbn [bytes list_ascii_of_string forallb] in Hs.
  apply andb_true_iff in Hs as [Hx Hs].
  cbn [strings.map_bytes bytes list_ascii_of_string In].
  intros [<-|Ha]; [|now apply IH].
  pose proof (byte_val_range x).
  assert (0 <= f (byte_val x) < 128) by (apply Hf; unfold utf8.RuneSelf in *; lia).
  rewrite byte_val_of; unfold utf8.RuneSelf; lia.
Qed.

Section SafeNameMore.
Context `{GoTables}.

Lemma alphanumeric_ascii r :
  0 <= r < utf8.RuneSelf -> alphanumeric r = true ->
  unicode.in_range 48 57 r || unicode.in_range 65 90 r
  || unicode.in_range 97 122 r = true.
Proof.
  unfold alphanumeric, unicode.IsLetter, unicode.IsDigit, unicode.latin1_letter,
    unicode.MaxLatin1, unicode.in_range, utf8.RuneSelf.
  intros Hr.
  replace ((0 <=? r) && (r <=? 255)) with true by lia.
  replace (r <=? 255) with true by lia. lia.
Qed.

Lemma safe_rune_nonneg r : ValidRune r -> (safe_rune r <? 0) = false.
Proof. intros Hr. pose proof (safe_rune_valid r Hr). arith. Qed.

Lemma SafeName_ascii_bytes c a :
  In a (bytes (SafeName c)) -> byte_val a < utf8.RuneSelf ->
  is_alnum_byte a = true \/ byte_val a = 95.
Proof.
  unfold SafeName, strings.Map. intros Hin Ha.
  apply In_bytes_concat in Hin as (piece & Hp & Hin).
  apply in_map_iff in Hp as (r & <- & Hr).
  assert (Hv : ValidRune r).
  { pose proof (runes_from_valid (Name c) 0) as Hall.
    rewrite Forall_forall in Hall. now apply Hall. }
  change (In a (bytes (if safe_rune r <? 0 then ""
                        else utf8.EncodeRune (safe_rune r)))) in Hin.
  rewrite (safe_rune_nonneg _ Hv) in Hin.
  destruct (encode_ascii_byte _ _ Hin Ha) as (Hr' & Hb).
  unfold safe_rune in Hr', Hb.
  destruct (alphanumeric r) eqn:Hal; [left|now right].
  unfold is_alnum_byte. rewrite Hb. now apply alphanumeric_ascii.
Qed.

(** X9: whatever the name, every ASCII byte of [SafeName] is a letter, a
    digit or an underscore: the results of [SafeName] and
    [ContractFileName] hold no slash, backslash, colon, space, control
    character or NUL, [SafeName] holds no dot, and the only dot of
    [ContractFileName] is the one of its [.sol] ending; for a name that
    matches [validNameRe], every byte of [SafeName] is an ASCII letter,
    digit or underscore. *)
Theorem SafeName_alphabet (c : TokenConfig) :
  (forall a, In a (bytes (SafeName c)) -> byte_val a < utf8.RuneSelf ->
             is_alnum_byte a = true \/ byte_val a = 95)
  /\ (forall a, In a (bytes (ContractFileName c)) ->
        byte_val a <> 47 /\ byte_val a <> 92 /\ byte_val a <> 58
        /\ ~ 0 <= byte_val a <= 32 /\ byte_val a <> 127)
  /\ count_byte 46 (SafeName c) = 0%nat
  /\ count_byte 46 (ContractFileName c) = 1%nat
  /\ (regexp.MatchString validNameRe (Name c) = true ->
      forall a, In a (bytes (SafeName c)) ->
                is_alnum_byte a = true \/ byte_val a = 95).
Proof.
  assert (Hs : forall a, In a (bytes (SafeName c)) ->
                 byte_val a < utf8.RuneSelf ->
                 is_alnum_byte a = true \/ byte_val a = 95)
    by (intros a; apply SafeName_ascii_bytes).
  assert (Hdot : count_byte 46 (SafeName c) = 0%nat).
  { apply count_byte_zero. intros a Ha E.
    destruct (Hs a Ha) as [Hal|Hu]; [unfold utf8.RuneSelf; lia| |lia].
    unfold is_alnum_byte, unicode.in_range in Hal. lia. }
  split; [exact Hs|]. split; [|split; [exact Hdot|split]].
  - intros a. unfold ContractFileName. rewrite bytes_append, in_app_iff.
    pose proof (byte_val_range a) as Hrange.
    intros [Ha|Ha].
    + destruct (Z.ltb_spec (byte_val a) utf8.RuneSelf) as [Hlt|Hge];
        [|unfold utf8.RuneSelf in Hge; lia].
      destruct (Hs a Ha Hlt) as [Hal|Hu]; [|lia].
      unfold is_alnum_byte, unicode.in_range in Hal. lia.
    + cbn in Ha. repeat destruct Ha as [<-|Ha]; try contradiction;
        vm_compute; repeat split; intros E; try discriminate E;
        destruct E as [E1 E2]; now apply E2.
  - unfold ContractFileName. rewrite count_byte_append, Hdot. reflexivity.
  - intros Hm a Ha. apply (Hs a Ha).
    pose proof (name_match_ascii _ Hm) as Hascii.
    assert (Hb : SafeName c = strings.map_bytes safe_rune (Name c))
      by apply (Map_ascii safe_rune _ Hascii), safe_rune_ascii.
    rewrite Hb in Ha. revert Ha. apply map_bytes_ascii; [exact Hascii|apply safe_rune_ascii].
Qed.

End SafeNameMore.

Section SafeNameAlgebra.
Context `{GoTables}.

Lemma safe_rune_idem r : safe_rune (safe_rune r) = safe_rune r.
Proof.
  unfold safe_rune. destruct (alphanumeric r) eqn:E; [now rewrite E|].
  reflexivity.
Qed.

Lemma Map_runes f s :
  strings.Map f s
  = String.concat ""
      (map (fun r => if r <? 0 then "" else utf8.EncodeRune r)
           (map f (utf8.runes s))).
Proof. unfold strings.Map. now rewrite map_map. Qed.

(** X10: [SafeName] is idempotent: the safe name of a configuration whose
    name is already a safe name is that name. *)
Theorem SafeName_idempotent (c : TokenConfig) :
  SafeName (set_Name c (SafeName c)) = SafeName c.
Proof.
  change (strings.Map safe_rune (strings.Map safe_rune (Name c))
          = strings.Map safe_rune (Name c)).
  rewrite (Map_runes safe_rune (strings.Map safe_rune (Name c))).
  rewrite (runes_Map safe_rune (Name c) safe_rune_valid).
  rewrite (map_map safe_rune safe_rune).
  rewrite (map_ext _ _ safe_rune_idem).
  symmetry. apply Map_runes.
Qed.

(** X11: two names get the same [SafeName], and so the same contract
    file, exactly when they have the same characters once every character
    that is not a letter or a digit is read as an underscore; names that
    [validNameRe] accepts can collide, as [My Token] and [My-Token] do. *)
Theorem SafeName_collisions (c1 c2 : TokenConfig) :
  (SafeName c1 = SafeName c2
   <-> map safe_rune (utf8.runes (Name c1))
       = map safe_rune (utf8.runes (Name c2)))
  /\ (SafeName c1 = SafeName c2 <-> ContractFileName c1 = ContractFileName c2)
  /\ (regexp.MatchString validNameRe "My Token" = true
      /\ regexp.MatchString validNameRe "My-Token" = true
      /\ ContractFileName (namedConfig "My Token")
         = ContractFileName (namedConfig "My-Token")).
Proof.
  assert (Hiff : SafeName c1 = SafeName c2
                 <-> map safe_rune (utf8.runes (Name c1))
                     = map safe_rune (utf8.runes (Name c2))).
  { split.
    - intros E. apply (f_equal utf8.runes) in E.
      change (utf8.runes (strings.Map safe_rune (Name c1))
              = utf8.runes (strings.Map safe_rune (Name c2))) in E.
      now rewrite !(runes_Map safe_rune _ safe_rune_valid) in E.
    - intros E.
      change (strings.Map safe_rune (Name c1) = strings.Map safe_rune (Name c2)).
      now rewrite !Map_runes, E. }
  split; [exact Hiff|]. split.
  - unfold ContractFileName. split; [now intros ->|].
    intros E. apply (f_equal bytes) in E. rewrite !bytes_append in E.
    apply app_inv_tail in E.
    rewrite <- (of_bytes_bytes (SafeName c1)), <- (of_bytes_bytes (SafeName c2)).
    now rewrite E.
  - repeat split; reflexivity.
Qed.

End SafeNameAlgebra.

(** ** The security checklist ([cmd/generate.go]) *)
Section ChecklistProperties.
Context `{GoTables}.

Lemma fold_left_print (l : list string) : forall out,
  fold_left (fun o k => (o ++ cmd.Println2 " " k)%string) l out
  = (out ++ String.concat "" (map (cmd.Println2 " ") l))%string.
Proof.
  induction l as [|k l IH]; intros out.
  - simpl. now rewrite append_nil_r.
  - cbn [fold_left map]. rewrite IH, concat_nil_cons. now rewrite append_assoc.
Qed.

Lemma count_byte_concat b (l : list string) :
  count_byte b (String.concat "" l)
  = fold_right (fun k n => (count_byte b k + n)%nat) 0%nat l.
Proof.
  induction l as [|k l IH]; [reflexivity|].
  now rewrite concat_nil_cons, count_byte_append, IH.
Qed.

Lemma SafeName_no_line_feed c : count_byte 10 (SafeName c) = 0%nat.
Proof.
  apply count_byte_zero. intros a Ha E.
  destruct (SafeName_ascii_bytes c a Ha) as [Hal|Hu];
    [unfold utf8.RuneSelf; lia| |lia].
  unfold is_alnum_byte, unicode.in_range in Hal. lia.
Qed.

Lemma securityChecks_picks c :
  cmd.securityChecks c
  = [("[ ] Review OpenZeppelin version in package.json " ++ emdash
       ++ " use latest stable")%string;
     "[ ] Audit mint() access control before mainnet deployment";
     ("[ ] Run Slither static analysis: slither contracts/"
       ++ ContractFileName c)%string;
     "[ ] Run Echidna fuzzer on token invariants";
     "[ ] Verify initial supply is correct (decimals applied in contract)";
     "[ ] Consider front-running risks if using Pausable";
     "[ ] Test all edge cases: zero transfers, max uint256 approvals"]
    ++ pick (Permit c)
         ["[ ] Validate EIP-712 domain separator is network-specific"]
    ++ pick (Snapshot c)
         [("[ ] Snapshot IDs should not be guessable " ++ emdash
            ++ " avoid sequential abuse")%string]
    ++ pick (Votes c)
         ["[ ] Governance voting delay and quorum must be reviewed carefully"].
Proof.
  unfold cmd.securityChecks. rewrite !append_if_pick.
  now rewrite <- !app_assoc.
Qed.

Lemma check_line_feeds c k :
  In k (cmd.securityChecks c) -> count_byte 10 (cmd.Println2 " " k) = 1%nat.
Proof.
  intros Hk. unfold cmd.Println2.
  rewrite !count_byte_append.
  assert (Hz : count_byte 10 k = 0%nat).
  { rewrite securityChecks_picks, !in_app_iff in Hk.
    repeat match type of Hk with
    | _ \/ _ => destruct Hk as [Hk|Hk]
    end;
    try (apply In_pick in Hk); cbn [In] in Hk;
    repeat match type of Hk with
    | _ \/ _ => destruct Hk as [Hk|Hk]
    | False => contradiction
    end; subst k; try reflexivity.
    unfold ContractFileName. rewrite !count_byte_append, SafeName_no_line_feed.
    reflexivity. }
  rewrite Hz. reflexivity.
Qed.

(** X12: the checks of [printSecurityChecklist] are, in this order, the
    seven fixed checks, of which the third names the contract file, then
    the permit check, the snapshot check and the votes check, each only
    when its feature is on; it appends them to the output one per line,
    each indented by two spaces; no check spreads over two lines, whatever
    the token name; and for a configuration that went through [Validate]
    with votes on, the snapshot check and the votes check are both
    printed, last. *)
Theorem printSecurityChecklist_lines (c : TokenConfig) :
  cmd.securityChecks c
  = [("[ ] Review OpenZeppelin version in package.json " ++ emdash
       ++ " use latest stable")%string;
     "[ ] Audit mint() access control before mainnet deployment";
     ("[ ] Run Slither static analysis: slither contracts/"
       ++ ContractFileName c)%string;
     "[ ] Run Echidna fuzzer on token invariants";
     "[ ] Verify initial supply is correct (decimals applied in contract)";
     "[ ] Consider front-running risks if using Pausable";
     "[ ] Test all edge cases: zero transfers, max uint256 approvals"]
    ++ pick (Permit c)
         ["[ ] Validate EIP-712 domain separator is network-specific"]
    ++ pick (Snapshot c)
         [("[ ] Snapshot IDs should not be guessable " ++ emdash
            ++ " avoid sequential abuse")%string]
    ++ pick (Votes c)
         ["[ ] Governance voting delay and quorum must be reviewed carefully"]
  /\ List.length (cmd.securityChecks c)
     = (7 + b2n (Permit c) + b2n (Snapshot c) + b2n (Votes c))%nat
  /\ nth_error (cmd.securityChecks c) 2
     = Some ("[ ] Run Slither static analysis: slither contracts/"
             ++ ContractFileName c)%string
  /\ (forall out,
        cmd.printSecurityChecklist c out
        = (out ++ String.concat ""
             (map (fun k => ("  " ++ k ++ String "010" "")%string)
                  (cmd.securityChecks c)))%string)
  /\ count_byte 10 (cmd.printSecurityChecklist c "")
     = List.length (cmd.securityChecks c)
  /\ (Votes c = true ->
      cmd.securityChecks (fst (Validate c))
      = [("[ ] Review OpenZeppelin version in package.json " ++ emdash
           ++ " use latest stable")%string;
         "[ ] Audit mint() access control before mainnet deployment";
         ("[ ] Run Slither static analysis: slither contracts/"
           ++ ContractFileName c)%string;
         "[ ] Run Echidna fuzzer on token invariants";
         "[ ] Verify initial supply is correct (decimals applied in contract)";
         "[ ] Consider front-running risks if using Pausable";
         "[ ] Test all edge cases: zero transfers, max uint256 approvals"]
        ++ pick (Permit c)
             ["[ ] Validate EIP-712 domain separator is network-specific"]
        ++ [("[ ] Snapshot IDs should not be guessable " ++ emdash
              ++ " avoid sequential abuse")%string;
            "[ ] Governance voting delay and quorum must be reviewed carefully"]).
Proof.
  split; [apply securityChecks_picks|].
  split.
  { rewrite securityChecks_picks, !length_app, !length_pick. cbn [List.length].
    lia. }
  split; [now rewrite securityChecks_picks|].
  split; [intros out; unfold cmd.printSecurityChecklist; apply fold_left_print|].
  split.
  { unfold cmd.printSecurityChecklist. rewrite fold_left_print.
    cbn [append]. rewrite count_byte_concat.
    pose proof (check_line_feeds c) as Hl.
    induction (cmd.securityChecks c) as [|k l IH]; [reflexivity|].
    cbn [map fold_right List.length]. rewrite (Hl k) by now left.
    rewrite IH; [reflexivity|]. intros k' Hk'. apply Hl. now right. }
  intros Hv. rewrite Validate_spec. cbn [fst].
  rewrite securityChecks_picks.
  cbn [normalized Snapshot Votes Permit]. rewrite Hv, orb_true_r.
  reflexivity.
Qed.

End ChecklistProperties.

(** ** The configuration built from the flags ([cmd/generate.go]) *)

Section FlagsProperties.
Context `{GoTables}.

(** X13: with the decimals, supply, access, license and version flags
    left at their defaults, the configuration built from the flags passes
    [Validate] exactly when its name and symbol pass their checks (a name
    that matches [validNameRe] and is not blank with a symbol that matches
    [validSymbolRe] is enough), and [Validate] changes nothing in it but
    the snapshot flag, which it turns on with votes; with no flag given at
    all, name and symbol are reported missing. *)
Theorem buildConfigFromFlags_defaults_validate (f : cmd.GenerateFlags) :
  flags_at_defaults f ->
  snd (cmd.buildConfigFromFlags f) = None
  /\ snd (Validate_body (fst (cmd.buildConfigFromFlags f)))
     = olist (rule_name (fst (cmd.buildConfigFromFlags f)))
       ++ olist (rule_symbol (fst (cmd.buildConfigFromFlags f)))
  /\ (strings.TrimSpace (cmd.flag_name f) <> "" ->
      regexp.MatchString validNameRe (cmd.flag_name f) = true ->
      regexp.MatchString validSymbolRe (cmd.flag_symbol f) = true ->
      snd (Validate (fst (cmd.buildConfigFromFlags f))) = None)
  /\ fst (Validate (fst (cmd.buildConfigFromFlags f)))
     = set_Snapshot (fst (cmd.buildConfigFromFlags f))
         (cmd.flag_snapshot f || cmd.flag_votes f)
  /\ snd (Validate_body (fst (cmd.buildConfigFromFlags cmd.defaultFlags)))
     = [msg_name_required; msg_symbol_required].
Proof.
  intros (Hd & Hi & Hm & Ha & Hl & Hs).
  assert (Hv : violations (fst (cmd.buildConfigFromFlags f))
               = olist (rule_name (fst (cmd.buildConfigFromFlags f)))
                 ++ olist (rule_symbol (fst (cmd.buildConfigFromFlags f)))).
  { unfold violations, rules. cbn [flat_map].
    unfold rule_decimals, rule_initialSupply, rule_maxSupply, rule_exceeds,
      rule_accessControl.
    cbn [cmd.buildConfigFromFlags fst Decimals InitialSupply MaxSupply
         AccessControl].
    rewrite Hd, Hi, Hm, Ha. cbn. now rewrite !app_nil_r. }
  split; [reflexivity|].
  split; [now rewrite Validate_body_spec|].
  split.
  { intros Hn Hre Hsy. rewrite Validate_spec, Hv. cbn [snd].
    rewrite (rule_symbol_matching (fst (cmd.buildConfigFromFlags f)) Hsy).
    unfold rule_name. cbn [cmd.buildConfigFromFlags fst Name].
    apply String.eqb_neq in Hn. now rewrite Hn, Hre. }
  split; [|reflexivity].
  rewrite Validate_spec. cbn [fst].
  unfold normalized, set_Snapshot.
  cbn [cmd.buildConfigFromFlags fst Name Symbol Decimals InitialSupply
       MaxSupply Mintable Burnable Pausable Permit Snapshot Votes
       AccessControl License SolidityVersion WithDeploy WithTest].
  now rewrite Ha, Hl, Hs.
Qed.

End FlagsProperties.

Lemma buildConfigFromFlags_defaults_validate_witness :
  snd (@Validate latin1_tables (fst (cmd.buildConfigFromFlags exampleFlags)))
  = None
  /\ Snapshot (fst (@Validate latin1_tables
                      (fst (cmd.buildConfigFromFlags exampleFlags)))) = true.
Proof.
  destruct (@buildConfigFromFlags_defaults_validate latin1_tables exampleFlags)
    as (_ & _ & Hok & Hfst & _).
  - repeat split.
  - split; [apply Hok; [discriminate|reflexivity|reflexivity]|].
    rewrite Hfst. reflexivity.
Defined.

(** ** The configuration collected by the prompts ([internal/prompts]) *)

Lemma select_features_panics fs : forall cfg,
  prompts.select_features fs cfg = None
  <-> Exists (fun f => (String.length f < 8)%nat) fs.
Proof.
  induction fs as [|f fs IH]; intros cfg.
  - split; [discriminate|intros E; inversion E].
  - cbn [prompts.select_features]. unfold prompts.slice8.
    destruct (String.length f <? 8)%nat eqn:El.
    + apply Nat.ltb_lt in El. split; [intros _; now left|reflexivity].
    + apply Nat.ltb_ge in El. rewrite IH. split.
      * intros E. now right.
      * intros E. inversion E; subst; [lia|assumption].
Qed.

Lemma select_features_frame fs : forall cfg cfg',
  prompts.select_features fs cfg = Some cfg' -> same_but_features cfg cfg'.
Proof.
  induction fs as [|f fs IH]; intros cfg cfg'.
  - intros [= <-]. repeat split.
  - cbn [prompts.select_features]. destruct (prompts.slice8 f) as [p|];
      [|discriminate].
    intros E. apply IH in E. revert E.
    repeat match goal with
    | |- context [if ?b then _ else _] => destruct b
    end; exact (fun E => E).
Qed.

Lemma select_features_cons f fs cfg :
  prompts.select_features (f :: fs) cfg
  = match prompts.slice8 f with
    | None => None
    | Some p => prompts.select_features fs (feature_step p cfg)
    end.
Proof. reflexivity. Qed.

Lemma select_features_options fs : forall cfg cfg',
  Forall (fun f => In f prompts.feature_options) fs ->
  prompts.select_features fs cfg = Some cfg' ->
  Mintable cfg' = Mintable cfg || selected prompts.opt_Mintable fs
  /\ Burnable cfg' = Burnable cfg || selected prompts.opt_Burnable fs
  /\ Pausable cfg' = Pausable cfg || selected prompts.opt_Pausable fs
  /\ Permit cfg' = Permit cfg || selected prompts.opt_Permit fs
  /\ Snapshot cfg' = Snapshot cfg || selected prompts.opt_Snapshot fs
  /\ Votes cfg' = Votes cfg || selected prompts.opt_Votes fs.
Proof.
  induction fs as [|f fs IH]; intros cfg cfg' Hall.
  - intros [= <-]. cbn. now rewrite !orb_false_r.
  - inversion Hall as [|? ? Hf Hfs]; subst.
    rewrite select_features_cons. intros E.
    unfold prompts.feature_options in Hf. cbn [In] in Hf.
    destruct Hf as [<-|[<-|[<-|[<-|[<-|[<-|[]]]]]]];
      match type of E with
      | context [prompts.slice8 ?o] =>
          let p := eval vm_compute in (prompts.slice8 o) in
          change (prompts.slice8 o) with p in E
      end;
      cbv beta iota in E;
      match type of E with
      | context [feature_step ?p cfg] =>
          let q := eval cbv [feature_step String.eqb Ascii.eqb Bool.eqb] in
                     (feature_step p cfg) in
          change (feature_step p cfg) with q in E
      end;
      apply (IH _ _ Hfs) in E;
      destruct E as (E1 & E2 & E3 & E4 & E5 & E6);
      rewrite E1, E2, E3, E4, E5, E6; unfold selected; cbn [existsb];
      repeat match goal with
      | |- context [String.eqb ?a ?b] =>
          let v := eval vm_compute in (String.eqb a b) in
          change (String.eqb a b) with v
      end;
      cbn; rewrite ?orb_true_r; repeat split; reflexivity.
Qed.

Ltac collect_cases s :=
  unfold prompts.CollectTokenConfig;
  destruct (prompts.ask_core s) as [answers|e0] eqn:Hcore;
  [destruct (prompts.ask_hasCap s) as [[|]|e1] eqn:HhasCap;
   [destruct (prompts.ask_cap s) as [cap|e2] eqn:Hcap| |]|];
  try (destruct (prompts.ask_features s) as [features|e3] eqn:Hfeatures;
       [match goal with
        | |- context [prompts.select_features features ?c] =>
            destruct (prompts.select_features features c) as [cfg1|] eqn:Hsel
        end;
        [destruct (prompts.ask_access s) as [accessStr|e4] eqn:Haccess;
         [destruct (prompts.ask_output s) as [outputAnswers|e5] eqn:Houtput| ]
        | ]
       | ]).

(** X14: [CollectTokenConfig] panics exactly when the questions before
    the feature loop were answered and one of the selected features has
    fewer than eight bytes; when every selected feature is one of the six
    options of the question, it does not panic and each feature flag of the
    configuration returned is on exactly when its option was selected. *)
Theorem CollectTokenConfig_features (s : prompts.Survey) :
  (prompts.CollectTokenConfig s = prompts.Panicked
   <-> exists fs,
         failure (prompts.ask_core s) = None
         /\ (prompts.ask_hasCap s = prompts.Answered false
             \/ (prompts.ask_hasCap s = prompts.Answered true
                 /\ failure (prompts.ask_cap s) = None))
         /\ prompts.ask_features s = prompts.Answered fs
         /\ Exists (fun f => (String.length f < 8)%nat) fs)
  /\ (forall fs cfg,
        prompts.ask_features s = prompts.Answered fs ->
        Forall (fun f => In f prompts.feature_options) fs ->
        prompts.CollectTokenConfig s <> prompts.Panicked
        /\ (prompts.CollectTokenConfig s = prompts.Returned cfg ->
            Mintable cfg = selected prompts.opt_Mintable fs
            /\ Burnable cfg = selected prompts.opt_Burnable fs
            /\ Pausable cfg = selected prompts.opt_Pausable fs
            /\ Permit cfg = selected prompts.opt_Permit fs
            /\ Snapshot cfg = selected prompts.opt_Snapshot fs
            /\ Votes cfg = selected prompts.opt_Votes fs)).
Proof.
  split.
  - collect_cases s; split; try discriminate;
      try (intros (fs & Hc & Hh & Hf & Hx); cbn [failure] in *;
           try discriminate Hc;
           destruct Hh as [Hh|(Hh & Hh')]; try discriminate Hh;
           try discriminate Hh'; try discriminate Hf;
           injection Hf as <-;
           first [ reflexivity
                 | rewrite (proj2 (select_features_panics features _) Hx) in Hsel;
                   discriminate Hsel ]);
      intros _; exists features; cbn [failure];
      (split; [reflexivity|]);
      (split; [first [now left|right; split; reflexivity]|]);
      (split; [reflexivity|]);
      exact (proj1 (select_features_panics features _) Hsel).
  - intros fs cfg Hfs Hopt. split.
    + collect_cases s; try discriminate.
      * injection Hfs as <-.
        apply (proj1 (select_features_panics _ _)) in Hsel.
        exfalso. rewrite Forall_forall in Hopt. rewrite Exists_exists in Hsel.
        destruct Hsel as (f & Hin & Hlen). specialize (Hopt f Hin).
        unfold prompts.feature_options in Hopt. cbn [In] in Hopt.
        destruct Hopt as [<-|[<-|[<-|[<-|[<-|[<-|[]]]]]]];
          vm_compute in Hlen; lia.
      * injection Hfs as <-.
        apply (proj1 (select_features_panics _ _)) in Hsel.
        exfalso. rewrite Forall_forall in Hopt. rewrite Exists_exists in Hsel.
        destruct Hsel as (f & Hin & Hlen). specialize (Hopt f Hin).
        unfold prompts.feature_options in Hopt. cbn [In] in Hopt.
        destruct Hopt as [<-|[<-|[<-|[<-|[<-|[<-|[]]]]]]];
          vm_compute in Hlen; lia.
    + collect_cases s; try discriminate; intros [= <-];
        injection Hfs as <-;
        apply (select_features_options _ _ _ Hopt) in Hsel;
        destruct Hsel as (E1 & E2 & E3 & E4 & E5 & E6);
        cbn in *; repeat split; assumption.
Qed.

Lemma decimals_of_values d :
  In (prompts.decimals_of d) [0%N; 6%N; 8%N; 18%N].
Proof.
  unfold prompts.decimals_of.
  destruct (String.eqb d "6"); [cbn; tauto|].
  destruct (String.eqb d "8"); [cbn; tauto|].
  destruct (String.eqb d "0"); cbn; tauto.
Qed.

Section PromptsProperties.
Context `{GoTables}.

(** X15: a configuration that [CollectTokenConfig] returns has 0, 6, 8 or
    18 decimals (any answer other than 6, 8 and 0 gives 18), the Solidity
    version [^0.8.24], and no maximum supply unless the cap was asked for;
    so [Validate] never reports its decimals, and, when the access-control
    and license answers are among the options of their questions, never
    reports its access-control model either and changes nothing in it but
    the snapshot flag, which it turns on with votes. *)
Theorem CollectTokenConfig_validates (s : prompts.Survey) (cfg : TokenConfig) :
  prompts.CollectTokenConfig s = prompts.Returned cfg ->
  In (Decimals cfg) [0%N; 6%N; 8%N; 18%N]
  /\ SolidityVersion cfg = "^0.8.24"
  /\ (prompts.ask_hasCap s = prompts.Answered false -> MaxSupply cfg = "")
  /\ rule_decimals cfg = None
  /\ (In (AccessControl cfg) prompts.access_options ->
      rule_accessControl cfg = None
      /\ snd (Validate_body cfg)
         = olist (rule_name cfg) ++ olist (rule_symbol cfg)
           ++ olist (rule_initialSupply cfg) ++ olist (rule_maxSupply cfg)
           ++ olist (rule_exceeds cfg))
  /\ (In (AccessControl cfg) prompts.access_options ->
      In (License cfg) prompts.license_options ->
      fst (Validate cfg) = set_Snapshot cfg (Snapshot cfg || Votes cfg)).
Proof.
  intros Hret.
  assert (Hd : In (Decimals cfg) [0%N; 6%N; 8%N; 18%N]
               /\ SolidityVersion cfg = "^0.8.24"
               /\ (prompts.ask_hasCap s = prompts.Answered false
                   -> MaxSupply cfg = "")).
  { revert Hret. collect_cases s; try discriminate; intros [= <-];
      apply select_features_frame in Hsel;
      destruct Hsel as (_ & _ & Ed & _ & Em & _);
      cbn in Ed, Em; cbn [Decimals SolidityVersion MaxSupply set_SolidityVersion
        set_License set_WithTest set_WithDeploy set_AccessControl];
      rewrite <- Ed, <- Em;
      (split; [apply decimals_of_values|]);
      (split; [reflexivity|]); intros E; reflexivity || discriminate E. }
  destruct Hd as (Hdec & Hsol & Hcap).
  assert (Hrd : rule_decimals cfg = None).
  { unfold rule_decimals. cbn [In] in Hdec.
    destruct Hdec as [<-|[<-|[<-|[<-|[]]]]]; reflexivity. }
  split; [exact Hdec|]. split; [exact Hsol|]. split; [exact Hcap|].
  split; [exact Hrd|].
  assert (Hra : In (AccessControl cfg) prompts.access_options ->
                rule_accessControl cfg = None).
  { unfold prompts.access_options, rule_accessControl. cbn [In].
    intros [<-|[<-|[<-|[]]]]; reflexivity. }
  split.
  - intros Ha. split; [exact (Hra Ha)|].
    rewrite Validate_body_spec. cbn [snd]. unfold violations, rules.
    cbn [flat_map]. rewrite Hrd, (Hra Ha). cbn [olist].
    now rewrite !app_nil_r.
  - intros Ha Hl. rewrite Validate_spec. cbn [fst].
    unfold normalized, set_Snapshot. rewrite Hsol.
    assert (Ea : String.eqb (AccessControl cfg) "" = false).
    { unfold prompts.access_options in Ha. cbn [In] in Ha.
      destruct Ha as [<-|[<-|[<-|[]]]]; reflexivity. }
    assert (El : String.eqb (License cfg) "" = false).
    { unfold prompts.license_options in Hl. cbn [In] in Hl.
      destruct Hl as [<-|[<-|[<-|[<-|[]]]]]; reflexivity. }
    rewrite Ea, El. reflexivity.
Qed.

End PromptsProperties.

(** X16: the error [CollectTokenConfig] returns is the error of one of
    its questions; when the first question fails its error is returned
    whatever the other answers; the cap question is asked only after a yes
    to the question before it, so what it would give does not matter after
    a no; and when no question fails no error is returned. *)
Theorem CollectTokenConfig_errors (s : prompts.Survey) :
  (forall e, prompts.CollectTokenConfig s = prompts.ReturnedError e ->
     In (Some e)
        [failure (prompts.ask_core s); failure (prompts.ask_hasCap s);
         failure (prompts.ask_cap s); failure (prompts.ask_features s);
         failure (prompts.ask_access s); failure (prompts.ask_output s)])
  /\ (forall e, failure (prompts.ask_core s) = Some e ->
        prompts.CollectTokenConfig s = prompts.ReturnedError e)
  /\ (prompts.ask_hasCap s = prompts.Answered false ->
      forall cap, prompts.CollectTokenConfig (with_cap s cap)
                  = prompts.CollectTokenConfig s)
  /\ (prompts.ask_hasCap s = prompts.Answered true ->
      failure (prompts.ask_core s) = None ->
      forall e, failure (prompts.ask_cap s) = Some e ->
                prompts.CollectTokenConfig s = prompts.ReturnedError e)
  /\ (failure (prompts.ask_core s) = None ->
      failure (prompts.ask_hasCap s) = None ->
      failure (prompts.ask_cap s) = None ->
      failure (prompts.ask_features s) = None ->
      failure (prompts.ask_access s) = None ->
      failure (prompts.ask_output s) = None ->
      forall e, prompts.CollectTokenConfig s <> prompts.ReturnedError e).
Proof.
  split; [|split; [|split; [|split]]].
  - intros e. collect_cases s; try discriminate; intros [= <-];
      cbn [failure In]; tauto.
  - intros e. unfold prompts.CollectTokenConfig.
    destruct (prompts.ask_core s); cbn [failure]; [discriminate|].
    now intros [= <-].
  - intros Hno cap. unfold prompts.CollectTokenConfig.
    cbn [with_cap prompts.ask_core prompts.ask_hasCap prompts.ask_cap
         prompts.ask_features prompts.ask_access prompts.ask_output].
    now rewrite Hno.
  - intros Hyes Hc e He. unfold prompts.CollectTokenConfig.
    destruct (prompts.ask_core s); cbn [failure] in Hc; [|discriminate].
    rewrite Hyes.
    destruct (prompts.ask_cap s); cbn [failure] in He; [discriminate|].
    now injection He as <-.
  - intros H1 H2 H3 H4 H5 H6 e.
    collect_cases s; cbn [failure] in *; discriminate.
Qed.

(** ** What validated names and symbols can hold *)

(** The bytes that follow the first byte of a decoded rune are not ASCII. *)
Lemma decode_tail a0 s :
  forallb (fun a => utf8.RuneSelf <=? byte_val a)
    (firstn (pred (snd (utf8.DecodeRuneInString (String a0 s)))) (bytes s))
  = true.
Proof.
  destruct s as [|a1 [|a2 [|a3 s]]];
    unfold utf8.DecodeRuneInString, utf8.accept;
    pose proof (byte_val_range a0); try pose proof (byte_val_range a1);
    try pose proof (byte_val_range a2); try pose proof (byte_val_range a3);
    repeat (case_if; cbv beta iota zeta delta [Nat.leb]);
    cbn [snd pred firstn bytes list_ascii_of_string forallb];
    try reflexivity; arith.
Qed.

(** An ASCII byte of a string is one of its runes. *)
Lemma ascii_byte_rune s : forall k a,
  forallb (fun x => utf8.RuneSelf <=? byte_val x) (firstn k (bytes s)) = true ->
  In a (bytes s) -> byte_val a < utf8.RuneSelf ->
  In (byte_val a) (utf8.runes_from k s).
Proof.
  induction s as [|a0 s IH]; intros k a Hk Ha Hlt; [contradiction|].
  cbn [bytes list_ascii_of_string In] in Ha. fold (bytes s) in Ha.
  destruct k as [|k].
  - cbn [utf8.runes_from].
    pose proof (decode_tail a0 s) as Ht.
    destruct (utf8.DecodeRuneInString (String a0 s)) as [r w] eqn:Hd.
    cbn [snd] in Ht. destruct Ha as [<-|Ha].
    + left. revert Hd. cbn [utf8.DecodeRuneInString].
      replace (byte_val a0 <? utf8.RuneSelf) with true by lia.
      now intros [= <- _].
    + right. now apply IH.
  - cbn [firstn bytes list_ascii_of_string forallb] in Hk. fold (bytes s) in Hk.
    apply andb_true_iff in Hk as [H0 Hk].
    cbn [utf8.runes_from]. destruct Ha as [<-|Ha]; [lia|now apply IH].
Qed.

Lemma written_valid r : 0 <= r -> ValidRune (written r).
Proof. unfold written. intros Hr. case_if; arith. Qed.

Lemma encode_written r : 0 <= r -> utf8.EncodeRune r = utf8.EncodeRune (written r).
Proof.
  intros Hr. unfold written. case_if; [reflexivity|].
  unfold utf8.EncodeRune at 1.
  repeat (case_if; try (exfalso; arith)); reflexivity.
Qed.

(** The runes of a mapped string, for any mapping. *)
Lemma runes_Map_written f s :
  utf8.runes (strings.Map f s)
  = flat_map (fun c => if f c <? 0 then [] else [written (f c)]) (utf8.runes s).
Proof.
  unfold strings.Map. induction (utf8.runes s) as [|c l IH]; [reflexivity|].
  cbn [map flat_map]. rewrite concat_nil_cons. cbv zeta.
  destruct (f c <? 0) eqn:E; [exact IH|].
  rewrite encode_written by lia.
  rewrite runes_encode by (apply written_valid; lia).
  now rewrite IH.
Qed.

Lemma map_bytes_ext f g s :
  (forall a, In a (bytes s) -> f (byte_val a) = g (byte_val a)) ->
  strings.map_bytes f s = strings.map_bytes g s.
Proof.
  induction s as [|a s IH]; intros Hfg; [reflexivity|].
  cbn [strings.map_bytes]. rewrite (Hfg a) by now left.
  rewrite IH; [reflexivity|]. intros x Hx. apply Hfg. now right.
Qed.

Section Sanitized.
Context `{GoTables}.

(** [strings.ToUpper] maps [unicode.ToUpper] on both of its paths. *)
Lemma ToUpper_Map s : strings.ToUpper s = strings.Map unicode.ToUpper s.
Proof.
  unfold strings.ToUpper. destruct (strings.is_ascii s) eqn:Ha; [|reflexivity].
  rewrite (Map_ascii unicode.ToUpper s Ha).
  - apply map_bytes_ext. intros a Hin.
    unfold strings.is_ascii in Ha. rewrite forallb_forall in Ha.
    specialize (Ha a Hin). unfold unicode.ToUpper, unicode.MaxASCII.
    replace (byte_val a <=? 127) with true
      by (unfold utf8.RuneSelf in Ha; lia).
    reflexivity.
  - intros r Hr. unfold unicode.ToUpper, unicode.MaxASCII, unicode.in_range.
    replace (r <=? 127) with true by lia. case_if; lia.
Qed.

Lemma symbol_ascii_alnum s a :
  regexp.MatchString validSymbolRe (strings.ToUpper s) = true ->
  In a (bytes s) -> byte_val a < utf8.RuneSelf -> is_alnum_byte a = true.
Proof.
  unfold regexp.MatchString. intros Hm Ha Hlt.
  apply andb_true_iff in Hm as [_ Hc].
  rewrite ToUpper_Map, runes_Map_written, forallb_forall in Hc.
  pose proof (ascii_byte_rune s 0 a eq_refl Ha Hlt) as Hr.
  fold (utf8.runes s) in Hr.
  pose proof (byte_val_range a) as Hb.
  assert (Hup : unicode.ToUpper (byte_val a)
                = if unicode.in_range 97 122 (byte_val a)
                  then byte_val a - 32 else byte_val a).
  { unfold unicode.ToUpper, unicode.MaxASCII.
    replace (byte_val a <=? 127) with true
      by (unfold utf8.RuneSelf in Hlt; lia).
    reflexivity. }
  specialize (Hc (written (unicode.ToUpper (byte_val a)))).
  assert (Hin : In (written (unicode.ToUpper (byte_val a)))
                  (flat_map (fun c => if unicode.ToUpper c <? 0 then []
                                      else [written (unicode.ToUpper c)])
                            (utf8.runes s))).
  { apply in_flat_map. exists (byte_val a). split; [exact Hr|].
    rewrite Hup. unfold unicode.in_range.
    case_if; (replace (_ <? 0) with false by lia); now left. }
  specialize (Hc Hin). revert Hc. rewrite Hup.
  unfold written, validSymbolRe, regexp.class, is_alnum_byte, unicode.in_range,
    utf8.MaxRune, utf8.RuneError.
  repeat case_if; lia.
Qed.

Lemma name_match_bytes s :
  regexp.MatchString validNameRe s = true ->
  forallb is_name_byte (bytes s) = true
  /\ (1 <= String.length s <= 64)%nat.
Proof.
  intros Hm. pose proof (name_match_ascii _ Hm) as Ha.
  unfold regexp.MatchString in Hm. rewrite (runes_ascii _ Ha) in Hm.
  cbn [validNameRe regexp.min_rep regexp.max_rep] in Hm.
  apply andb_true_iff in Hm as [Hm Hc]. apply andb_true_iff in Hm as [Hmin Hmax].
  rewrite forallb_map_compose in Hc. rewrite length_map in Hmin, Hmax.
  assert (Hl : List.length (bytes s) = String.length s).
  { clear. induction s; simpl; [reflexivity|now f_equal]. }
  rewrite Hl in Hmin, Hmax.
  apply Nat.leb_le in Hmin, Hmax. split; [exact Hc|lia].
Qed.

Lemma count_byte_quote b s :
  count_byte b (generator.quote s)
  = (count_byte b (String "034" "") + count_byte b s
     + count_byte b (String "034" ""))%nat.
Proof.
  unfold generator.quote.
  change (String "034" s) with (String "034" "" ++ s)%string.
  rewrite !count_byte_append. lia.
Qed.

(** X17: after a [Validate] without error the name is 1 to 64 bytes, each
    an ASCII letter, digit, space, underscore or hyphen, and every ASCII
    byte of the symbol is a letter or a digit; so neither holds a double
    quote, a backslash or a line feed, and [quote] applied to either gives a
    string whose only double quotes are the two that delimit it. *)
Theorem Validate_sanitizes_name_and_symbol (c : TokenConfig) :
  snd (Validate c) = None ->
  forallb is_name_byte (bytes (Name c)) = true
  /\ (1 <= String.length (Name c) <= 64)%nat
  /\ (forall a, In a (bytes (Symbol c)) -> byte_val a < utf8.RuneSelf ->
                is_alnum_byte a = true)
  /\ count_byte 34 (generator.quote (Name c)) = 2%nat
  /\ count_byte 34 (generator.quote (Symbol c)) = 2%nat
  /\ count_byte 92 (Name c) = 0%nat /\ count_byte 92 (Symbol c) = 0%nat
  /\ count_byte 10 (Name c) = 0%nat /\ count_byte 10 (Symbol c) = 0%nat.
Proof.
  intros Hok. rewrite Validate_ok_rules in Hok.
  assert (Hn : rule_name c = None) by (apply Hok; unfold rules; cbn; tauto).
  assert (Hs : rule_symbol c = None) by (apply Hok; unfold rules; cbn; tauto).
  unfold rule_name in Hn. unfold rule_symbol in Hs.
  destruct (String.eqb (strings.TrimSpace (Name c)) ""); [discriminate|].
  destruct (regexp.MatchString validNameRe (Name c)) eqn:Hnm; [|discriminate].
  destruct (String.eqb (strings.TrimSpace (Symbol c)) ""); [discriminate|].
  destruct (regexp.MatchString validSymbolRe (strings.ToUpper (Symbol c)))
    eqn:Hsm; [|discriminate].
  destruct (name_match_bytes _ Hnm) as (Hnb & Hlen).
  pose proof (fun a => symbol_ascii_alnum (Symbol c) a Hsm) as Hsb.
  assert (Hname : forall b, ~ (b = 32 \/ b = 45 \/ b = 95 \/ 48 <= b <= 57
                             \/ 65 <= b <= 90 \/ 97 <= b <= 122) ->
                  count_byte b (Name c) = 0%nat).
  { intros b Hb. apply count_byte_zero. intros a Ha E.
    rewrite forallb_forall in Hnb. specialize (Hnb a Ha).
    unfold is_name_byte, validNameRe, regexp.class, unicode.in_range in Hnb.
    apply Hb. lia. }
  assert (Hsym : forall b, 0 <= b < 128 ->
                   ~ (48 <= b <= 57 \/ 65 <= b <= 90 \/ 97 <= b <= 122) ->
                   count_byte b (Symbol c) = 0%nat).
  { intros b Hr Hb. apply count_byte_zero. intros a Ha E.
    assert (Hal : is_alnum_byte a = true)
      by (apply (Hsb a Ha); unfold utf8.RuneSelf; lia).
    unfold is_alnum_byte, unicode.in_range in Hal. apply Hb. lia. }
  split; [exact Hnb|]. split; [exact Hlen|]. split; [exact Hsb|].
  rewrite !count_byte_quote.
  rewrite !(Hname 34), !(Hname 92), !(Hname 10) by lia.
  rewrite !(Hsym 34), !(Hsym 92), !(Hsym 10) by lia.
  repeat split; reflexivity.
Qed.

End Sanitized.

(** ** The checks of [Validate] against the rules of the specification *)

Lemma length_bytes s : List.length (bytes s) = String.length s.
Proof. induction s as [|a s IH]; simpl; [reflexivity|now f_equal]. Qed.

Lemma forallb_pointwise {A} (p q : A -> bool) l :
  (forall x, p x = q x) -> forallb p l = forallb q l.
Proof.
  intros Hpq. induction l as [|x l IH]; simpl; [reflexivity|].
  now rewrite Hpq, IH.
Qed.

(** On an ASCII string a pattern is matched byte by byte. *)
Lemma MatchString_ascii re s :
  strings.is_ascii s = true ->
  regexp.MatchString re s
  = (regexp.min_rep re <=? String.length s)%nat
    && match regexp.max_rep re with
       | Some n => (String.length s <=? n)%nat
       | None => true
       end
    && forallb (fun a => regexp.class re (byte_val a)) (bytes s).
Proof.
  intros Ha. unfold regexp.MatchString. cbv zeta.
  now rewrite (runes_ascii _ Ha), length_map, forallb_map_compose, length_bytes.
Qed.

Lemma spec_name_char_class a :
  regexp.class validNameRe (byte_val a) = spec_name_char a.
Proof.
  unfold validNameRe, regexp.class, spec_name_char, unicode.in_range. cbv zeta.
  apply Bool.eq_iff_eq_true.
  rewrite !orb_true_iff, !andb_true_iff, !Z.leb_le, !Z.eqb_eq. lia.
Qed.

Lemma spec_symbol_char_class a :
  regexp.class validSymbolRe (byte_val a) = spec_symbol_char a.
Proof. reflexivity. Qed.

Lemma spec_name_char_ascii s :
  forallb spec_name_char (bytes s) = true -> strings.is_ascii s = true.
Proof.
  unfold strings.is_ascii. apply forallb_imp. intros a.
  unfold spec_name_char, utf8.RuneSelf. cbv zeta. lia.
Qed.

Lemma spec_symbol_char_ascii s :
  forallb spec_symbol_char (bytes s) = true -> strings.is_ascii s = true.
Proof.
  unfold strings.is_ascii. apply forallb_imp. intros a.
  unfold spec_symbol_char, utf8.RuneSelf. cbv zeta. lia.
Qed.

(** [validNameRe] matches exactly the names the specification admits. *)
Lemma MatchString_spec_name c :
  regexp.MatchString validNameRe (Name c) = spec_name c.
Proof.
  unfold spec_name. destruct (strings.is_ascii (Name c)) eqn:Ha.
  - rewrite (MatchString_ascii _ _ Ha).
    cbn [validNameRe regexp.min_rep regexp.max_rep].
    f_equal. apply forallb_pointwise, spec_name_char_class.
  - destruct (regexp.MatchString validNameRe (Name c)) eqn:Hm;
      [apply name_match_ascii in Hm; congruence|].
    destruct (forallb spec_name_char (bytes (Name c))) eqn:Hc;
      [apply spec_name_char_ascii in Hc; congruence|].
    now rewrite andb_false_r.
Qed.

(** [validSymbolRe] matches exactly the symbols the specification admits. *)
Lemma MatchString_spec_symbol c :
  regexp.MatchString validSymbolRe (Symbol c) = spec_symbol c.
Proof.
  unfold spec_symbol. destruct (strings.is_ascii (Symbol c)) eqn:Ha.
  - rewrite (MatchString_ascii _ _ Ha).
    cbn [validSymbolRe regexp.min_rep regexp.max_rep].
    f_equal.
  - destruct (regexp.MatchString validSymbolRe (Symbol c)) eqn:Hm;
      [apply symbol_match_bytes in Hm as (_ & Hm & _); congruence|].
    destruct (forallb spec_symbol_char (bytes (Symbol c))) eqn:Hc;
      [apply spec_symbol_char_ascii in Hc; congruence|].
    now rewrite andb_false_r.
Qed.

(** Upper-casing changes nothing in an ASCII string without lowercase
    letters. *)
Lemma map_bytes_upper_no_lowercase s :
  has_lowercase s = false ->
  strings.map_bytes
    (fun c => if unicode.in_range 97 122 c then c - 32 else c) s = s.
Proof.
  unfold has_lowercase. induction s as [|a s IH]; [reflexivity|].
  cbn [bytes list_ascii_of_string existsb strings.map_bytes]. intros Hs.
  apply orb_false_iff in Hs as [Ha Hs]. fold (bytes s) in Hs.
  rewrite (IH Hs). unfold unicode.in_range. rewrite Ha.
  now rewrite byte_of_val.
Qed.

Section SpecRules.
Context `{GoTables}.

Lemma rule_supply_spec (label s : string) :
  (spec_supply s = true ->
   (if String.eqb s "" then None
    else option_map (String.append label) (validateSupplyString s)) = None)
  /\ (s <> "" -> is_decimal (strings.TrimSpace s) = false ->
      (if String.eqb s "" then None
       else option_map (String.append label) (validateSupplyString s)) <> None).
Proof.
  split.
  - unfold spec_supply. intros Hs.
    destruct (String.eqb s "") eqn:E; [reflexivity|].
    cbn [orb] in Hs. now rewrite (validateSupplyString_decimal _ Hs).
  - intros Hne Hd. apply String.eqb_neq in Hne. rewrite Hne.
    rewrite validateSupplyString_cases, Hd. discriminate.
Qed.

Lemma rule_exceeds_spec c :
  spec_supply_order c = false -> rule_exceeds c = Some msg_exceeds.
Proof.
  unfold spec_supply_order, rule_exceeds.
  destruct (is_decimal (InitialSupply c)) eqn:Hi; [|discriminate].
  destruct (is_decimal (MaxSupply c)) eqn:Hm; [|discriminate].
  cbn [andb]. intros Hle.
  pose proof (is_decimal_not_empty _ Hi) as Hni.
  pose proof (is_decimal_not_empty _ Hm) as Hnm.
  rewrite Hni, Hnm. cbn [orb].
  now rewrite (SetString10_decimal _ Hi), (SetString10_decimal _ Hm), Hle.
Qed.

Lemma rule_symbol_no_lowercase c :
  strings.is_ascii (Symbol c) = true -> has_lowercase (Symbol c) = false ->
  spec_symbol c = false -> rule_symbol c <> None.
Proof.
  intros Ha Hl Hs. unfold rule_symbol.
  destruct (String.eqb (strings.TrimSpace (Symbol c)) ""); [discriminate|].
  unfold strings.ToUpper. rewrite Ha, (map_bytes_upper_no_lowercase _ Hl).
  rewrite MatchString_spec_symbol, Hs. discriminate.
Qed.

(** C4, at the failing input and in general: the symbol [mtk] violates the
    symbol rule of the specification (and no other rule is violated), yet
    [Validate] collects no message and returns no error, so a violated rule
    contributes nothing.  For every configuration the messages are those of
    the checks in the order name, symbol, decimals, initial supply, maximum
    supply, supply order, access control, none stopping the next, and the
    error joins them all.  A violated name, decimals, supply-order or
    access-control rule always has its message in the list, and so has a
    supply that is not a decimal string even once trimmed, a blank symbol,
    and an ASCII symbol without lowercase letters that violates the symbol
    rule; a symbol and a supply that satisfy their rule have none. *)
Theorem Validate_misses_symbol_rule :
  (spec_violated lowercaseSymbolConfig = ["symbol"]
   /\ snd (Validate_body lowercaseSymbolConfig) = []
   /\ snd (Validate lowercaseSymbolConfig) = None)
  /\ (forall c,
        snd (Validate_body c)
        = olist (rule_name c) ++ olist (rule_symbol c)
          ++ olist (rule_decimals c) ++ olist (rule_initialSupply c)
          ++ olist (rule_maxSupply c) ++ olist (rule_exceeds c)
          ++ olist (rule_accessControl c)
        /\ snd (Validate c)
           = match snd (Validate_body c) with
             | [] => None
             | errs => Some (strings.Join errs (String "010" "  - "))
             end
        /\ (spec_name c = false ->
            rule_name c = Some msg_name_required
            \/ rule_name c = Some msg_name_invalid)
        /\ (spec_symbol c = true -> rule_symbol c = None)
        /\ (strings.TrimSpace (Symbol c) = "" ->
            rule_symbol c = Some msg_symbol_required)
        /\ (strings.is_ascii (Symbol c) = true ->
            has_lowercase (Symbol c) = false ->
            spec_symbol c = false -> rule_symbol c <> None)
        /\ (spec_decimals c = false <-> rule_decimals c = Some msg_decimals)
        /\ (spec_supply (InitialSupply c) = true -> rule_initialSupply c = None)
        /\ (InitialSupply c <> "" ->
            is_decimal (strings.TrimSpace (InitialSupply c)) = false ->
            rule_initialSupply c <> None)
        /\ (spec_supply (MaxSupply c) = true -> rule_maxSupply c = None)
        /\ (MaxSupply c <> "" ->
            is_decimal (strings.TrimSpace (MaxSupply c)) = false ->
            rule_maxSupply c <> None)
        /\ (spec_supply_order c = false -> rule_exceeds c = Some msg_exceeds)
        /\ (spec_access c = false
            <-> rule_accessControl c = Some (msg_access (AccessControl c)))).
Proof.
  split; [repeat split; vm_compute; reflexivity|].
  intros c. split.
  { rewrite Validate_body_spec. cbn [snd]. unfold violations, rules.
    cbn [flat_map]. now rewrite app_nil_r. }
  split; [now rewrite Validate_spec, Validate_body_spec|].
  split.
  { intros Hn. unfold rule_name. rewrite MatchString_spec_name, Hn.
    destruct (String.eqb (strings.TrimSpace (Name c)) ""); [now left|now right]. }
  split.
  { intros Hs. apply rule_symbol_matching. now rewrite MatchString_spec_symbol. }
  split.
  { intros Hb. unfold rule_symbol. now rewrite Hb. }
  split; [apply rule_symbol_no_lowercase|].
  split.
  { unfold spec_decimals, rule_decimals.
    destruct (Decimals c <=? 18)%N; split; intros E;
      reflexivity || discriminate E. }
  split; [exact (proj1 (rule_supply_spec "initial supply: " (InitialSupply c)))|].
  split; [exact (proj2 (rule_supply_spec "initial supply: " (InitialSupply c)))|].
  split; [exact (proj1 (rule_supply_spec "max supply: " (MaxSupply c)))|].
  split; [exact (proj2 (rule_supply_spec "max supply: " (MaxSupply c)))|].
  split; [apply rule_exceeds_spec|].
  unfold spec_access, rule_accessControl, AccessOwnable, AccessRoles, AccessNone.
  destruct (existsb _ _); split; intros E; reflexivity || discriminate E.
Qed.

End SpecRules.

(** ** The properties on concrete configurations *)

Lemma Validate_success_invariant_witness :
  snd (@Validate latin1_tables votesConfig) = None
  /\ In (AccessControl (fst (@Validate latin1_tables votesConfig)))
        [AccessOwnable; AccessRoles; AccessNone]
  /\ License (fst (@Validate latin1_tables votesConfig)) <> ""
  /\ Snapshot (fst (@Validate latin1_tables votesConfig)) = true.
Proof.
  destruct (@Validate_success_invariant latin1_tables votesConfig)
    as (Ha & _ & Hl & _ & Hv & _); [vm_compute; reflexivity|].
  split; [vm_compute; reflexivity|].
  split; [exact Ha|]. split; [exact Hl|apply Hv; reflexivity].
Defined.

Lemma Validate_reads_checked_fields_only_witness :
  snd (@Validate latin1_tables invalidConfig)
  = snd (@Validate latin1_tables
           (set_License (set_Votes (set_Mintable invalidConfig true) true)
                        "GPL-3.0")).
Proof.
  apply (@Validate_reads_checked_fields_only latin1_tables invalidConfig
           (set_License (set_Votes (set_Mintable invalidConfig true) true)
                        "GPL-3.0")).
  repeat split.
Defined.

Lemma Validate_votes_brings_snapshot_witness :
  exists front back,
    InheritanceList (fst (@Validate latin1_tables votesConfig))
    = front ++ ["ERC20Snapshot"; "ERC20Votes"] ++ back.
Proof.
  apply (@Validate_votes_brings_snapshot latin1_tables votesConfig).
  reflexivity.
Defined.

Lemma CollectTokenConfig_validates_witness :
  prompts.CollectTokenConfig exampleSurvey = prompts.Returned exampleAnswer
  /\ @rule_decimals exampleAnswer = None
  /\ fst (@Validate latin1_tables exampleAnswer)
     = set_Snapshot exampleAnswer true.
Proof.
  assert (E : prompts.CollectTokenConfig exampleSurvey
              = prompts.Returned exampleAnswer) by (vm_compute; reflexivity).
  destruct (@CollectTokenConfig_validates latin1_tables exampleSurvey
              exampleAnswer E) as (_ & _ & _ & Hd & _ & Hf).
  split; [exact E|]. split; [exact Hd|].
  rewrite Hf; [reflexivity| |]; cbn; tauto.
Defined.

Lemma Validate_sanitizes_name_and_symbol_witness :
  count_byte 34 (generator.quote (Name baseConfig)) = 2%nat
  /\ count_byte 34 (generator.quote (Symbol baseConfig)) = 2%nat.
Proof.
  destruct (@Validate_sanitizes_name_and_symbol latin1_tables baseConfig)
    as (_ & _ & _ & Hn & Hs & _); [vm_compute; reflexivity|].
  split; [exact Hn|exact Hs].
Defined.
